(** * intel-lpmd: utilization monitor and spike-burst detector

    A shallow embedding of the decision logic of [src/lpmd_util.c] and
    [src/wlt_proxy/spike_mgmt.c], and the properties of it that the
    design specification states.

    Conventions of the embedding.
    - A C [int] is a [Z] in the range [INT_MIN .. INT_MAX].  The result of
      every [+], [-] and [*] on [int] is normalised by [to_int], the two's
      complement wrap-around of the x86-64 build (ISO C leaves signed
      overflow undefined; the theorems say where they need it excluded).
      C division truncates toward zero: [Z.quot].
    - [unsigned long] and [unsigned long long] are 64-bit (LP64): results
      are reduced by [to_ull].
    - A C [float] is an IEEE 754 binary32 number, a [spec_float] of
      precision 24; every operation on it is rounded to nearest even in
      single precision, as the x86-64 build does.
    - File-scope and function-scope [static] variables become fields of an
      explicit state record that every function takes and returns.
    - Calls that leave the translation unit (clock, actuators, allocation,
      the counter file) are inputs of the call or events of a trace. *)

From Stdlib Require Import ZArith Lia Bool List String SpecFloat.
From stdpp Require Import base list.
Import ListNotations.

Local Open Scope Z_scope.

(** ** Machine integers *)

Definition INT_MAX : Z := 2147483647.
Definition INT_MIN : Z := -2147483648.

(** Two's complement reduction to a 32-bit signed [int]. *)
Definition to_int (x : Z) : Z := (x + 2147483648) mod 4294967296 - 2147483648.

(** Reduction to a 64-bit unsigned integer. *)
Definition to_ull (x : Z) : Z := x mod 18446744073709551616.

Definition in_int (x : Z) : Prop := INT_MIN <= x <= INT_MAX.
Definition in_ull (x : Z) : Prop := 0 <= x < 18446744073709551616.

Definition iadd (a b : Z) : Z := to_int (a + b).
Definition isub (a b : Z) : Z := to_int (a - b).
Definition imul (a b : Z) : Z := to_int (a * b).
Definition idiv (a b : Z) : Z := Z.quot a b.

(** ** Single-precision floats *)

Module F32.

Definition float : Type := spec_float.
Definition prec : Z := 24.
Definition emax : Z := 128.

(** Conversion of an integer ([int], [long], or a [double] that holds an
    integer of at most 53 bits) to [float]. *)
Definition of_Z (n : Z) : float := binary_normalize prec emax n 0 false.

Definition sub (x y : float) : float := SFsub prec emax x y.
Definition mul (x y : float) : float := SFmul prec emax x y.
Definition div (x y : float) : float := SFdiv prec emax x y.

(** [x < y]; false when one of them is not a number. *)
Definition ltb (x y : float) : bool := SFltb x y.

(** The value with its fraction dropped; [None] for an infinity and for
    what is not a number. *)
Definition truncate (x : float) : option Z :=
  match x with
  | S754_zero _ => Some 0
  | S754_finite s m e =>
      Some (cond_Zopp s
              (match e with
               | Z0 => Zpos m
               | Zpos p => Zpos m * 2 ^ Zpos p
               | Zneg p => Zpos m / 2 ^ Zpos p
               end))
  | S754_infinity _ | S754_nan => None
  end.

(** The cast [(int) x].  ISO C leaves it undefined when the truncated
    value is not in the range of [int]; the conversion instruction of the
    x86-64 build ([cvttss2si]) then gives [INT_MIN], and so does this. *)
Definition cast_int (x : float) : Z :=
  match truncate x with
  | Some n => if (INT_MIN <=? n) && (n <=? INT_MAX) then n else INT_MIN
  | None => INT_MIN
  end.

End F32.

(** * spike_mgmt.c: spike-burst detector *)

Module SpikeMgmt.

Definition MAX_TRACKED_SPIKE_TIME : Z := 1000.
Definition MAX_BURST_COUNT : Z := 1000.
Definition BURST_COUNT_THRESHOLD : Z := 3.

(** The file's variables; [bc_reset_min] is the one [float].
    [burst_rate_per_min] is written by [update_burst_count] and read only
    by the three queries of [SpikeQuery], which take its value; it is not
    a field here. *)
Record detector : Type := mkDetector {
  burst_count : Z;
  total_spike_time : Z;
  spike_sec_prev : Z;
  spike_rate_total : Z;
  spike_rate_samples : Z;
  spike_burst_flag : bool;
  bc_reset_min : F32.float;
  once_flag : Z;
  strike_count : Z
}.

(** Static initialisation: everything zero, [bc_reset_min = 90.0]. *)
Definition detector_init : detector :=
  mkDetector 0 0 0 0 0 false (F32.of_Z 90) 0 0.

(** What a call reads from outside the file: the result of
    [clock_gettime(CLOCK_MONOTONIC)] ([None] when it fails, else [tv_sec]),
    the extern [state_demote], and whether
    [get_cur_state() <= MDRT4E_MODE] holds. *)
Record env : Type := mkEnv {
  clock : option Z;
  state_demote : Z;
  cur_state_le_MDRT4E : bool
}.

Definition set_total_spike_time (v : Z) (d : detector) : detector :=
  mkDetector (burst_count d) v (spike_sec_prev d) (spike_rate_total d)
    (spike_rate_samples d) (spike_burst_flag d) (bc_reset_min d)
    (once_flag d) (strike_count d).

Definition set_spike_sec_prev (v : Z) (d : detector) : detector :=
  mkDetector (burst_count d) (total_spike_time d) v (spike_rate_total d)
    (spike_rate_samples d) (spike_burst_flag d) (bc_reset_min d)
    (once_flag d) (strike_count d).

Definition set_burst_count (v : Z) (d : detector) : detector :=
  mkDetector v (total_spike_time d) (spike_sec_prev d) (spike_rate_total d)
    (spike_rate_samples d) (spike_burst_flag d) (bc_reset_min d)
    (once_flag d) (strike_count d).

Definition set_spike_burst_flag (v : bool) (d : detector) : detector :=
  mkDetector (burst_count d) (total_spike_time d) (spike_sec_prev d)
    (spike_rate_total d) (spike_rate_samples d) v (bc_reset_min d)
    (once_flag d) (strike_count d).

Definition set_bc_reset_min (v : F32.float) (d : detector) : detector :=
  mkDetector (burst_count d) (total_spike_time d) (spike_sec_prev d)
    (spike_rate_total d) (spike_rate_samples d) (spike_burst_flag d) v
    (once_flag d) (strike_count d).

Definition set_once_flag (v : Z) (d : detector) : detector :=
  mkDetector (burst_count d) (total_spike_time d) (spike_sec_prev d)
    (spike_rate_total d) (spike_rate_samples d) (spike_burst_flag d)
    (bc_reset_min d) v (strike_count d).

Definition set_strike_count (v : Z) (d : detector) : detector :=
  mkDetector (burst_count d) (total_spike_time d) (spike_sec_prev d)
    (spike_rate_total d) (spike_rate_samples d) (spike_burst_flag d)
    (bc_reset_min d) (once_flag d) v.

(** [update_spike_rate_avg]: [spike_rate_total += sr; spike_rate_samples++]. *)
Definition update_spike_rate_avg (sr : Z) (d : detector) : detector :=
  mkDetector (burst_count d) (total_spike_time d) (spike_sec_prev d)
    (iadd (spike_rate_total d) sr) (iadd (spike_rate_samples d) 1)
    (spike_burst_flag d) (bc_reset_min d) (once_flag d) (strike_count d).

(** [clear_spike_rate_avg]. *)
Definition clear_spike_rate_avg (d : detector) : detector :=
  mkDetector (burst_count d) (total_spike_time d) (spike_sec_prev d)
    0 0 (spike_burst_flag d) (bc_reset_min d) (once_flag d) (strike_count d).

(** [minutes > 1.0] for [minutes = (float)delta / bc_reset_min]: the
    conversion of the [long] and the division are rounded to [float]; the
    comparison with the [double] 1.0 is exact. *)
Definition minutes_gt_1 (delta : Z) (bc : F32.float) : bool :=
  F32.ltb (F32.of_Z 1) (F32.div (F32.of_Z delta) bc).

(** The macro [SPIKE_TIME_BIAS (avg, min)],
    [((100 - avg) * min / (2 * 100))], on two [float]s. *)
Definition SPIKE_TIME_BIAS (avg min : F32.float) : F32.float :=
  F32.div (F32.mul (F32.sub (F32.of_Z 100) avg) min) (F32.of_Z (2 * 100)).

(** [update_burst_count]; its return value is dropped by both callers, so
    only the new state is kept. *)
Definition update_burst_count (real_spike_burst : Z) (e : env) (d : detector)
  : detector :=
  match clock e with
  | None => d
  | Some sec =>
      if spike_sec_prev d =? 0 then set_spike_sec_prev (to_int sec) d
      else
        let delta := sec - spike_sec_prev d in
        if negb (real_spike_burst =? 0) && cur_state_le_MDRT4E e then
          set_spike_sec_prev (to_int sec)
            (set_burst_count (iadd (burst_count d) 1) d)
        else if minutes_gt_1 delta (bc_reset_min d)
                || (MAX_BURST_COUNT <? burst_count d) then
          set_spike_sec_prev (to_int sec) (set_burst_count 0 d)
        else d
  end.

(** [get_spike_rate]. *)
Definition get_spike_rate (d : detector) : Z :=
  let spike_pct :=
    idiv (imul (total_spike_time d) 100) MAX_TRACKED_SPIKE_TIME in
  if 100 <? spike_pct then 100 else spike_pct.

(** [add_spike_time]. *)
Definition add_spike_time (duration : Z) (e : env) (d : detector) : detector :=
  let d1 :=
    if total_spike_time d <? MAX_TRACKED_SPIKE_TIME
    then set_total_spike_time (iadd (total_spike_time d) duration) d
    else d in
  let d2 :=
    if negb (spike_burst_flag d1) then set_spike_burst_flag true d1
    else if negb (state_demote e =? 0) && (once_flag d1 =? 0)
         then set_once_flag 1 (update_burst_count 1 e d1)
         else d1 in
  update_spike_rate_avg (get_spike_rate d2) d2.

(** [add_non_spike_time].  The falling edge divides by
    [spike_rate_samples]; the division traps on a zero divisor (and on
    [INT_MIN / -1]), which is [None] here.  The quotient, an [int], is
    stored in the [float] [avg]; [60.0 - (int) ...] is a [double] that
    holds an integer and is rounded when stored in [bc_reset_min]. *)
Definition add_non_spike_time (duration : Z) (e : env) (d : detector)
  : option detector :=
  let d1 :=
    if 0 <? total_spike_time d
    then set_total_spike_time (isub (total_spike_time d) duration) d
    else d in
  let d2 :=
    set_total_spike_time
      (if total_spike_time d1 <? 0 then 0 else total_spike_time d1) d1 in
  let sr := get_spike_rate d2 in
  if (sr =? 0) && spike_burst_flag d2 then
    let d3 := set_spike_burst_flag false d2 in
    if (spike_rate_samples d3 =? 0)
       || ((spike_rate_total d3 =? INT_MIN) && (spike_rate_samples d3 =? -1))
    then None
    else
      let avg :=
        F32.of_Z (idiv (spike_rate_total d3) (spike_rate_samples d3)) in
      let d4 := if once_flag d3 =? 0 then update_burst_count 1 e d3 else d3 in
      let d5 :=
        set_bc_reset_min
          (F32.of_Z
             (60 - F32.cast_int (SPIKE_TIME_BIAS avg (bc_reset_min d4))))
          d4 in
      Some (set_once_flag 0 (clear_spike_rate_avg d5))
  else
    Some (set_once_flag 0 (update_burst_count 0 e d2)).

(** [strikeout_once]: the returned count and the new state. *)
Definition strikeout_once (n : Z) (d : detector) : Z * detector :=
  let c1 := if strike_count d =? 0 then n else isub (strike_count d) 1 in
  let c2 := if c1 <? 0 then 0 else c1 in
  (c2, set_strike_count c2 d).

(** A run of the detector: the two entry points, called once per sample. *)
Inductive call : Type :=
  | Spike (duration : Z) (e : env)
  | NonSpike (duration : Z) (e : env).

Definition call_duration (c : call) : Z :=
  match c with Spike t _ => t | NonSpike t _ => t end.

Definition step (c : call) (d : detector) : option detector :=
  match c with
  | Spike t e => Some (add_spike_time t e d)
  | NonSpike t e => add_non_spike_time t e d
  end.

Fixpoint run (cs : list call) (d : detector) : option detector :=
  match cs with
  | [] => Some d
  | c :: cs' =>
      match step c d with
      | Some d' => run cs' d'
      | None => None
      end
  end.

(** Repeated [strikeout_once] calls: the values returned, in order. *)
Fixpoint strikeout_run (ns : list Z) (d : detector) : list Z * detector :=
  match ns with
  | [] => ([], d)
  | n :: ns' =>
      let '(r, d1) := strikeout_once n d in
      let '(rs, d2) := strikeout_run ns' d1 in
      (r :: rs, d2)
  end.

End SpikeMgmt.

(** * lpmd_util.c: counter snapshots and busy percentages *)

Module ProcStat.

(** [enum type_stat]. *)
Definition STAT_CPU : nat := 0.
Definition STAT_USER : nat := 1.
Definition STAT_NICE : nat := 2.
Definition STAT_SYSTEM : nat := 3.
Definition STAT_IDLE : nat := 4.
Definition STAT_IOWAIT : nat := 5.
Definition STAT_IRQ : nat := 6.
Definition STAT_SOFTIRQ : nat := 7.
Definition STAT_STEAL : nat := 8.
Definition STAT_GUEST : nat := 9.
Definition STAT_GUEST_NICE : nat := 10.
Definition STAT_MAX : nat := 11.

(** [struct proc_stat_info]; [stat] has [STAT_MAX] entries. *)
Record proc_stat_info : Type := mkInfo {
  cpu : Z;
  valid : Z;
  stat : list Z
}.

(** An entry as [calloc] and [memset (.., 0, ..)] leave it. *)
Definition zero_info : proc_stat_info := mkInfo 0 0 (replicate STAT_MAX 0).

Definition stat_at (p : proc_stat_info) (idx : nat) : Z :=
  default 0 (stat p !! idx).

(** One iteration of the loop of [calculate_busypct] on [(busy, total)]. *)
Definition busypct_body (cur prev : proc_stat_info) (acc : Z * Z) (idx : nat)
  : Z * Z :=
  let delta := to_ull (stat_at cur idx - stat_at prev idx) in
  let total := to_ull (snd acc + delta) in
  let busy :=
    if negb (idx =? STAT_IDLE)%nat && negb (idx =? STAT_IOWAIT)%nat
    then to_ull (fst acc + delta)
    else fst acc in
  (busy, total).

Definition busypct_sums (cur prev : proc_stat_info) : Z * Z :=
  fold_left (busypct_body cur prev) (seq STAT_USER (STAT_MAX - STAT_USER))
    (0, 0).

(** [calculate_busypct]: the quotient is an [unsigned long long], returned
    as [int]. *)
Definition calculate_busypct (cur prev : proc_stat_info) : Z :=
  let busy := fst (busypct_sums cur prev) in
  let total := snd (busypct_sums cur prev) in
  if total =? 0 then 0 else to_int (to_ull (busy * 10000) / total).

(** A line of the counter file after [strtok]: what its first token is to
    [strncmp (p, "cpu", 3)] and [sscanf (p, "cpu%d", &cpu)], and for each
    later token what [sscanf (p, "%llu", ..)] stores ([None] when it
    converts nothing). *)
Inductive line_tag : Type :=
  | TagOther                (* does not start with "cpu" *)
  | TagSystem               (* "cpu": sscanf returns -1 *)
  | TagCpu (n : Z)          (* "cpu<n>": sscanf returns 1 *)
  | TagUnparsed.            (* starts with "cpu", sscanf returns 0 *)

Record stat_line : Type := mkLine {
  tag : line_tag;
  tokens : list (option Z)
}.

(** The inner token loop: token number [idx] goes to [stat[idx]]. *)
Fixpoint store_fields (toks : list (option Z)) (idx : nat) (st : list Z)
  : list Z :=
  match toks with
  | [] => st
  | t :: toks' =>
      if (STAT_MAX <=? idx)%nat then st
      else store_fields toks' (S idx)
             (match t with Some v => <[idx := v]> st | None => st end)
  end.

(** One line into [proc_stat_cur]; [None] is a store outside the array. *)
Definition parse_line (sys_idx : nat) (cur : list proc_stat_info)
    (l : stat_line) : option (list proc_stat_info) :=
  let slot :=
    match tag l with
    | TagSystem => Some (Z.of_nat sys_idx)
    | TagCpu n => Some n
    | TagOther | TagUnparsed => None
    end in
  match slot with
  | None => Some cur
  | Some z =>
      if z <? 0 then None
      else
        match cur !! Z.to_nat z with
        | None => None
        | Some info =>
            Some (<[Z.to_nat z :=
                     mkInfo (cpu info) 1
                       (store_fields (tokens l) STAT_USER (stat info))]> cur)
        end
  end.

Fixpoint parse_lines (sys_idx : nat) (cur : list proc_stat_info)
    (ls : list stat_line) : option (list proc_stat_info) :=
  match ls with
  | [] => Some cur
  | l :: ls' =>
      match parse_line sys_idx cur l with
      | Some cur' => parse_lines sys_idx cur' ls'
      | None => None
      end
  end.

(** The globals of the sampling code. *)
Record snapshots : Type := mkSnapshots {
  proc_stat_prev : option (list proc_stat_info);
  proc_stat_cur : option (list proc_stat_info);
  busy_sys : Z;
  busy_cpu : Z
}.

Definition snapshots_init : snapshots := mkSnapshots None None (-1) (-1).

(** What one call of [parse_proc_stat] gets from outside: the value of
    [get_max_online_cpu ()], the lines [fopen]/[getline] deliver ([None]
    when [fopen] fails) and whether each [calloc] succeeds. *)
Record sample_input : Type := mkInput {
  max_online_cpu : Z;
  stat_file : option (list stat_line);
  calloc_prev_ok : bool;
  calloc_cur_ok : bool
}.

(** One iteration of the [busy_cpu] loop. *)
Definition busy_cpu_body (cur prev : list proc_stat_info) (acc : Z) (i : nat)
  : Z :=
  match cur !! i, prev !! i with
  | Some c, Some p =>
      if valid c =? 0 then acc
      else
        let val := calculate_busypct c p in
        if acc <? val then val else acc
  | _, _ => acc
  end.

(** [parse_proc_stat]: the return code and the new globals; [None] when the
    call indexes outside its buffers (a negative [get_max_online_cpu ()],
    buffers allocated for another CPU count, a line [cpu<n>] with [n]
    outside the buffer). *)
Definition parse_proc_stat (inp : sample_input) (g : snapshots)
  : option (Z * snapshots) :=
  let count := Z.to_nat (max_online_cpu inp + 1) in
  let sys_idx := (count - 1)%nat in
  match stat_file inp with
  | None => Some (1, g)
  | Some ls =>
      if max_online_cpu inp <? 0 then None
      else
        let prev :=
          match proc_stat_prev g with
          | Some p => Some p
          | None =>
              if calloc_prev_ok inp then Some (replicate count zero_info)
              else None
          end in
        match prev with
        | None => Some (1, mkSnapshots None (proc_stat_cur g)
                             (busy_sys g) (busy_cpu g))
        | Some p =>
            let cur :=
              match proc_stat_cur g with
              | Some c => Some c
              | None =>
                  if calloc_cur_ok inp then Some (replicate count zero_info)
                  else None
              end in
            match cur with
            | None => Some (1, mkSnapshots None None (busy_sys g) (busy_cpu g))
            | Some c =>
                if negb ((length p =? count)%nat && (length c =? count)%nat)
                then None
                else
                  let prev' := c in
                  match parse_lines sys_idx (replicate count zero_info) ls with
                  | None => None
                  | Some cur' =>
                      let bsys :=
                        calculate_busypct
                          (default zero_info (cur' !! sys_idx))
                          (default zero_info (prev' !! sys_idx)) in
                      let bcpu :=
                        fold_left (busy_cpu_body cur' prev')
                          (seq 1 (Z.to_nat (max_online_cpu inp))) 0 in
                      Some (0, mkSnapshots (Some prev') (Some cur') bsys bcpu)
                  end
            end
        end
  end.

End ProcStat.

(** * lpmd_util.c: hysteresis filter of the simple classifier *)

Module Hyst.

Inductive system_status : Type :=
  | SYS_IDLE | SYS_NORMAL | SYS_OVERLOAD | SYS_UNKNOWN.

Definition DECAY_PERIOD : Z := 5.

Record timespec : Type := mkTimespec { tv_sec : Z; tv_nsec : Z }.

(** The file-scope variables [util_should_proceed] works on; the six
    numbers are [unsigned long]. *)
Record hyst : Type := mkHyst {
  tp_last_in : timespec;
  tp_last_out : timespec;
  util_out_hyst : Z;
  util_in_hyst : Z;
  util_in_min : Z;
  util_out_min : Z;
  avg_in : Z;
  avg_out : Z
}.

Definition set_avg_in (v : Z) (h : hyst) : hyst :=
  mkHyst (tp_last_in h) (tp_last_out h) (util_out_hyst h) (util_in_hyst h)
    (util_in_min h) (util_out_min h) v (avg_out h).

Definition set_avg_out (v : Z) (h : hyst) : hyst :=
  mkHyst (tp_last_in h) (tp_last_out h) (util_out_hyst h) (util_in_hyst h)
    (util_in_min h) (util_out_min h) (avg_in h) v.

(** Milliseconds from [last] to [now], as stored in an [unsigned long]. *)
Definition elapsed_ms (now last : timespec) : Z :=
  to_ull ((tv_sec now - tv_sec last) * 1000000000
          + tv_nsec now - tv_nsec last) / 1000000.

(** [avg * (DECAY_PERIOD - 1) / DECAY_PERIOD + cur / DECAY_PERIOD]. *)
Definition decay_fold (avg cur : Z) : Z :=
  to_ull (to_ull (avg * (DECAY_PERIOD - 1)) / DECAY_PERIOD
          + cur / DECAY_PERIOD).

(** [avg * (DECAY_PERIOD + 1) / DECAY_PERIOD]. *)
Definition penalty (avg : Z) : Z :=
  to_ull (avg * (DECAY_PERIOD + 1)) / DECAY_PERIOD.

(** [util_should_proceed]; [tp_now] is what [clock_gettime] returns. *)
Definition util_should_proceed (status : system_status) (tp_now : timespec)
    (h : hyst) : Z * hyst :=
  if (util_out_hyst h =? 0) && (util_in_hyst h =? 0) then (1, h)
  else
    match status with
    | SYS_IDLE =>
        let cur_out := elapsed_ms tp_now (tp_last_out h) in
        let h1 := set_avg_out (decay_fold (avg_out h) cur_out) h in
        if (util_in_hyst h1 <=? avg_in h1) && (util_out_min h1 <=? cur_out)
        then (1, h1)
        else (0, set_avg_in (penalty (avg_in h1)) h1)
    | SYS_OVERLOAD =>
        let cur_in := elapsed_ms tp_now (tp_last_in h) in
        let h1 := set_avg_in (decay_fold (avg_in h) cur_in) h in
        if (util_out_hyst h1 <=? avg_out h1) && (util_in_min h1 <=? cur_in)
        then (1, h1)
        else (0, set_avg_out (penalty (avg_out h1)) h1)
    | SYS_NORMAL | SYS_UNKNOWN => (0, h)
    end.

(** The lazy initialisation in [periodic_util_update], from the configured
    entry and exit hysteresis and the two clock readings. *)
Definition hyst_init (entry_hyst exit_hyst : Z) (t_in t_out : timespec)
  : hyst :=
  mkHyst t_in t_out exit_hyst entry_hyst (entry_hyst / 2) (exit_hyst / 2)
    entry_hyst exit_hyst.

Definition hysteresis_enabled (h : hyst) : Prop :=
  ~ (util_out_hyst h = 0 /\ util_in_hyst h = 0).

End Hyst.

(** * lpmd_util.c: config-state matcher *)

Module Matcher.

Definition DEFAULT_POLL_RATE_MS : Z := 1000.

(** Modelled from the spec: [lpmd_config_state_t] is declared in [lpmd.h],
    which is not among the sources; the record has the fields that
    [state_match], [enter_state] and [process_next_config_state] read or
    write, all [int] but the CPU list. *)
Record lpmd_config_state_t : Type := mkState {
  valid : Z;
  wlt_type : Z;
  entry_system_load_thres : Z;
  exit_system_load_hyst : Z;
  enter_cpu_load_thres : Z;
  enter_gfx_load_thres : Z;
  min_poll_interval : Z;
  max_poll_interval : Z;
  poll_interval_increment : Z;
  epp : Z;
  epb : Z;
  itmt_state : Z;
  irq_migrate : Z;
  active_cpus : string;
  entry_load_sys : Z;
  entry_load_cpu : Z
}.

(** [state->entry_load_sys = bsys; state->entry_load_cpu = bcpu]. *)
Definition set_entry_load (bsys bcpu : Z) (s : lpmd_config_state_t)
  : lpmd_config_state_t :=
  mkState (valid s) (wlt_type s) (entry_system_load_thres s)
    (exit_system_load_hyst s) (enter_cpu_load_thres s)
    (enter_gfx_load_thres s) (min_poll_interval s) (max_poll_interval s)
    (poll_interval_increment s) (epp s) (epb s) (itmt_state s)
    (irq_migrate s) (active_cpus s) bsys bcpu.

(** The matcher's variables: [current_state] points into the state array
    of the configuration and is kept as an index ([None] for [NULL]);
    [interval] is the [static] of [enter_state]; [config_states] is the
    array, [config_state_count] its length. *)
Record matcher : Type := mkMatcher {
  current_state : option nat;
  interval : Z;
  config_states : list lpmd_config_state_t
}.

Definition matcher_init (cfg : list lpmd_config_state_t) : matcher :=
  mkMatcher None DEFAULT_POLL_RATE_MS cfg.

(** [state == current_state] for the state at index [i]. *)
Definition is_current (cur : option nat) (i : nat) : bool :=
  match cur with
  | Some c => (c =? i)%nat
  | None => false
  end.

(** [state_match]; [active] is [state == current_state]. *)
Definition state_match (active : bool) (state : lpmd_config_state_t)
    (bsys bcpu bgfx wlt_index : Z) : bool :=
  if valid state =? 0 then false
  else if negb (wlt_type state =? -1)
          && negb (wlt_type state =? wlt_index) then false
  else if negb (wlt_type state =? -1)
          && (enter_gfx_load_thres state =? 0) then true
  else if (enter_cpu_load_thres state =? 0)
          && (entry_system_load_thres state =? 0)
          && (enter_gfx_load_thres state =? 0) then true
  else if negb (enter_cpu_load_thres state =? 0)
          && (enter_cpu_load_thres state <? bcpu) then false
  else if negb (enter_gfx_load_thres state =? 0)
          && negb (bgfx =? -1)
          && (enter_gfx_load_thres state <? bgfx) then false
  else if negb (entry_system_load_thres state =? 0)
          && (entry_system_load_thres state <? bsys) then
    if (exit_system_load_hyst state =? 0) || negb active then false
    else if (iadd (entry_load_sys state) (exit_system_load_hyst state) <? bsys)
            || (iadd (entry_system_load_thres state)
                  (exit_system_load_hyst state) <? bsys)
         then false
         else true
  else true.

(** Calls to the actuator interface, in the order they are made. *)
Inductive cpumask_idx : Type := CPUMASK_UTIL | CPUMASK_MAX.

Inductive event : Type :=
  | set_lpm_epp (v : Z)
  | set_lpm_epb (v : Z)
  | set_lpm_itmt (v : Z)
  | reset_cpus (m : cpumask_idx)
  | parse_cpu_str (s : string) (m : cpumask_idx)
  | set_lpm_irq_mask (m : cpumask_idx) (action : Z)
  | set_lpm_irq_null (action : Z)
  | set_lpm_cpus (m : cpumask_idx)
  | process_lpm_UTIL_ENTER.

Section WithSettings.

(** The macro [SETTING_IGNORE] of [lpmd.h]. *)
Variable SETTING_IGNORE : Z.

(** The polling interval of a state that stays active. *)
Definition adjust_interval (state : lpmd_config_state_t) (interval0 bcpu : Z)
  : Z :=
  let i1 :=
    if 0 <? poll_interval_increment state
    then iadd interval0 (poll_interval_increment state)
    else interval0 in
  let i2 :=
    if poll_interval_increment state =? -1
    then imul (idiv (idiv (imul (max_poll_interval state) (isub 10000 bcpu))
                       10000) 100) 100
    else i1 in
  let i3 :=
    if negb (min_poll_interval state =? 0) && (i2 <? min_poll_interval state)
    then min_poll_interval state else i2 in
  if negb (max_poll_interval state =? 0) && (max_poll_interval state <? i3)
  then max_poll_interval state else i3.

(** The actuator calls of a change of state. *)
Definition actuate (state : lpmd_config_state_t) : list event :=
  [set_lpm_epp (epp state); set_lpm_epb (epb state);
   set_lpm_itmt (itmt_state state)]
  ++ (if negb (String.eqb (active_cpus state) EmptyString)
      then [reset_cpus CPUMASK_UTIL;
            parse_cpu_str (active_cpus state) CPUMASK_UTIL;
            (if negb (irq_migrate state =? SETTING_IGNORE)
             then set_lpm_irq_mask CPUMASK_UTIL 1
             else set_lpm_irq_null SETTING_IGNORE);
            set_lpm_cpus CPUMASK_UTIL]
      else [set_lpm_irq_null SETTING_IGNORE; set_lpm_cpus CPUMASK_MAX])
  ++ [process_lpm_UTIL_ENTER].

(** [enter_state] on the state at index [i]: the interval returned, the
    new variables and the actuator calls made. *)
Definition enter_state (m : matcher) (i : nat) (state : lpmd_config_state_t)
    (bsys bcpu : Z) : Z * matcher * list event :=
  let state' := set_entry_load bsys bcpu state in
  let cfg' := <[i := state']> (config_states m) in
  if is_current (current_state m) i then
    let iv := adjust_interval state' (interval m) bcpu in
    (iv, mkMatcher (current_state m) iv cfg', [])
  else
    let iv :=
      if negb (min_poll_interval state' =? 0) then min_poll_interval state'
      else DEFAULT_POLL_RATE_MS in
    (iv, mkMatcher (Some i) iv cfg', actuate state').

(** The loop of [process_next_config_state] from index [i] on, [rest]
    being the states not yet looked at. *)
Fixpoint scan_states (m : matcher) (i : nat) (rest : list lpmd_config_state_t)
    (bsys bcpu bgfx wlt_index : Z) : Z * matcher * list event :=
  match rest with
  | [] => (-1, m, [])
  | state :: rest' =>
      if state_match (is_current (current_state m) i) state
           bsys bcpu bgfx wlt_index
      then enter_state m i state bsys bcpu
      else scan_states m (S i) rest' bsys bcpu bgfx wlt_index
  end.

(** [process_next_config_state]; the closing [dump_system_status] only
    writes the log. *)
Definition process_next_config_state (m : matcher)
    (bsys bcpu bgfx wlt_index : Z) : Z * matcher * list event :=
  scan_states m 0 (config_states m) bsys bcpu bgfx wlt_index.

End WithSettings.

(** The index of the state the matcher is in after a tick. *)
Definition selected (r : Z * matcher * list event) : option nat :=
  current_state (snd (fst r)).

End Matcher.

(** * Invariants and reference functions used by the statements *)

Module SpikeInv.
Import SpikeMgmt.

(** After [n] calls the sample counter is between 0 and [n], and it is at
    least 1 while a burst is flagged. *)
Definition samples_inv (n : Z) (d : detector) : Prop :=
  0 <= spike_rate_samples d <= n
  /\ (spike_burst_flag d = true -> 1 <= spike_rate_samples d).

(** The window [total_spike_time] stays in when no duration exceeds [D]. *)
Definition spike_time_inv (D : Z) (d : detector) : Prop :=
  0 <= total_spike_time d <= MAX_TRACKED_SPIKE_TIME - 1 + D.

(** No burst in progress: the flag is clear, and with it the per-burst
    guard and the accumulators of the burst average, as the falling edge
    and the initial state leave them. *)
Definition quiescent (d : detector) : Prop :=
  spike_burst_flag d = false /\ once_flag d = 0
  /\ spike_rate_total d = 0 /\ spike_rate_samples d = 0.

(** [total_spike_time] after the first statement of [add_spike_time]. *)
Definition spike_time_after_spike (t : Z) (d : detector) : Z :=
  if total_spike_time d <? MAX_TRACKED_SPIKE_TIME
  then iadd (total_spike_time d) t else total_spike_time d.

(** [total_spike_time] after the first two statements of
    [add_non_spike_time]. *)
Definition spike_time_after_non_spike (t : Z) (d : detector) : Z :=
  Z.max 0 (if 0 <? total_spike_time d
           then isub (total_spike_time d) t else total_spike_time d).

(** The division [spike_rate_total / spike_rate_samples] traps. *)
Definition division_traps (d : detector) : bool :=
  (spike_rate_samples d =? 0)
  || ((spike_rate_total d =? INT_MIN) && (spike_rate_samples d =? -1)).

(** [get_spike_rate] as a function of [total_spike_time]. *)
Definition rate_of (total : Z) : Z :=
  let spike_pct := idiv (imul total 100) MAX_TRACKED_SPIKE_TIME in
  if 100 <? spike_pct then 100 else spike_pct.

(** [bc_reset_min] after a falling edge with burst average [avg], an
    [int], and the old value [bc]. *)
Definition retuned (avg : Z) (bc : F32.float) : F32.float :=
  F32.of_Z (60 - F32.cast_int (SPIKE_TIME_BIAS (F32.of_Z avg) bc)).

(** [bc_reset_min] holds the whole number [k]. *)
Definition bc_reset_min_is (k : Z) (d : detector) : Prop :=
  bc_reset_min d = F32.of_Z k.

(** In single precision [(int) SPIKE_TIME_BIAS (avg, k)] is the truncated
    quotient [(100 - avg) * k / 200]. *)
Definition bias_exact_at (avg k : Z) : bool :=
  F32.cast_int (SPIKE_TIME_BIAS (F32.of_Z avg) (F32.of_Z k))
  =? Z.quot ((100 - avg) * k) 200.

(** The check of [bias_exact_at] for [avg] in 0..100 and [k] in 15..90. *)
Definition bias_exact_table : bool :=
  forallb (fun a =>
             forallb (fun k => bias_exact_at (Z.of_nat a) (Z.of_nat k))
               (seq 15 76))
    (seq 0 101).

(** With non-negative durations the burst average stays in 0..100 and
    [bc_reset_min] holds a whole number in 15..90. *)
Definition float_exact_inv (n : Z) (d : detector) : Prop :=
  0 <= spike_rate_total d <= 100 * spike_rate_samples d
  /\ spike_rate_samples d <= n
  /\ exists k, bc_reset_min_is k d /\ 15 <= k <= 90.

End SpikeInv.

Module ProcStatRef.
Import ProcStat.

(** The change of one counter between the two generations, as a number. *)
Definition delta (cur prev : proc_stat_info) (idx : nat) : Z :=
  stat_at cur idx - stat_at prev idx.

Definition is_busy_field (idx : nat) : bool :=
  negb (idx =? STAT_IDLE)%nat && negb (idx =? STAT_IOWAIT)%nat.

Definition counter_fields : list nat := seq STAT_USER (STAT_MAX - STAT_USER).

Definition sum_delta (cur prev : proc_stat_info) (idxs : list nat) : Z :=
  fold_right Z.add 0 (map (delta cur prev) idxs).

(** The sum of the changes of all ten counters, and of the eight that are
    neither idle nor iowait. *)
Definition total_delta (cur prev : proc_stat_info) : Z :=
  sum_delta cur prev counter_fields.

Definition busy_delta (cur prev : proc_stat_info) : Z :=
  sum_delta cur prev (List.filter is_busy_field counter_fields).

(** A counter went backwards between the generations. *)
Definition regressed (cur prev : proc_stat_info) : Prop :=
  exists idx, In idx counter_fields /\ stat_at cur idx < stat_at prev idx.

(** The reading of [busy_cpu] the specification gives: the largest busy
    percentage among the per-CPU lines of this round (0 when there is
    none). *)
Definition cpu_line_slots (ls : list stat_line) : list nat :=
  flat_map (fun l => match tag l with
                     | TagCpu n => [Z.to_nat n]
                     | _ => []
                     end) ls.

Definition max_busy_of_cpu_lines (ls : list stat_line)
    (cur prev : list proc_stat_info) : Z :=
  fold_left Z.max
    (map (fun i => calculate_busypct (default zero_info (cur !! i))
                     (default zero_info (prev !! i)))
         (cpu_line_slots ls)) 0.

(** A line with the ten counters [user] and [idle] set and the rest 0. *)
Definition counters_line (t : line_tag) (user idle : Z) : stat_line :=
  mkLine t [Some user; Some 0; Some 0; Some idle; Some 0; Some 0; Some 0;
            Some 0; Some 0; Some 0].

(** Two rounds on a machine for which [get_max_online_cpu ()] is 2: in the
    second round cpu0 was busy for all of its 100 ticks and cpu1 idle for
    all of its 100. *)
Definition round1_lines : list stat_line :=
  [counters_line TagSystem 1000 1000; counters_line (TagCpu 0) 500 500;
   counters_line (TagCpu 1) 500 500].

Definition round2_lines : list stat_line :=
  [counters_line TagSystem 1100 1100; counters_line (TagCpu 0) 600 500;
   counters_line (TagCpu 1) 500 600].

Definition round1 : sample_input := mkInput 2 (Some round1_lines) true true.
Definition round2 : sample_input := mkInput 2 (Some round2_lines) true true.

(** The same two rounds if [get_max_online_cpu ()] is the highest CPU
    number, 1, rather than the number of CPUs. *)
Definition round1' : sample_input := mkInput 1 (Some round1_lines) true true.
Definition round2' : sample_input := mkInput 1 (Some round2_lines) true true.

(** Two generations in which [user] fell from 100 to 50 and [idle] rose
    from 100 to 200. *)
Definition regressed_cur : proc_stat_info :=
  mkInfo 0 1 [0; 50; 0; 0; 200; 0; 0; 0; 0; 0; 0].
Definition regressed_prev : proc_stat_info :=
  mkInfo 0 1 [0; 100; 0; 0; 100; 0; 0; 0; 0; 0; 0].

End ProcStatRef.

Module MatcherRef.
Import Matcher.

(** A state that is valid, takes any workload type and has only a system
    load threshold: entry threshold 50%, hysteresis 10%, entered at a
    system load of 45%. *)
Definition overshoot_state : lpmd_config_state_t :=
  mkState 1 (-1) 5000 1000 0 0 1000 1000 (-1) 0 0 0 0 EmptyString 4500 0.

(** A catch-all state polled every 500 to 2000 ms in steps of 50 ms. *)
Definition stepping_state : lpmd_config_state_t :=
  mkState 1 (-1) 0 0 0 0 500 2000 50 0 0 0 0 EmptyString 0 0.

(** An adaptive state whose lower bound is not a multiple of 100 ms. *)
Definition adaptive_state : lpmd_config_state_t :=
  mkState 1 (-1) 0 0 0 0 250 1000 (-1) 0 0 0 0 EmptyString 0 0.

(** A state that never matches, and a catch-all one. *)
Definition invalid_state : lpmd_config_state_t :=
  mkState 0 (-1) 0 0 0 0 1000 1000 (-1) 0 0 0 0 EmptyString 0 0.
Definition default_state : lpmd_config_state_t :=
  mkState 1 (-1) 0 0 0 0 1000 1000 (-1) 0 0 0 0 EmptyString 0 0.

(** The state passes every check of [state_match] that comes before the
    system load threshold. *)
Definition reaches_system_check (state : lpmd_config_state_t)
    (bcpu bgfx wlt_index : Z) : Prop :=
  valid state <> 0
  /\ (wlt_type state = -1
      \/ (wlt_type state = wlt_index /\ enter_gfx_load_thres state <> 0))
  /\ (enter_cpu_load_thres state = 0 \/ bcpu <= enter_cpu_load_thres state)
  /\ (enter_gfx_load_thres state = 0 \/ bgfx = -1
      \/ bgfx <= enter_gfx_load_thres state).

End MatcherRef.

(** * spike_mgmt.c: burst-rate queries *)

Module SpikeQuery.
Import SpikeMgmt.

(** The queries only read the file-scope [burst_rate_per_min]; they take
    its value. *)
Definition get_burst_rate_per_min (burst_rate_per_min : Z) : Z :=
  burst_rate_per_min.

(** [fresh_burst_response]. *)
Definition fresh_burst_response (burst_rate_per_min initial_burst_rate : Z)
  : Z :=
  if initial_burst_rate =? 0 then 0
  else if (BURST_COUNT_THRESHOLD <=? initial_burst_rate)
          || (initial_burst_rate
              <? get_burst_rate_per_min burst_rate_per_min)
       then 1 else 0.

(** [burst_rate_breach]. *)
Definition burst_rate_breach (burst_rate_per_min : Z) : Z :=
  if BURST_COUNT_THRESHOLD <=? get_burst_rate_per_min burst_rate_per_min
  then 1 else 0.

End SpikeQuery.

(** * lpmd_util.c: graphics utilization *)

Module Gfx.
Import Hyst.

Definition ULLONG_MAX : Z := 18446744073709551615.

(** The two files [.../tile0/gt0/gtidle/idle_residency_ms] and
    [.../tile0/gt1/gtidle/idle_residency_ms]. *)
Inductive gt : Type := GT0 | GT1.

(** What [fopen] and [fscanf (fp, "%lld", ..)] make of a residency file:
    it cannot be opened, a number is scanned, or nothing is scanned. *)
Inductive residency_read : Type :=
  | NoFile
  | Scanned (v : Z)
  | NotScanned.

(** The variables of the graphics sampling: the two paths ([None] for
    [NULL]), the statics of [get_gfx_util_sysfs], of
    [parse_gfx_util_sysfs] and of [parse_gfx_util_msr], and [busy_gfx]. *)
Record gfx_state : Type := mkGfx {
  path_gfx_rc6 : option gt;
  path_sam_mc6 : option gt;
  gfx_rc6_prev : Z;
  sam_mc6_prev : Z;
  gfx_sysfs_available : Z;
  ts_prev : timespec;
  val_prev : Z;
  tsc_prev : Z;
  busy_gfx : Z
}.

Definition gfx_init : gfx_state :=
  mkGfx None None ULLONG_MAX ULLONG_MAX 1 (mkTimespec 0 0) 0 0 (-1).

(** What one call reads from outside: whether [access (.., R_OK)] succeeds
    on the two residency files, the first bytes of [buf] after a successful
    [fread] of [.../gt0/gtidle/name] ([None] when [fopen] fails or [fread]
    reads nothing), the content of the residency files, the values the
    locals [gfx_rc6] and [sam_mc6] hold when they are never assigned, the
    clock, and the two registers ([UINT64_MAX] for a failed [read_msr]).
    [fopen] of a path that is still [NULL] fails, as on Linux. *)
Record gfx_env : Type := mkGfxEnv {
  gt0_readable : bool;
  gt1_readable : bool;
  name_buf : option string;
  residency : gt -> residency_read;
  indet_gfx_rc6 : Z;
  indet_sam_mc6 : Z;
  ts_cur : timespec;
  msr_tsc : Z;
  msr_gfx_c0 : Z
}.

Definition set_paths (g s : option gt) (st : gfx_state) : gfx_state :=
  mkGfx g s (gfx_rc6_prev st) (sam_mc6_prev st) (gfx_sysfs_available st)
    (ts_prev st) (val_prev st) (tsc_prev st) (busy_gfx st).

Definition set_busy_gfx (v : Z) (st : gfx_state) : gfx_state :=
  mkGfx (path_gfx_rc6 st) (path_sam_mc6 st) (gfx_rc6_prev st)
    (sam_mc6_prev st) (gfx_sysfs_available st) (ts_prev st) (val_prev st)
    (tsc_prev st) v.

Definition set_residency_prev (g s : Z) (st : gfx_state) : gfx_state :=
  mkGfx (path_gfx_rc6 st) (path_sam_mc6 st) g s (gfx_sysfs_available st)
    (ts_prev st) (val_prev st) (tsc_prev st) (busy_gfx st).

Definition set_gfx_sysfs_available (v : Z) (st : gfx_state) : gfx_state :=
  mkGfx (path_gfx_rc6 st) (path_sam_mc6 st) (gfx_rc6_prev st)
    (sam_mc6_prev st) v (ts_prev st) (val_prev st) (tsc_prev st)
    (busy_gfx st).

Definition set_ts_prev (t : timespec) (st : gfx_state) : gfx_state :=
  mkGfx (path_gfx_rc6 st) (path_sam_mc6 st) (gfx_rc6_prev st)
    (sam_mc6_prev st) (gfx_sysfs_available st) t (val_prev st) (tsc_prev st)
    (busy_gfx st).

Definition set_msr_prev (tsc val : Z) (st : gfx_state) : gfx_state :=
  mkGfx (path_gfx_rc6 st) (path_sam_mc6 st) (gfx_rc6_prev st)
    (sam_mc6_prev st) (gfx_sysfs_available st) (ts_prev st) val tsc
    (busy_gfx st).

(** [probe_gfx_util_sysfs]: the return code and the paths it sets. *)
Definition probe_gfx_util_sysfs (e : gfx_env) (st : gfx_state)
  : Z * gfx_state :=
  if negb (gt0_readable e) then (1, st)
  else
    match name_buf e with
    | None => (1, st)
    | Some buf =>
        if String.prefix "gt0-rc" buf then
          (0, set_paths
                (if gt0_readable e then Some GT0 else path_gfx_rc6 st)
                (if gt1_readable e then Some GT1 else path_sam_mc6 st) st)
        else if String.prefix "gt0-mc" buf then
          (0, set_paths
                (if gt1_readable e then Some GT1 else path_gfx_rc6 st)
                (if gt0_readable e then Some GT0 else path_sam_mc6 st) st)
        else (0, st)
    end.

(** The value of [gfx_rc6] (or [sam_mc6]) after the [fopen]/[fscanf]
    block. *)
Definition read_residency (e : gfx_env) (path : option gt) (indet : Z) : Z :=
  match path with
  | None => to_ull indet
  | Some g =>
      match residency e g with
      | NoFile => to_ull indet
      | Scanned v => to_ull v
      | NotScanned => ULLONG_MAX
      end
  end.

(** [10000 - (cur - prev) * 10000 / time_ms] in [unsigned long long],
    stored in an [int]; [None] when the division traps. *)
Definition residency_util (cur prev time_ms : Z) : option Z :=
  if time_ms =? 0 then None
  else Some (to_int (to_ull (10000 - to_ull (to_ull (cur - prev) * 10000)
                                     / time_ms))).

(** One of the two [if (.. != ULLONG_MAX)] blocks: the utilization and
    the new [.._prev]. *)
Definition sample_residency (cur prev time_ms : Z) : option (Z * Z) :=
  if cur =? ULLONG_MAX then Some (-1, prev)
  else if prev =? ULLONG_MAX then Some (-1, cur)
  else
    match residency_util cur prev time_ms with
    | Some u => Some (u, cur)
    | None => None
    end.

(** [get_gfx_util_sysfs]. *)
Definition get_gfx_util_sysfs (time_ms : Z) (e : gfx_env) (st : gfx_state)
  : option (Z * gfx_state) :=
  let gfx_rc6 := read_residency e (path_gfx_rc6 st) (indet_gfx_rc6 e) in
  let sam_mc6 := read_residency e (path_sam_mc6 st) (indet_sam_mc6 e) in
  if (gfx_rc6 =? ULLONG_MAX) && (sam_mc6 =? ULLONG_MAX) then Some (-1, st)
  else
    match sample_residency gfx_rc6 (gfx_rc6_prev st) time_ms with
    | None => None
    | Some (gfx_util, gprev) =>
        match sample_residency sam_mc6 (sam_mc6_prev st) time_ms with
        | None => None
        | Some (sam_util, sprev) =>
            Some (if sam_util <? gfx_util then gfx_util else sam_util,
                  set_residency_prev gprev sprev st)
        end
    end.

(** The elapsed time of [parse_gfx_util_sysfs], an [unsigned long]. *)
Definition elapsed_time_ms (now last : timespec) : Z :=
  to_ull ((tv_sec now - tv_sec last) * 1000
          + Z.quot (tv_nsec now - tv_nsec last) 1000000).

(** [parse_gfx_util_sysfs]. *)
Definition parse_gfx_util_sysfs (e : gfx_env) (st : gfx_state)
  : option (Z * gfx_state) :=
  let st0 := set_busy_gfx (-1) st in
  if gfx_sysfs_available st0 =? 0 then Some (1, st0)
  else if (tv_sec (ts_prev st0) =? 0) && (tv_nsec (ts_prev st0) =? 0) then
    let '(ret, st1) := probe_gfx_util_sysfs e st0 in
    if negb (ret =? 0) then Some (1, set_gfx_sysfs_available 0 st1)
    else Some (0, set_ts_prev (ts_cur e) st1)
  else
    let time_ms := elapsed_time_ms (ts_cur e) (ts_prev st0) in
    let st1 := set_ts_prev (ts_cur e) st0 in
    match get_gfx_util_sysfs time_ms e st1 with
    | None => None
    | Some (u, st2) => Some (0, set_busy_gfx u st2)
    end.

(** [parse_gfx_util_msr]; [None] when the division traps. *)
Definition parse_gfx_util_msr (e : gfx_env) (st : gfx_state)
  : option (Z * gfx_state) :=
  if msr_tsc e =? ULLONG_MAX then Some (1, set_busy_gfx (-1) st)
  else if msr_gfx_c0 e =? ULLONG_MAX then Some (1, set_busy_gfx (-1) st)
  else if (tsc_prev st =? 0) || (val_prev st =? 0) then
    Some (0, set_busy_gfx (-1) (set_msr_prev (msr_tsc e) (msr_gfx_c0 e) st))
  else if to_ull (msr_tsc e - tsc_prev st) =? 0 then None
  else
    Some (0, set_msr_prev (msr_tsc e) (msr_gfx_c0 e)
               (set_busy_gfx
                  (to_int (to_ull (to_ull (msr_gfx_c0 e - val_prev st) * 10000)
                           / to_ull (msr_tsc e - tsc_prev st))) st)).

(** [parse_gfx_util]. *)
Definition parse_gfx_util (e : gfx_env) (st : gfx_state)
  : option (Z * gfx_state) :=
  match parse_gfx_util_sysfs e st with
  | None => None
  | Some (ret, st1) =>
      if ret =? 0 then Some (0, st1) else parse_gfx_util_msr e st1
  end.

Fixpoint gfx_run (es : list gfx_env) (st : gfx_state) : option gfx_state :=
  match es with
  | [] => Some st
  | e :: es' =>
      match parse_gfx_util e st with
      | Some (_, st') => gfx_run es' st'
      | None => None
      end
  end.

End Gfx.

(** * lpmd_util.c: simple classifier and control loop *)

Module Driver.
Import Hyst.

(** What the calls into the rest of the daemon return during one tick. *)
Record platform : Type := mkPlatform {
  has_util_monitor : bool;
  in_lpm : bool;
  util_entry_threshold : Z;
  util_exit_threshold : Z;
  util_entry_interval : Z;
  util_exit_interval : Z;
  util_entry_hyst : Z;
  util_exit_hyst : Z
}.

(** [get_sys_stat]. *)
Definition get_sys_stat (first_run : Z) (p : platform) (busy_sys busy_cpu : Z)
  : system_status :=
  if negb (first_run =? 0) then SYS_NORMAL
  else if negb (in_lpm p) && (busy_sys <=? imul (util_entry_threshold p) 100)
       then SYS_IDLE
  else if in_lpm p && (imul (util_exit_threshold p) 100 <? busy_cpu)
       then SYS_OVERLOAD
  else SYS_NORMAL.

(** The tail of [get_util_interval]. *)
Definition round_interval (interval : Z) : Z :=
  let i := imul (idiv interval 100) 100 in
  if i =? 0 then 100 else i.

(** [get_util_interval]. *)
Definition get_util_interval (first_run : Z) (p : platform) (busy_cpu : Z)
  : Z :=
  if in_lpm p then
    if negb (util_exit_interval p =? 0) || (busy_cpu <? 0)
    then util_exit_interval p
    else if negb (first_run =? 0) then 1000
    else round_interval (idiv (imul 1000 (isub 10000 busy_cpu)) 10000)
  else
    if negb (util_entry_interval p =? 0) then util_entry_interval p
    else round_interval 1000.

(** Calls to the actuator interface made by a tick. *)
Inductive call_out : Type :=
  | Act (e : Matcher.event)
  | process_lpm_UTIL_EXIT.

(** The variables of the control loop. *)
Record daemon : Type := mkDaemon {
  snap : ProcStat.snapshots;
  gfx : Gfx.gfx_state;
  hy : hyst;
  initialized : Z;
  first_run : Z;
  sys_stat : system_status;
  use_config_state : Z;
  wlt_hint_poll_enable : Z;
  mt : Matcher.matcher
}.

Definition hyst_zero : hyst :=
  mkHyst (mkTimespec 0 0) (mkTimespec 0 0) 0 0 0 0 0 0.

(** The static initial values, for a configuration with the state list
    [cfg]. *)
Definition daemon_init (poll_enable : Z)
    (cfg : list Matcher.lpmd_config_state_t) : daemon :=
  mkDaemon ProcStat.snapshots_init Gfx.gfx_init hyst_zero 0 1 SYS_NORMAL 1
    poll_enable (Matcher.matcher_init cfg).

(** What one tick reads from outside: the platform, the counter file, the
    graphics sources, and the four clock readings of the simple mode (two
    at initialisation, one in [util_should_proceed], one after a
    transition). *)
Record tick_input : Type := mkTick {
  plat : platform;
  stat_input : ProcStat.sample_input;
  gfx_input : Gfx.gfx_env;
  now_init_in : timespec;
  now_init_out : timespec;
  now_proceed : timespec;
  now_transition : timespec
}.

Definition set_tp_last_in (t : timespec) (h : hyst) : hyst :=
  mkHyst t (tp_last_out h) (util_out_hyst h) (util_in_hyst h)
    (util_in_min h) (util_out_min h) (avg_in h) (avg_out h).

Definition set_tp_last_out (t : timespec) (h : hyst) : hyst :=
  mkHyst (tp_last_in h) t (util_out_hyst h) (util_in_hyst h)
    (util_in_min h) (util_out_min h) (avg_in h) (avg_out h).

Section WithSettings.

Variable SETTING_IGNORE : Z.

(** The branch of [periodic_util_update] for the simple classifier, after
    the counters have been sampled. *)
Definition simple_tick (inp : tick_input) (s : daemon)
  : Z * daemon * list call_out :=
  let st :=
    get_sys_stat (first_run s) (plat inp)
      (ProcStat.busy_sys (snap s)) (ProcStat.busy_cpu (snap s)) in
  let interval :=
    get_util_interval (first_run s) (plat inp) (ProcStat.busy_cpu (snap s)) in
  let '(ok, h1) := util_should_proceed st (now_proceed inp) (hy s) in
  let upd (fr : Z) (h : hyst) :=
    mkDaemon (snap s) (gfx s) h (initialized s) fr st (use_config_state s)
      (wlt_hint_poll_enable s) (mt s) in
  if ok =? 0 then (interval, upd 0 h1, [])
  else
    match st with
    | SYS_IDLE =>
        (1000, upd 1 (set_tp_last_in (now_transition inp) h1),
         [Act Matcher.process_lpm_UTIL_ENTER])
    | SYS_OVERLOAD =>
        (interval, upd 1 (set_tp_last_out (now_transition inp) h1),
         [process_lpm_UTIL_EXIT])
    | SYS_NORMAL | SYS_UNKNOWN => (interval, upd 0 h1, [])
    end.

(** [process_next_config_state] on the variables of the loop. *)
Definition config_tick (wlt_index : Z) (s : daemon)
  : Z * daemon * list call_out :=
  let r :=
    Matcher.process_next_config_state SETTING_IGNORE (mt s)
      (ProcStat.busy_sys (snap s)) (ProcStat.busy_cpu (snap s))
      (Gfx.busy_gfx (gfx s)) wlt_index in
  (fst (fst r),
   mkDaemon (snap s) (gfx s) (hy s) (initialized s) (first_run s)
     (sys_stat s) (use_config_state s) (wlt_hint_poll_enable s)
     (snd (fst r)),
   map Act (snd r)).

Definition with_gfx (g : Gfx.gfx_state) (s : daemon) : daemon :=
  mkDaemon (snap s) g (hy s) (initialized s) (first_run s) (sys_stat s)
    (use_config_state s) (wlt_hint_poll_enable s) (mt s).

Definition with_snap (sn : ProcStat.snapshots) (s : daemon) : daemon :=
  mkDaemon sn (gfx s) (hy s) (initialized s) (first_run s) (sys_stat s)
    (use_config_state s) (wlt_hint_poll_enable s) (mt s).

Definition with_hyst_initialized (h : hyst) (s : daemon) : daemon :=
  mkDaemon (snap s) (gfx s) h 1 (first_run s) (sys_stat s)
    (use_config_state s) (wlt_hint_poll_enable s) (mt s).

(** [periodic_util_update]: the interval returned, the new variables and
    the actuator calls; [None] when a sampling function traps or indexes
    outside its buffers. *)
Definition periodic_util_update (wlt_index : Z) (inp : tick_input)
    (s : daemon) : option (Z * daemon * list call_out) :=
  if 0 <=? wlt_index then
    if negb (wlt_hint_poll_enable s =? 0) then
      match Gfx.parse_gfx_util (gfx_input inp) (gfx s) with
      | None => None
      | Some (_, g) => Some (config_tick wlt_index (with_gfx g s))
      end
    else
      let '(_, s1, tr) := config_tick wlt_index s in Some (-1, s1, tr)
  else if negb (has_util_monitor (plat inp)) then Some (-1, s, [])
  else
    let s1 :=
      if initialized s =? 0 then
        with_hyst_initialized
          (hyst_init (to_ull (util_entry_hyst (plat inp)))
             (to_ull (util_exit_hyst (plat inp)))
             (now_init_in inp) (now_init_out inp)) s
      else s in
    match ProcStat.parse_proc_stat (stat_input inp) (snap s1) with
    | None => None
    | Some (_, sn) =>
        let s2 := with_snap sn s1 in
        match Gfx.parse_gfx_util (gfx_input inp) (gfx s2) with
        | None => None
        | Some (_, g) =>
            let s3 := with_gfx g s2 in
            if (length (Matcher.config_states (mt s3)) =? 0)%nat
               || (use_config_state s3 =? 0)
            then Some (simple_tick inp s3)
            else Some (config_tick wlt_index s3)
        end
    end.

End WithSettings.

(** The [process_lpm] calls among the calls of a tick. *)
Definition is_process_lpm (c : call_out) : bool :=
  match c with
  | Act Matcher.process_lpm_UTIL_ENTER => true
  | process_lpm_UTIL_EXIT => true
  | Act _ => false
  end.

(** The matcher is not used: there is no config state, or [util_init]
    has cleared [use_config_state]. *)
Definition simple_mode (s : daemon) : Prop :=
  Matcher.config_states (mt s) = [] \/ use_config_state s = 0.

End Driver.

(** * lpmd_util.c: initialisation of the config states *)

Module Init.
Import Matcher.

(** A config state with the one more field [util_init] writes. *)
Record init_state : Type := mkInit {
  base : lpmd_config_state_t;
  exit_cpu_load_thres : Z
}.

Definition set_valid (v : Z) (s : lpmd_config_state_t)
  : lpmd_config_state_t :=
  mkState v (wlt_type s) (entry_system_load_thres s)
    (exit_system_load_hyst s) (enter_cpu_load_thres s)
    (enter_gfx_load_thres s) (min_poll_interval s) (max_poll_interval s)
    (poll_interval_increment s) (epp s) (epb s) (itmt_state s)
    (irq_migrate s) (active_cpus s) (entry_load_sys s) (entry_load_cpu s).

(** The body of the loop of [util_init] for a state whose CPU list is
    accepted. *)
Definition normalize (s : lpmd_config_state_t) : lpmd_config_state_t :=
  let min1 :=
    if min_poll_interval s =? 0
    then (if DEFAULT_POLL_RATE_MS <? max_poll_interval s
          then DEFAULT_POLL_RATE_MS else max_poll_interval s)
    else min_poll_interval s in
  let max1 :=
    if max_poll_interval s =? 0
    then (if DEFAULT_POLL_RATE_MS <? min1 then min1
          else DEFAULT_POLL_RATE_MS)
    else max_poll_interval s in
  let inc1 :=
    if poll_interval_increment s =? 0 then -1
    else poll_interval_increment s in
  mkState (valid s) (wlt_type s) (imul (entry_system_load_thres s) 100)
    (exit_system_load_hyst s) (imul (enter_cpu_load_thres s) 100)
    (imul (enter_gfx_load_thres s) 100) min1 max1 inc1 (epp s) (epb s)
    (itmt_state s) (irq_migrate s) (active_cpus s) (entry_load_sys s)
    (entry_load_cpu s).

Section WithCpuParser.

(** The value [parse_cpu_str (.., CPUMASK_UTIL)] returns for a CPU
    list. *)
Variable parse_cpu_str_ret : string -> Z.

(** The CPU list of the state is empty or is accepted. *)
Definition cpus_accepted (s : init_state) : bool :=
  String.eqb (active_cpus (base s)) EmptyString
  || (0 <? parse_cpu_str_ret (active_cpus (base s))).

Definition init_one (s : init_state) : init_state :=
  if cpus_accepted s
  then mkInit (normalize (base s)) (imul (exit_cpu_load_thres s) 100)
  else mkInit (set_valid 0 (base s)) (exit_cpu_load_thres s).

(** The loop of [util_init]: the states, [nr_state] and the
    [parse_cpu_str] calls. *)
Fixpoint init_loop (ss : list init_state) (nr_state : Z)
  : list init_state * Z * list event :=
  match ss with
  | [] => ([], nr_state, [])
  | s :: ss' =>
      let call :=
        if String.eqb (active_cpus (base s)) EmptyString then []
        else [parse_cpu_str (active_cpus (base s)) CPUMASK_UTIL] in
      let nr1 := if cpus_accepted s then iadd nr_state 1 else nr_state in
      let '(ss1, nr2, tr) := init_loop ss' nr1 in
      (init_one s :: ss1, nr2, call ++ tr)
  end.

(** [util_init]: the return code, the states, [use_config_state] and the
    calls made. *)
Definition util_init (ss : list init_state) (use_config_state : Z)
  : Z * list init_state * Z * list event :=
  let '(ss1, nr_state, tr) := init_loop ss 0 in
  if nr_state <? 2 then (1, ss1, 0, tr)
  else (0, ss1, use_config_state, tr).

End WithCpuParser.

End Init.

Module ProcStatRun.
Import ProcStat.

(** Successive calls of [parse_proc_stat]. *)
Fixpoint sample_run (inps : list sample_input) (g : snapshots)
  : option snapshots :=
  match inps with
  | [] => Some g
  | inp :: inps' =>
      match parse_proc_stat inp g with
      | Some (_, g') => sample_run inps' g'
      | None => None
      end
  end.

(** The counter file names no CPU beyond [get_max_online_cpu ()], which is
    [M] at every call. *)
Definition cpus_in_range (M : Z) (inp : sample_input) : Prop :=
  max_online_cpu inp = M
  /\ forall ls, stat_file inp = Some ls ->
       Forall (fun l => forall n, tag l = TagCpu n -> 0 <= n <= M) ls.

(** Both buffers, once allocated, have [M + 1] entries. *)
Definition buffers_sized (M : Z) (g : snapshots) : Prop :=
  (forall p, proc_stat_prev g = Some p -> length p = Z.to_nat (M + 1))
  /\ (forall c, proc_stat_cur g = Some c -> length c = Z.to_nat (M + 1)).

(** No counter went backwards and the products of the formula fit 64
    bits. *)
Definition counters_advance (cur prev : proc_stat_info) : Prop :=
  (forall idx, In idx ProcStatRef.counter_fields ->
     0 <= stat_at prev idx <= stat_at cur idx)
  /\ ProcStatRef.total_delta cur prev * 10000 < 18446744073709551616.

End ProcStatRun.

Module MatcherRun.
Import Matcher.

(** [n] successive calls of [enter_state] on the state at index [i] with
    the same loads: the interval of the last call and the variables. *)
Fixpoint stay (SETTING_IGNORE : Z) (n : nat) (m : matcher) (i : nat)
    (state : lpmd_config_state_t) (bsys bcpu : Z) : Z * matcher :=
  match n with
  | O => (interval m, m)
  | S n' =>
      let r := enter_state SETTING_IGNORE m i state bsys bcpu in
      stay SETTING_IGNORE n' (snd (fst r)) i (set_entry_load bsys bcpu state)
        bsys bcpu
  end.

Definition is_process_lpm (e : event) : bool :=
  match e with process_lpm_UTIL_ENTER => true | _ => false end.

Definition is_set_lpm_irq (e : event) : bool :=
  match e with
  | set_lpm_irq_mask _ _ | set_lpm_irq_null _ => true
  | _ => false
  end.

Definition is_set_lpm_cpus (e : event) : bool :=
  match e with set_lpm_cpus _ => true | _ => false end.

End MatcherRun.

(** * Concrete configurations *)

Module SpikeRef.
Import SpikeMgmt.

Definition at_second (sec : Z) : env := mkEnv (Some sec) 1 true.

(** One quiet sample, which seeds the time stamp of the burst count, and
    the state it leaves. *)
Definition seeding_run : list call := [NonSpike 5 (at_second 100)].
Definition seeded : detector :=
  mkDetector 0 0 100 0 0 false (F32.of_Z 90) 0 0.

(** The same followed by two spikes of 100, and the state they leave. *)
Definition burst_run : list call :=
  [NonSpike 5 (at_second 100); Spike 100 (at_second 110);
   Spike 100 (at_second 120)].
Definition in_burst : detector :=
  mkDetector 1 200 120 30 2 true (F32.of_Z 90) 1 0.


End SpikeRef.

Module InitRef.
Import Matcher Init.

(** A parser that rejects the CPU list [x] and accepts every other one. *)
Definition parse_cpu_str_ret (s : string) : Z :=
  if String.eqb s "x"%string then -1 else 4.

(** A state as the configuration file gives it: thresholds in percent,
    no poll interval set. *)
Definition configured (cpus : string) (thres hyst : Z) : init_state :=
  mkInit (mkState 1 (-1) thres hyst 0 0 0 0 0 0 0 0 0 cpus 0 0) 0.

Definition three_states : list init_state :=
  [configured "0-3"%string 50 1000; configured "x"%string 10 0;
   configured EmptyString 0 0].

End InitRef.

Module GfxRef.
Import Hyst Gfx.

(** No residency file is readable; the registers read 3000 and 1500. *)
Definition msr_only : gfx_env :=
  mkGfxEnv false false None (fun _ => NoFile) 0 0 (mkTimespec 10 0) 3000 1500.

(** The same, one sample later: the registers read 5000 and 2000. *)
Definition msr_later : gfx_env :=
  mkGfxEnv false false None (fun _ => NoFile) 0 0 (mkTimespec 11 0) 5000 2000.

(** Both residency files are readable: 1500 ms and 2100 ms. *)
Definition both_files : gfx_env :=
  mkGfxEnv true true (Some "gt0-rc"%string)
    (fun g => match g with GT0 => Scanned 1500 | GT1 => Scanned 2100 end)
    0 0 (mkTimespec 10 0) 3000 1500.

(** The variables after a sample that read 1000 ms and 2000 ms from the
    files, and 1000 and 1000 from the registers. *)
Definition sampled : gfx_state :=
  mkGfx (Some GT0) (Some GT1) 1000 2000 1 (mkTimespec 9 0) 1000 1000 (-1).

End GfxRef.

Module DriverRef.
Import Hyst Driver.

(** A platform out of low power mode with an entry threshold of 60%, an
    exit threshold of 90% and no hysteresis. *)
Definition awake : platform := mkPlatform true false 60 90 0 0 0 0.

(** The same platform once in low power mode. *)
Definition asleep : platform := mkPlatform true true 60 90 0 0 0 0.

Definition tick1 : tick_input :=
  mkTick awake ProcStatRef.round1 GfxRef.msr_only (mkTimespec 10 0)
    (mkTimespec 10 0) (mkTimespec 10 0) (mkTimespec 10 0).

Definition tick2 : tick_input :=
  mkTick asleep ProcStatRef.round2 GfxRef.msr_later (mkTimespec 11 0)
    (mkTimespec 11 0) (mkTimespec 11 0) (mkTimespec 11 0).

(** The loop with no config state, past its first run. *)
Definition warm : daemon :=
  mkDaemon ProcStat.snapshots_init Gfx.gfx_init hyst_zero 1 0 SYS_NORMAL 1 0
    (Matcher.matcher_init []).

End DriverRef.

(** * Properties *)

(** ** Machine integers *)

Lemma to_int_small x : in_int x -> to_int x = x.
Proof.
  unfold in_int, INT_MIN, INT_MAX, to_int. intros H.
  rewrite Z.mod_small; lia.
Qed.

Lemma to_int_range x : in_int (to_int x).
Proof.
  unfold in_int, INT_MIN, INT_MAX, to_int.
  pose proof (Z.mod_pos_bound (x + 2147483648) 4294967296 ltac:(lia)). lia.
Qed.

Lemma to_ull_small x : in_ull x -> to_ull x = x.
Proof. unfold in_ull, to_ull. intros H. apply Z.mod_small. lia. Qed.

Lemma to_ull_range x : in_ull (to_ull x).
Proof. unfold in_ull, to_ull. apply Z.mod_pos_bound. lia. Qed.

Lemma iadd_small a b : in_int (a + b) -> iadd a b = a + b.
Proof. apply to_int_small. Qed.

Lemma isub_small a b : in_int (a - b) -> isub a b = a - b.
Proof. apply to_int_small. Qed.

Lemma imul_small a b : in_int (a * b) -> imul a b = a * b.
Proof. apply to_int_small. Qed.

(** ** Spike-burst detector *)

Section SpikeFacts.
Import SpikeMgmt SpikeInv.

Ltac spike_simpl :=
  cbn -[iadd isub imul idiv to_int Z.quot Z.ltb Z.eqb Z.mul Z.sub Z.add
        minutes_gt_1 rate_of get_spike_rate division_traps Z.max
        F32.of_Z F32.cast_int SPIKE_TIME_BIAS retuned] in *.

Lemma get_spike_rate_of d : get_spike_rate d = rate_of (total_spike_time d).
Proof. reflexivity. Qed.

(** *** What each function does to each field *)

Lemma update_burst_count_fields r e d :
  total_spike_time (update_burst_count r e d) = total_spike_time d
  /\ spike_rate_total (update_burst_count r e d) = spike_rate_total d
  /\ spike_rate_samples (update_burst_count r e d) = spike_rate_samples d
  /\ spike_burst_flag (update_burst_count r e d) = spike_burst_flag d
  /\ bc_reset_min (update_burst_count r e d) = bc_reset_min d
  /\ once_flag (update_burst_count r e d) = once_flag d
  /\ strike_count (update_burst_count r e d) = strike_count d.
Proof.
  unfold update_burst_count.
  destruct (clock e) as [sec|]; [|tauto].
  destruct (spike_sec_prev d =? 0); [simpl; tauto|].
  destruct (negb (r =? 0) && cur_state_le_MDRT4E e); [simpl; tauto|].
  destruct (minutes_gt_1 _ _ || _); simpl; tauto.
Qed.

Lemma maybe_update_fields (b : bool) r e d :
  let d' := if b then update_burst_count r e d else d in
  total_spike_time d' = total_spike_time d
  /\ spike_rate_total d' = spike_rate_total d
  /\ spike_rate_samples d' = spike_rate_samples d
  /\ spike_burst_flag d' = spike_burst_flag d
  /\ bc_reset_min d' = bc_reset_min d
  /\ once_flag d' = once_flag d
  /\ strike_count d' = strike_count d.
Proof.
  destruct b; cbv zeta iota; [apply update_burst_count_fields | tauto].
Qed.

Lemma update_burst_count_real e d s :
  clock e = Some s -> spike_sec_prev d <> 0 -> cur_state_le_MDRT4E e = true ->
  update_burst_count 1 e d
  = set_spike_sec_prev (to_int s) (set_burst_count (iadd (burst_count d) 1) d).
Proof.
  intros Hc Hp Hg. apply Z.eqb_neq in Hp.
  unfold update_burst_count. rewrite Hc, Hp, Hg. reflexivity.
Qed.

Lemma add_spike_time_eq t e d :
  add_spike_time t e d
  = let dT := set_total_spike_time (spike_time_after_spike t d) d in
    update_spike_rate_avg (rate_of (spike_time_after_spike t d))
      (if negb (spike_burst_flag d) then set_spike_burst_flag true dT
       else if negb (state_demote e =? 0) && (once_flag d =? 0)
            then set_once_flag 1 (update_burst_count 1 e dT)
            else dT).
Proof.
  destruct d as [bc tst ssp srt srs fl brm onf sc].
  unfold add_spike_time, spike_time_after_spike. spike_simpl.
  destruct (tst <? MAX_TRACKED_SPIKE_TIME); spike_simpl.
  - destruct fl; [destruct (negb (state_demote e =? 0) && (onf =? 0))|];
      spike_simpl; rewrite ?get_spike_rate_of; spike_simpl;
      try reflexivity.
    rewrite (proj1 (update_burst_count_fields 1 e _)). reflexivity.
  - destruct fl; [destruct (negb (state_demote e =? 0) && (onf =? 0))|];
      spike_simpl; rewrite ?get_spike_rate_of; spike_simpl;
      try reflexivity.
    rewrite (proj1 (update_burst_count_fields 1 e _)). reflexivity.
Qed.

Lemma add_spike_time_fields t e d :
  total_spike_time (add_spike_time t e d) = spike_time_after_spike t d
  /\ spike_rate_total (add_spike_time t e d)
     = iadd (spike_rate_total d) (rate_of (spike_time_after_spike t d))
  /\ spike_rate_samples (add_spike_time t e d)
     = iadd (spike_rate_samples d) 1
  /\ spike_burst_flag (add_spike_time t e d) = true
  /\ bc_reset_min (add_spike_time t e d) = bc_reset_min d.
Proof.
  rewrite add_spike_time_eq. cbv zeta.
  set (dT := set_total_spike_time (spike_time_after_spike t d) d).
  destruct (update_burst_count_fields 1 e dT)
    as (Ht & Hr & Hs & Hf & Hb & _).
  destruct (spike_burst_flag d) eqn:Hfl; cbn [negb];
    [destruct (negb (state_demote e =? 0) && (once_flag d =? 0))|];
    cbn [update_spike_rate_avg set_once_flag set_spike_burst_flag
         total_spike_time spike_rate_total spike_rate_samples
         spike_burst_flag bc_reset_min];
    rewrite ?Ht, ?Hr, ?Hs, ?Hf, ?Hb; subst dT;
    cbn [set_total_spike_time total_spike_time spike_rate_total
         spike_rate_samples spike_burst_flag bc_reset_min];
    auto 6.
Qed.

Lemma add_non_spike_time_eq t e d :
  add_non_spike_time t e d
  = let dT := set_total_spike_time (spike_time_after_non_spike t d) d in
    if (rate_of (spike_time_after_non_spike t d) =? 0) && spike_burst_flag d
    then
      if division_traps d then None
      else
        let d3 := set_spike_burst_flag false dT in
        let d4 := if once_flag d =? 0 then update_burst_count 1 e d3 else d3 in
        Some (set_once_flag 0
                (clear_spike_rate_avg
                   (set_bc_reset_min
                      (retuned (Z.quot (spike_rate_total d)
                                  (spike_rate_samples d))
                         (bc_reset_min d4)) d4)))
    else Some (set_once_flag 0 (update_burst_count 0 e dT)).
Proof.
  destruct d as [bc tst ssp srt srs fl brm onf sc].
  unfold add_non_spike_time, spike_time_after_non_spike, division_traps.
  spike_simpl.
  assert (Hmax : forall x, (if x <? 0 then 0 else x) = Z.max 0 x)
    by (intros x; destruct (Z.ltb_spec x 0); lia).
  destruct (0 <? tst); spike_simpl; rewrite Hmax, ?get_spike_rate_of;
    spike_simpl; reflexivity.
Qed.

Lemma add_non_spike_time_not_falling t e d :
  (rate_of (spike_time_after_non_spike t d) =? 0) && spike_burst_flag d
  = false ->
  add_non_spike_time t e d
  = Some (set_once_flag 0
            (update_burst_count 0 e
               (set_total_spike_time (spike_time_after_non_spike t d) d))).
Proof. intros H. rewrite add_non_spike_time_eq. cbv zeta. now rewrite H. Qed.

Lemma add_non_spike_time_falling t e d :
  rate_of (spike_time_after_non_spike t d) = 0 ->
  spike_burst_flag d = true -> 0 < spike_rate_samples d ->
  add_non_spike_time t e d
  = let d3 :=
      set_spike_burst_flag false
        (set_total_spike_time (spike_time_after_non_spike t d) d) in
    let d4 := if once_flag d =? 0 then update_burst_count 1 e d3 else d3 in
    Some (set_once_flag 0
            (clear_spike_rate_avg
               (set_bc_reset_min
                  (retuned (Z.quot (spike_rate_total d)
                              (spike_rate_samples d))
                     (bc_reset_min d4)) d4))).
Proof.
  intros Hr Hf Hs. rewrite add_non_spike_time_eq. cbv zeta.
  rewrite Hr, Hf. change ((0 =? 0) && true) with true. cbv iota.
  unfold division_traps.
  destruct (Z.eqb_spec (spike_rate_samples d) 0); [lia|].
  destruct (Z.eqb_spec (spike_rate_samples d) (-1)); [lia|].
  now rewrite andb_false_r.
Qed.

Lemma add_non_spike_time_total t e d d' :
  add_non_spike_time t e d = Some d' ->
  total_spike_time d' = spike_time_after_non_spike t d.
Proof.
  rewrite add_non_spike_time_eq. cbv zeta.
  set (dT := set_total_spike_time (spike_time_after_non_spike t d) d).
  destruct (_ && spike_burst_flag d).
  - destruct (division_traps d); [discriminate|]. intros [= <-].
    cbn [set_once_flag clear_spike_rate_avg set_bc_reset_min
         total_spike_time].
    destruct (once_flag d =? 0); [|reflexivity].
    apply (update_burst_count_fields 1 e (set_spike_burst_flag false dT)).
  - intros [= <-]. cbn [set_once_flag total_spike_time].
    apply (update_burst_count_fields 0 e dT).
Qed.

(** *** The sample counter: C10 *)

Lemma add_non_spike_time_samples n t e d :
  samples_inv n d ->
  exists d', add_non_spike_time t e d = Some d' /\ samples_inv n d'.
Proof.
  intros [Hrange Hflag].
  destruct ((rate_of (spike_time_after_non_spike t d) =? 0)
            && spike_burst_flag d) eqn:Hedge.
  - apply andb_true_iff in Hedge as [Hz Hon]. apply Z.eqb_eq in Hz.
    specialize (Hflag Hon).
    rewrite (add_non_spike_time_falling t e d Hz Hon ltac:(lia)).
    eexists; split; [reflexivity|]. cbv zeta.
    unfold samples_inv.
    cbn [set_once_flag clear_spike_rate_avg set_bc_reset_min
         spike_rate_samples spike_burst_flag].
    rewrite (proj1 (proj2 (proj2 (proj2 (maybe_update_fields _ 1 e _))))).
    split; [lia | intros Hx; discriminate Hx].
  - rewrite (add_non_spike_time_not_falling t e d Hedge).
    eexists; split; [reflexivity|].
    destruct (update_burst_count_fields 0 e
                (set_total_spike_time (spike_time_after_non_spike t d) d))
      as (_ & _ & Hs' & Hf' & _).
    unfold samples_inv; cbn [set_once_flag spike_rate_samples
                             spike_burst_flag].
    rewrite Hs', Hf'. split; assumption.
Qed.

Lemma step_samples n c d :
  samples_inv n d -> n < INT_MAX ->
  exists d', step c d = Some d' /\ samples_inv (n + 1) d'.
Proof.
  intros Hinv Hn. destruct c as [t e|t e]; cbn [step].
  - eexists; split; [reflexivity|].
    destruct Hinv as [Hrange _].
    destruct (add_spike_time_fields t e d) as (_ & _ & Hs & Hf & _).
    unfold samples_inv. rewrite Hs, Hf.
    rewrite iadd_small by (unfold in_int, INT_MIN, INT_MAX in *; lia).
    split; [lia | intros _; lia].
  - destruct (add_non_spike_time_samples n t e d Hinv) as (d' & Hd & [Hr Hf]).
    exists d'. split; [assumption|]. split; [lia | assumption].
Qed.

Lemma run_samples cs : forall n d,
  samples_inv n d -> n + Z.of_nat (length cs) <= INT_MAX ->
  exists d', run cs d = Some d' /\ samples_inv (n + Z.of_nat (length cs)) d'.
Proof.
  induction cs as [|c cs IH]; intros n d Hinv Hlen; cbn [run length] in *.
  - exists d. split; [reflexivity|]. now rewrite Z.add_0_r.
  - destruct (step_samples n c d Hinv ltac:(lia)) as (d1 & Hstep & Hinv1).
    rewrite Hstep.
    destruct (IH (n + 1) d1 Hinv1 ltac:(lia)) as (d' & Hrun & Hinv').
    exists d'. split; [assumption|].
    replace (n + Z.of_nat (S (length cs))) with (n + 1 + Z.of_nat (length cs))
      by lia.
    assumption.
Qed.

Lemma samples_inv_init : samples_inv 0 detector_init.
Proof. unfold samples_inv; cbn. split; [lia | intros Hx; discriminate Hx]. Qed.

(** C10: from the initial detector state, any sequence of [add_spike_time]
    and [add_non_spike_time] calls (short of the 2^31 calls after which the
    [int] sample counter itself would overflow) runs to the end without the
    falling edge ever dividing by zero, and in the state it reaches
    [spike_rate_samples >= 1] whenever [spike_burst_flag] is set. *)
Theorem burst_flag_has_samples (cs : list call) :
  Z.of_nat (length cs) <= INT_MAX ->
  exists d, run cs detector_init = Some d
            /\ (spike_burst_flag d = true -> 1 <= spike_rate_samples d).
Proof.
  intros Hlen.
  destruct (run_samples cs 0 detector_init samples_inv_init ltac:(lia))
    as (d & Hrun & _ & Hflag).
  exists d. split; assumption.
Qed.

(** *** The accumulator: C8 *)

Lemma step_spike_time D c d d' :
  0 <= D <= INT_MAX - (MAX_TRACKED_SPIKE_TIME - 1) ->
  0 <= call_duration c <= D ->
  spike_time_inv D d -> step c d = Some d' -> spike_time_inv D d'.
Proof.
  unfold spike_time_inv, MAX_TRACKED_SPIKE_TIME, INT_MAX.
  intros HD Ht Hinv Hstep. destruct c as [t e|t e]; cbn in Ht, Hstep.
  - injection Hstep as <-.
    rewrite (proj1 (add_spike_time_fields t e d)).
    unfold spike_time_after_spike, MAX_TRACKED_SPIKE_TIME.
    destruct (Z.ltb_spec (total_spike_time d) 1000); [|lia].
    rewrite iadd_small by (unfold in_int, INT_MIN, INT_MAX; lia). lia.
  - rewrite (add_non_spike_time_total _ _ _ _ Hstep).
    unfold spike_time_after_non_spike.
    destruct (Z.ltb_spec 0 (total_spike_time d)); [|lia].
    rewrite isub_small by (unfold in_int, INT_MIN, INT_MAX; lia). lia.
Qed.

Lemma run_spike_time D cs : forall d d',
  0 <= D <= INT_MAX - (MAX_TRACKED_SPIKE_TIME - 1) ->
  Forall (fun c => 0 <= call_duration c <= D) cs ->
  spike_time_inv D d -> run cs d = Some d' -> spike_time_inv D d'.
Proof.
  induction cs as [|c cs IH]; intros d d' HD Hall Hinv Hrun; cbn [run] in Hrun.
  - now injection Hrun as <-.
  - destruct (step c d) as [d1|] eqn:Hstep; [|discriminate].
    apply Forall_cons_iff in Hall as [Hc Hcs].
    apply (IH d1 d' HD Hcs); [|exact Hrun].
    exact (step_spike_time D c d d1 HD Hc Hinv Hstep).
Qed.

(** C8, as the code has it: [total_spike_time] never goes below 0, and
    [add_spike_time] stops adding once it has reached
    [MAX_TRACKED_SPIKE_TIME], but the call that crosses the limit is added
    in full.  So for every sequence of calls from the initial state whose
    durations lie in [0, D], after each call
    [0 <= total_spike_time <= MAX_TRACKED_SPIKE_TIME - 1 + D]. *)
Theorem total_spike_time_window (D : Z) (cs : list call) :
  0 <= D <= INT_MAX - (MAX_TRACKED_SPIKE_TIME - 1) ->
  Z.of_nat (length cs) <= INT_MAX ->
  Forall (fun c => 0 <= call_duration c <= D) cs ->
  exists d, run cs detector_init = Some d
            /\ 0 <= total_spike_time d <= MAX_TRACKED_SPIKE_TIME - 1 + D.
Proof.
  intros HD Hlen Hall.
  destruct (run_samples cs 0 detector_init samples_inv_init ltac:(lia))
    as (d & Hrun & _).
  exists d. split; [assumption|].
  apply (run_spike_time D cs detector_init d HD Hall); [|assumption].
  unfold spike_time_inv, MAX_TRACKED_SPIKE_TIME; cbn. lia.
Qed.

(** *** The debounce counter: C9 *)

(** C9, as the code has it: a call made while the stored count is 0 (the
    first call, and again the call after the countdown has run out) seeds
    the countdown at [n], floored at 0; a call made while it is positive
    takes 1 off.  The value returned is the count stored.  Seven calls
    [strikeout_once (5)] return 5, 4, 3, 2, 1, 0 and then 5 again. *)
Theorem strikeout_once_countdown (n : Z) (d : detector) :
  fst (strikeout_once n d) = strike_count (snd (strikeout_once n d))
  /\ (strike_count d = 0 -> fst (strikeout_once n d) = Z.max 0 n)
  /\ (0 < strike_count d <= INT_MAX ->
      fst (strikeout_once n d) = strike_count d - 1)
  /\ fst (strikeout_run [5; 5; 5; 5; 5; 5; 5] detector_init)
     = [5; 4; 3; 2; 1; 0; 5].
Proof.
  unfold strikeout_once. cbn [fst snd set_strike_count strike_count].
  repeat split.
  - intros ->. cbn. destruct (Z.ltb_spec n 0); lia.
  - intros Hc. destruct (Z.eqb_spec (strike_count d) 0); [lia|].
    rewrite isub_small by (unfold in_int, INT_MIN, INT_MAX in *; lia).
    destruct (Z.ltb_spec (strike_count d - 1) 0); lia.
Qed.

(** *** One burst: C7 *)

Lemma second_spike_fields t e d s :
  spike_burst_flag d = true -> once_flag d = 0 ->
  clock e = Some s -> spike_sec_prev d <> 0 -> cur_state_le_MDRT4E e = true ->
  let d' := add_spike_time t e d in
  (once_flag d' = 1 /\ burst_count d' = iadd (burst_count d) 1)
  \/ (once_flag d' = 0 /\ burst_count d' = burst_count d
      /\ spike_sec_prev d' = spike_sec_prev d).
Proof.
  intros Hf Ho Hc Hp Hg d'. subst d'. rewrite add_spike_time_eq. cbv zeta.
  rewrite Hf, Ho. change (0 =? 0) with true. cbn [negb]. rewrite andb_true_r.
  destruct (Z.eqb_spec (state_demote e) 0) as [Hsd|Hsd]; cbn [negb].
  - right. cbn. auto.
  - left.
    rewrite (update_burst_count_real e
               (set_total_spike_time (spike_time_after_spike t d) d)
               s Hc Hp Hg).
    split; reflexivity.
Qed.

Lemma falling_edge_fields t e d s :
  rate_of (spike_time_after_non_spike t d) = 0 ->
  spike_burst_flag d = true -> 0 < spike_rate_samples d ->
  once_flag d <> 0
  \/ (clock e = Some s /\ spike_sec_prev d <> 0
      /\ cur_state_le_MDRT4E e = true) ->
  exists d3,
    add_non_spike_time t e d = Some d3
    /\ burst_count d3
       = (if once_flag d =? 0 then iadd (burst_count d) 1 else burst_count d)
    /\ spike_burst_flag d3 = false
    /\ bc_reset_min d3
       = retuned (Z.quot (spike_rate_total d) (spike_rate_samples d))
           (bc_reset_min d).
Proof.
  intros Hr Hf Hs Hcount.
  rewrite (add_non_spike_time_falling t e d Hr Hf Hs). cbv zeta.
  eexists. split; [reflexivity|].
  destruct (Z.eqb_spec (once_flag d) 0) as [Ho|Ho].
  - destruct Hcount as [Hn|(Hc & Hp & Hg)]; [contradiction|].
    rewrite (update_burst_count_real e
               (set_spike_burst_flag false
                  (set_total_spike_time (spike_time_after_non_spike t d) d))
               s Hc Hp Hg).
    repeat split; reflexivity.
  - repeat split; reflexivity.
Qed.

Lemma counted_spike_fields t e d s :
  spike_burst_flag d = true -> once_flag d = 0 ->
  clock e = Some s -> spike_sec_prev d <> 0 -> cur_state_le_MDRT4E e = true ->
  state_demote e <> 0 ->
  let d' := add_spike_time t e d in
  once_flag d' = 1 /\ burst_count d' = iadd (burst_count d) 1
  /\ spike_sec_prev d' = to_int s.
Proof.
  intros Hf Ho Hc Hp Hg Hsd d'. subst d'. rewrite add_spike_time_eq. cbv zeta.
  rewrite Hf, Ho. change (0 =? 0) with true. cbn [negb]. rewrite andb_true_r.
  destruct (Z.eqb_spec (state_demote e) 0) as [Hz|_]; [contradiction|].
  cbn [negb].
  rewrite (update_burst_count_real e
             (set_total_spike_time (spike_time_after_spike t d) d)
             s Hc Hp Hg).
  repeat split; reflexivity.
Qed.

Lemma refresh_keeps_count t e d s :
  (rate_of (spike_time_after_non_spike t d) =? 0) && spike_burst_flag d
  = false ->
  clock e = Some s -> spike_sec_prev d <> 0 ->
  minutes_gt_1 (s - spike_sec_prev d) (bc_reset_min d) = false ->
  burst_count d <= MAX_BURST_COUNT ->
  exists d',
    add_non_spike_time t e d = Some d'
    /\ burst_count d' = burst_count d
    /\ spike_sec_prev d' = spike_sec_prev d
    /\ once_flag d' = 0
    /\ spike_burst_flag d' = spike_burst_flag d
    /\ spike_rate_samples d' = spike_rate_samples d.
Proof.
  intros Hedge Hc Hp Hm Hb.
  rewrite (add_non_spike_time_not_falling t e d Hedge).
  eexists. split; [reflexivity|].
  unfold update_burst_count. rewrite Hc.
  cbn [set_total_spike_time spike_sec_prev burst_count bc_reset_min].
  destruct (Z.eqb_spec (spike_sec_prev d) 0); [contradiction|].
  change (negb (0 =? 0)) with false. cbn [andb]. rewrite Hm.
  unfold MAX_BURST_COUNT in *.
  destruct (Z.ltb_spec 1000 (burst_count d)); [lia|].
  cbn. auto.
Qed.

(** C7: the burst is counted twice.  From a quiescent detector whose
    burst-count time stamp is seeded, with the clock readable,
    [state_demote] set and [get_cur_state () <= MDRT4E_MODE] holding, the
    second of two [add_spike_time] calls counts the burst and sets
    [once_flag].  If the next [add_non_spike_time] call brings
    [get_spike_rate] to 0, the falling edge finds [once_flag] set and the
    burst stays counted once.  If it does not, that call clears
    [once_flag] while the burst is still flagged, and the call that does
    bring the rate to 0 counts the same burst again: [burst_count] ends
    two above where it started (the refresh in between not finding the
    count stale). *)
Theorem burst_counted_twice (d0 : detector) (t1 t2 t3 t4 : Z)
    (e1 e2 e3 e4 : env) (s2 s3 s4 : Z) :
  quiescent d0 ->
  spike_sec_prev d0 <> 0 ->
  0 <= burst_count d0 < MAX_BURST_COUNT ->
  clock e2 = Some s2 -> clock e3 = Some s3 -> clock e4 = Some s4 ->
  0 < s2 <= INT_MAX ->
  state_demote e2 <> 0 ->
  cur_state_le_MDRT4E e2 = true -> cur_state_le_MDRT4E e4 = true ->
  minutes_gt_1 (s3 - s2) (bc_reset_min d0) = false ->
  let d2 := add_spike_time t2 e2 (add_spike_time t1 e1 d0) in
  burst_count d2 = burst_count d0 + 1
  /\ exists d3 d4,
       add_non_spike_time t3 e3 d2 = Some d3
       /\ add_non_spike_time t4 e4 d3 = Some d4
       /\ (get_spike_rate d3 = 0 -> burst_count d3 = burst_count d0 + 1)
       /\ (get_spike_rate d3 <> 0 -> get_spike_rate d4 = 0 ->
           spike_burst_flag d4 = false
           /\ burst_count d4 = burst_count d0 + 2).
Proof.
  intros (Hf & Ho & Ht & Hs) Hprev Hbc Hc2 Hc3 Hc4 Hs2 Hsd Hg2 Hg4 Hmin.
  unfold MAX_BURST_COUNT in Hbc.
  (* the first sample: the rising edge *)
  destruct (add_spike_time_fields t1 e1 d0) as (_ & _ & Hs1 & Hf1 & Hb1).
  assert (H1 : once_flag (add_spike_time t1 e1 d0) = 0
               /\ spike_sec_prev (add_spike_time t1 e1 d0) = spike_sec_prev d0
               /\ burst_count (add_spike_time t1 e1 d0) = burst_count d0).
  { rewrite add_spike_time_eq. cbv zeta. rewrite Hf. cbn. auto. }
  destruct H1 as (Ho1 & Hp1 & Hbc1).
  remember (add_spike_time t1 e1 d0) as d1 eqn:Hd1. clear Hd1.
  rewrite Hs in Hs1. change (iadd 0 1) with 1 in Hs1.
  (* the second sample counts the burst *)
  intros d2.
  destruct (add_spike_time_fields t2 e2 d1) as (_ & _ & Hs2' & Hf2 & Hb2).
  pose proof (counted_spike_fields t2 e2 d1 s2 Hf1 Ho1 Hc2
                ltac:(congruence) Hg2 Hsd) as Hcount.
  cbv zeta in Hcount. fold d2 in Hs2', Hf2, Hb2, Hcount. clearbody d2.
  destruct Hcount as (Ho2 & Hbc2 & Hp2).
  rewrite Hs1 in Hs2'. change (iadd 1 1) with 2 in Hs2'.
  rewrite Hbc1, iadd_small in Hbc2
    by (unfold in_int, INT_MIN, INT_MAX; lia).
  rewrite to_int_small in Hp2 by (unfold in_int, INT_MIN, INT_MAX in *; lia).
  split; [exact Hbc2|].
  (* the two draining calls return *)
  assert (Hsm2 : samples_inv 2 d2) by (unfold samples_inv; lia).
  destruct (add_non_spike_time_samples 2 t3 e3 d2 Hsm2) as (d3 & Hd3 & Hsm3).
  destruct (add_non_spike_time_samples 2 t4 e4 d3 Hsm3) as (d4 & Hd4 & _).
  exists d3, d4. split; [exact Hd3|]. split; [exact Hd4|].
  rewrite !get_spike_rate_of, (add_non_spike_time_total _ _ _ _ Hd3),
    (add_non_spike_time_total _ _ _ _ Hd4).
  split.
  - (* drained at once: the falling edge finds [once_flag] set *)
    intros Hr.
    destruct (falling_edge_fields t3 e3 d2 s3 Hr Hf2 ltac:(lia))
      as (d3' & Hd3' & Hbc3 & _).
    { left. lia. }
    rewrite Hd3 in Hd3'. injection Hd3' as <-.
    rewrite Hbc3, Ho2. change (1 =? 0) with false. cbv iota. exact Hbc2.
  - (* drained in two steps *)
    intros Hr3 Hr4.
    assert (Hedge : (rate_of (spike_time_after_non_spike t3 d2) =? 0)
                    && spike_burst_flag d2 = false)
      by (apply andb_false_iff; left; now apply Z.eqb_neq).
    destruct (refresh_keeps_count t3 e3 d2 s3 Hedge Hc3 ltac:(lia))
      as (d3' & Hd3' & Hbc3 & Hp3 & Ho3 & Hf3 & Hs3).
    { rewrite Hp2, Hb2, Hb1. exact Hmin. }
    { unfold MAX_BURST_COUNT. lia. }
    rewrite Hd3 in Hd3'. injection Hd3' as <-.
    destruct (falling_edge_fields t4 e4 d3 s4 Hr4 ltac:(congruence)
                ltac:(lia))
      as (d4' & Hd4' & Hbc4 & Hf4 & _).
    { right. repeat split; [exact Hc4 | lia | exact Hg4]. }
    rewrite Hd4 in Hd4'. injection Hd4' as <-.
    split; [exact Hf4|].
    rewrite Hbc4, Ho3, Hbc3, Hbc2. change (0 =? 0) with true. cbv iota.
    rewrite iadd_small by (unfold in_int, INT_MIN, INT_MAX; lia). lia.
Qed.

(** *** The window of [bc_reset_min] *)

Lemma rate_of_range T :
  0 <= T -> T * 100 <= INT_MAX -> 0 <= rate_of T <= 100.
Proof.
  intros H0 Hmax. unfold rate_of, idiv, MAX_TRACKED_SPIKE_TIME.
  rewrite imul_small by (unfold in_int, INT_MIN, INT_MAX in *; lia).
  pose proof (Z.quot_pos (T * 100) 1000 ltac:(lia) ltac:(lia)).
  destruct (Z.ltb_spec 100 (Z.quot (T * 100) 1000)); lia.
Qed.

Lemma bias_exact_table_ok : bias_exact_table = true.
Proof. vm_compute. reflexivity. Qed.

Lemma bias_exact (avg k : Z) :
  0 <= avg <= 100 -> 15 <= k <= 90 ->
  F32.cast_int (SPIKE_TIME_BIAS (F32.of_Z avg) (F32.of_Z k))
  = Z.quot ((100 - avg) * k) 200.
Proof.
  intros Ha Hk. pose proof bias_exact_table_ok as Htab.
  unfold bias_exact_table in Htab.
  rewrite forallb_forall in Htab.
  specialize (Htab (Z.to_nat avg) ltac:(apply in_seq; lia)).
  rewrite forallb_forall in Htab.
  specialize (Htab (Z.to_nat k) ltac:(apply in_seq; lia)).
  unfold bias_exact_at in Htab. rewrite !Z2Nat.id in Htab by lia.
  now apply Z.eqb_eq.
Qed.

Lemma retuned_window (avg k : Z) :
  0 <= avg <= 100 -> 15 <= k <= 90 ->
  retuned avg (F32.of_Z k)
  = F32.of_Z (60 - Z.quot ((100 - avg) * k) 200)
  /\ 15 <= 60 - Z.quot ((100 - avg) * k) 200 <= 60.
Proof.
  intros Ha Hk. unfold retuned. rewrite (bias_exact avg k Ha Hk).
  split; [reflexivity|].
  assert (0 <= Z.quot ((100 - avg) * k) 200 <= 45).
  { split; [apply Z.quot_pos; nia|]. apply Z.quot_le_upper_bound; nia. }
  lia.
Qed.

Lemma step_float_exact D n c d d' :
  0 <= D -> (MAX_TRACKED_SPIKE_TIME - 1 + D) * 100 <= INT_MAX ->
  n < 21474836 ->
  0 <= call_duration c <= D ->
  spike_time_inv D d -> samples_inv n d -> float_exact_inv n d ->
  step c d = Some d' -> float_exact_inv (n + 1) d'.
Proof.
  unfold MAX_TRACKED_SPIKE_TIME, INT_MAX.
  intros HD Hmax Hn Ht Hst [Hs Hsf] (Hr & Hsn & k & Hk & Hb) Hstep.
  unfold bc_reset_min_is in Hk.
  assert (HD' : 0 <= D <= INT_MAX - (MAX_TRACKED_SPIKE_TIME - 1))
    by (unfold MAX_TRACKED_SPIKE_TIME, INT_MAX; lia).
  pose proof (step_spike_time D c d d' HD' Ht Hst Hstep) as Hst'.
  unfold spike_time_inv, MAX_TRACKED_SPIKE_TIME in Hst, Hst'.
  destruct c as [t e|t e]; cbn [step call_duration] in *.
  - injection Hstep as <-.
    destruct (add_spike_time_fields t e d) as (Ht' & Hr' & Hs' & _ & Hb').
    rewrite Ht' in Hst'.
    pose proof (rate_of_range (spike_time_after_spike t d)
                  ltac:(lia) ltac:(unfold INT_MAX; lia)) as Hrate.
    unfold float_exact_inv, bc_reset_min_is. rewrite Hr', Hb', Hs'.
    rewrite !iadd_small by (unfold in_int, INT_MIN, INT_MAX; lia).
    split; [lia|]. split; [lia|]. exists k. split; assumption.
  - destruct ((rate_of (spike_time_after_non_spike t d) =? 0)
              && spike_burst_flag d) eqn:Hedge.
    + apply andb_true_iff in Hedge as [Hz Hf]. apply Z.eqb_eq in Hz.
      specialize (Hsf Hf).
      rewrite (add_non_spike_time_falling t e d Hz Hf ltac:(lia)) in Hstep.
      cbv zeta in Hstep. injection Hstep as <-.
      unfold float_exact_inv, bc_reset_min_is.
      cbn [set_once_flag clear_spike_rate_avg set_bc_reset_min
           spike_rate_total spike_rate_samples bc_reset_min].
      rewrite (proj1 (proj2 (proj2 (proj2 (proj2
                 (maybe_update_fields _ 1 e _)))))).
      cbn [set_spike_burst_flag set_total_spike_time bc_reset_min].
      assert (Havg : 0 <= Z.quot (spike_rate_total d) (spike_rate_samples d)
                     <= 100).
      { split; [apply Z.quot_pos; lia|].
        apply Z.quot_le_upper_bound; lia. }
      rewrite Hk.
      destruct (retuned_window _ k Havg Hb) as [Hret Hwin].
      split; [lia|]. split; [lia|].
      eexists. split; [exact Hret | lia].
    + rewrite (add_non_spike_time_not_falling t e d Hedge) in Hstep.
      injection Hstep as <-.
      destruct (update_burst_count_fields 0 e
                  (set_total_spike_time (spike_time_after_non_spike t d) d))
        as (_ & Hr' & Hs' & _ & Hb' & _).
      unfold float_exact_inv, bc_reset_min_is.
      cbn [set_once_flag spike_rate_total spike_rate_samples bc_reset_min].
      rewrite Hr', Hs', Hb'.
      cbn [set_total_spike_time spike_rate_total spike_rate_samples
           bc_reset_min].
      split; [lia|]. split; [lia|]. exists k. split; assumption.
Qed.

Lemma bc_reset_min_window D cs :
  0 <= D -> (MAX_TRACKED_SPIKE_TIME - 1 + D) * 100 <= INT_MAX ->
  Z.of_nat (length cs) <= 21474836 ->
  Forall (fun c => 0 <= call_duration c <= D) cs ->
  exists d, run cs detector_init = Some d
            /\ 0 <= spike_rate_total d <= 100 * spike_rate_samples d
            /\ exists k, bc_reset_min_is k d /\ 15 <= k <= 90.
Proof.
  intros HD Hmax Hlen Hall.
  assert (Hgen : forall cs n d,
            n + Z.of_nat (length cs) <= 21474836 ->
            Forall (fun c => 0 <= call_duration c <= D) cs ->
            spike_time_inv D d -> samples_inv n d -> float_exact_inv n d ->
            exists d', run cs d = Some d'
                       /\ float_exact_inv (n + Z.of_nat (length cs)) d').
  { clear cs Hlen Hall.
    induction cs as [|c cs IH]; intros n d Hn Hall Hst Hs Hfl;
      cbn [run length] in *.
    - exists d. split; [reflexivity|]. now rewrite Z.add_0_r.
    - apply Forall_cons_iff in Hall as [Hc Hcs].
      destruct (step_samples n c d Hs ltac:(unfold INT_MAX; lia))
        as (d1 & Hstep & Hs1).
      rewrite Hstep.
      assert (HD' : 0 <= D <= INT_MAX - (MAX_TRACKED_SPIKE_TIME - 1))
        by (unfold MAX_TRACKED_SPIKE_TIME, INT_MAX in *; lia).
      pose proof (step_spike_time D c d d1 HD' Hc Hst Hstep) as Hst1.
      pose proof (step_float_exact D n c d d1 HD Hmax ltac:(lia) Hc Hst Hs
                    Hfl Hstep) as Hfl1.
      destruct (IH (n + 1) d1 ltac:(lia) Hcs Hst1 Hs1 Hfl1)
        as (d' & Hrun & Hfl').
      exists d'. split; [assumption|].
      replace (n + Z.of_nat (S (length cs)))
        with (n + 1 + Z.of_nat (length cs)) by lia.
      assumption. }
  destruct (Hgen cs 0 detector_init ltac:(lia) Hall) as (d & Hrun & Hfl).
  - unfold spike_time_inv, MAX_TRACKED_SPIKE_TIME; cbn. lia.
  - apply samples_inv_init.
  - unfold float_exact_inv. cbn [detector_init spike_rate_total
      spike_rate_samples]. split; [lia|]. split; [lia|].
    exists 90. split; [reflexivity | lia].
  - exists d. split; [assumption|].
    destruct Hfl as (Hr & _ & Hb). split; assumption.
Qed.

(** *** Quiescent states *)

Lemma step_quiescent n c d d' :
  samples_inv n d ->
  (spike_burst_flag d = false -> quiescent d) ->
  step c d = Some d' ->
  spike_burst_flag d' = false -> quiescent d'.
Proof.
  intros [_ Hsf] Hq Hstep Hf'. destruct c as [t e|t e]; cbn [step] in Hstep.
  - injection Hstep as <-.
    destruct (add_spike_time_fields t e d) as (_ & _ & _ & Hf & _).
    congruence.
  - destruct ((rate_of (spike_time_after_non_spike t d) =? 0)
              && spike_burst_flag d) eqn:Hedge.
    + apply andb_true_iff in Hedge as [Hz Hf]. apply Z.eqb_eq in Hz.
      specialize (Hsf Hf).
      rewrite (add_non_spike_time_falling t e d Hz Hf ltac:(lia)) in Hstep.
      cbv zeta in Hstep. injection Hstep as <-.
      unfold quiescent. cbn. auto.
    + rewrite (add_non_spike_time_not_falling t e d Hedge) in Hstep.
      injection Hstep as <-.
      destruct (update_burst_count_fields 0 e
                  (set_total_spike_time (spike_time_after_non_spike t d) d))
        as (_ & Hr' & Hs' & Hf2 & _).
      cbn [set_once_flag spike_burst_flag] in Hf'. rewrite Hf2 in Hf'.
      cbn [set_total_spike_time spike_burst_flag] in Hf'.
      destruct (Hq Hf') as (_ & _ & Hr & Hs).
      unfold quiescent.
      cbn [set_once_flag spike_burst_flag once_flag spike_rate_total
           spike_rate_samples].
      rewrite Hf2, Hr', Hs'.
      cbn [set_total_spike_time spike_burst_flag spike_rate_total
           spike_rate_samples]. auto.
Qed.

(** Every state the detector reaches from its initial state with the burst
    flag clear is quiescent. *)
Lemma quiescent_reachable cs d :
  Z.of_nat (length cs) <= INT_MAX ->
  run cs detector_init = Some d ->
  spike_burst_flag d = false -> quiescent d.
Proof.
  intros Hlen.
  assert (Hgen : forall cs n d0 d',
            n + Z.of_nat (length cs) <= INT_MAX ->
            samples_inv n d0 ->
            (spike_burst_flag d0 = false -> quiescent d0) ->
            run cs d0 = Some d' ->
            spike_burst_flag d' = false -> quiescent d').
  { clear. induction cs as [|c cs IH]; intros n d0 d' Hn Hs Hq Hrun;
      cbn [run length] in *.
    - injection Hrun as <-. exact Hq.
    - destruct (step_samples n c d0 Hs ltac:(lia)) as (d1 & Hstep & Hs1).
      rewrite Hstep in Hrun.
      apply (IH (n + 1) d1 d' ltac:(lia) Hs1); [|exact Hrun].
      exact (step_quiescent n c d0 d1 Hs Hq Hstep). }
  apply (Hgen cs 0 detector_init d ltac:(lia) samples_inv_init).
  intros _. unfold quiescent. cbn. auto.
Qed.

End SpikeFacts.

(** C8 at a concrete input: every duration is 7. *)
Lemma total_spike_time_window_witness :
  exists d,
    SpikeMgmt.run
      [SpikeMgmt.Spike 7 (SpikeMgmt.mkEnv (Some 10) 1 true);
       SpikeMgmt.NonSpike 7 (SpikeMgmt.mkEnv (Some 11) 0 true)]
      SpikeMgmt.detector_init = Some d
    /\ 0 <= SpikeMgmt.total_spike_time d
         <= SpikeMgmt.MAX_TRACKED_SPIKE_TIME - 1 + 7.
Proof.
  apply (total_spike_time_window 7).
  - unfold INT_MAX, SpikeMgmt.MAX_TRACKED_SPIKE_TIME. lia.
  - unfold INT_MAX. simpl. lia.
  - repeat constructor; simpl; lia.
Defined.

(** C8 fails as a cap at [MAX_TRACKED_SPIKE_TIME]: one call
    [add_spike_time (5000)] on the initial state leaves 5000. *)
Lemma total_spike_time_exceeds_cap :
  exists d,
    SpikeMgmt.run [SpikeMgmt.Spike 5000 (SpikeMgmt.mkEnv (Some 10) 0 true)]
      SpikeMgmt.detector_init = Some d
    /\ SpikeMgmt.total_spike_time d = 5000
    /\ ~ (0 <= SpikeMgmt.total_spike_time d
             <= SpikeMgmt.MAX_TRACKED_SPIKE_TIME).
Proof.
  eexists. split; [vm_compute; reflexivity|]. split; [reflexivity|].
  unfold SpikeMgmt.MAX_TRACKED_SPIKE_TIME. cbn. lia.
Qed.

(** C10 at a concrete input. *)
Lemma burst_flag_has_samples_witness :
  exists d,
    SpikeMgmt.run
      [SpikeMgmt.Spike 100 (SpikeMgmt.mkEnv (Some 10) 1 true);
       SpikeMgmt.Spike 100 (SpikeMgmt.mkEnv (Some 11) 1 true)]
      SpikeMgmt.detector_init = Some d
    /\ (SpikeMgmt.spike_burst_flag d = true
        -> 1 <= SpikeMgmt.spike_rate_samples d).
Proof.
  apply burst_flag_has_samples. unfold INT_MAX. simpl. lia.
Defined.

(** C9 at a concrete input: the stored count is 3. *)
Lemma strikeout_once_countdown_witness :
  fst (SpikeMgmt.strikeout_once 5
         (SpikeMgmt.set_strike_count 3 SpikeMgmt.detector_init)) = 2.
Proof.
  apply (proj1 (proj2 (proj2
    (strikeout_once_countdown 5
       (SpikeMgmt.set_strike_count 3 SpikeMgmt.detector_init))))).
  unfold INT_MAX. simpl. lia.
Defined.

(** C9 fails after the countdown has run out: the seventh call
    [strikeout_once (5)] does not hold at 0, it returns 5. *)
Lemma strikeout_once_reseeds :
  nth 6 (fst (SpikeMgmt.strikeout_run [5; 5; 5; 5; 5; 5; 5]
                SpikeMgmt.detector_init)) 0 = 5
  /\ nth 6 (fst (SpikeMgmt.strikeout_run [5; 5; 5; 5; 5; 5; 5]
                   SpikeMgmt.detector_init)) 0 <> 0.
Proof. split; [vm_compute; reflexivity | vm_compute; discriminate]. Qed.

(** C7 at a concrete input: the time stamp was seeded at second 100 by
    one quiet sample; the burst is two samples of 100 and is drained by
    two quiet samples of 100. *)
Lemma burst_counted_twice_witness :
  SpikeMgmt.run SpikeRef.seeding_run SpikeMgmt.detector_init
  = Some SpikeRef.seeded
  /\ SpikeInv.quiescent SpikeRef.seeded
  /\ exists d3 d4,
       SpikeMgmt.add_non_spike_time 100 (SpikeRef.at_second 130)
         (SpikeMgmt.add_spike_time 100 (SpikeRef.at_second 120)
            (SpikeMgmt.add_spike_time 100 (SpikeRef.at_second 110)
               SpikeRef.seeded)) = Some d3
       /\ SpikeMgmt.add_non_spike_time 100 (SpikeRef.at_second 140) d3
          = Some d4
       /\ SpikeMgmt.get_spike_rate d4 = 0
       /\ SpikeMgmt.spike_burst_flag d4 = false
       /\ SpikeMgmt.burst_count d4
          = SpikeMgmt.burst_count SpikeRef.seeded + 2.
Proof.
  split; [vm_compute; reflexivity|].
  split; [repeat split; reflexivity|].
  destruct (burst_counted_twice SpikeRef.seeded 100 100 100 100
              (SpikeRef.at_second 110) (SpikeRef.at_second 120)
              (SpikeRef.at_second 130) (SpikeRef.at_second 140) 120 130 140)
    as (_ & d3 & d4 & Hd3 & Hd4 & _ & Htwice).
  - repeat split; reflexivity.
  - simpl; lia.
  - unfold SpikeMgmt.MAX_BURST_COUNT; simpl; lia.
  - reflexivity.
  - reflexivity.
  - reflexivity.
  - unfold INT_MAX; lia.
  - simpl; lia.
  - reflexivity.
  - reflexivity.
  - vm_compute. reflexivity.
  - exists d3, d4. split; [exact Hd3|]. split; [exact Hd4|].
    assert (Hr3 : SpikeMgmt.get_spike_rate d3 <> 0)
      by (vm_compute in Hd3; injection Hd3 as <-; vm_compute; discriminate).
    assert (Hr4 : SpikeMgmt.get_spike_rate d4 = 0).
    { vm_compute in Hd3. injection Hd3 as <-.
      vm_compute in Hd4. injection Hd4 as <-. reflexivity. }
    split; [exact Hr4|]. exact (Htwice Hr3 Hr4).
Defined.

(** From the initial state the first burst only seeds [spike_sec_prev];
    [burst_count] is not incremented. *)
Lemma first_burst_not_counted :
  exists d,
    SpikeMgmt.run
      [SpikeMgmt.Spike 100 (SpikeMgmt.mkEnv (Some 110) 1 true);
       SpikeMgmt.Spike 100 (SpikeMgmt.mkEnv (Some 120) 1 true);
       SpikeMgmt.NonSpike 200 (SpikeMgmt.mkEnv (Some 130) 1 true)]
      SpikeMgmt.detector_init = Some d
    /\ SpikeMgmt.get_spike_rate d = 0
    /\ SpikeMgmt.spike_burst_flag d = false
    /\ SpikeMgmt.burst_count d = SpikeMgmt.burst_count SpikeMgmt.detector_init
    /\ SpikeMgmt.burst_count d
       <> SpikeMgmt.burst_count SpikeMgmt.detector_init + 1.
Proof.
  eexists. split; [vm_compute; reflexivity|].
  repeat split; try (vm_compute; reflexivity). vm_compute. discriminate.
Qed.

(** ** Counter snapshots *)

Section ProcStatFacts.
Import ProcStat ProcStatRef.

Lemma to_ull_add_l a b : to_ull (to_ull a + b) = to_ull (a + b).
Proof. unfold to_ull. apply Zplus_mod_idemp_l. Qed.

Lemma to_ull_add_r a b : to_ull (a + to_ull b) = to_ull (a + b).
Proof. unfold to_ull. apply Zplus_mod_idemp_r. Qed.

Lemma to_ull_acc a d s :
  to_ull (to_ull (a + to_ull d) + s) = to_ull (a + (d + s)).
Proof.
  rewrite to_ull_add_l.
  replace (a + to_ull d + s) with (a + s + to_ull d) by lia.
  rewrite to_ull_add_r. f_equal. lia.
Qed.

Lemma busypct_fold cur prev idxs : forall acc,
  in_ull (fst acc) -> in_ull (snd acc) ->
  fold_left (busypct_body cur prev) idxs acc
  = (to_ull (fst acc
             + sum_delta cur prev (List.filter is_busy_field idxs)),
     to_ull (snd acc + sum_delta cur prev idxs)).
Proof.
  induction idxs as [|idx idxs IH]; intros [b t] Hb Ht; cbn [fst snd] in *.
  - cbn. rewrite !Z.add_0_r, !to_ull_small by assumption. reflexivity.
  - cbn [fold_left]. rewrite IH.
    + unfold busypct_body; cbn [fst snd List.filter map].
      fold (delta cur prev idx). fold (is_busy_field idx).
      unfold sum_delta at 2 4. cbn [map fold_right].
      fold (sum_delta cur prev idxs).
      f_equal.
      * destruct (is_busy_field idx); [|reflexivity].
        unfold sum_delta at 2. cbn [map fold_right].
        fold (sum_delta cur prev (List.filter is_busy_field idxs)).
        apply to_ull_acc.
      * apply to_ull_acc.
    + unfold busypct_body; cbn [fst snd].
      destruct (negb _ && negb _); [apply to_ull_range | assumption].
    + unfold busypct_body; cbn [fst snd]. apply to_ull_range.
Qed.

Lemma busypct_sums_eq cur prev :
  busypct_sums cur prev
  = (to_ull (busy_delta cur prev), to_ull (total_delta cur prev)).
Proof.
  unfold busypct_sums. fold counter_fields.
  rewrite busypct_fold by (cbn; unfold in_ull; lia).
  reflexivity.
Qed.

(** C3, as the code has it: the deltas are taken and summed in 64-bit
    unsigned arithmetic.  When the total delta so computed is 0 the result
    is 0 and nothing is divided; otherwise the result is
    [busy * 10000 / total] on the wrapped sums, whether or not a counter
    went backwards. *)
Theorem calculate_busypct_modular (cur prev : proc_stat_info) :
  (to_ull (total_delta cur prev) = 0 -> calculate_busypct cur prev = 0)
  /\ calculate_busypct cur prev
     = if to_ull (total_delta cur prev) =? 0 then 0
       else to_int (to_ull (to_ull (busy_delta cur prev) * 10000)
                    / to_ull (total_delta cur prev)).
Proof.
  assert (Heq : calculate_busypct cur prev
     = if to_ull (total_delta cur prev) =? 0 then 0
       else to_int (to_ull (to_ull (busy_delta cur prev) * 10000)
                    / to_ull (total_delta cur prev))).
  { unfold calculate_busypct. rewrite busypct_sums_eq. reflexivity. }
  split; [|exact Heq].
  intros Hz. rewrite Heq, Hz. reflexivity.
Qed.

(** What the [busy_cpu] loop computes over the slots it visits: the largest
    of the start value and the busy percentages of the visited slots that
    are marked valid; slots not marked valid contribute nothing. *)
Lemma busy_cpu_fold_max cur prev idxs : forall acc,
  let r := fold_left (busy_cpu_body cur prev) idxs acc in
  acc <= r
  /\ (forall i c p, In i idxs -> cur !! i = Some c -> prev !! i = Some p ->
        valid c <> 0 -> calculate_busypct c p <= r)
  /\ (r = acc
      \/ exists i c p, In i idxs /\ cur !! i = Some c /\ prev !! i = Some p
                       /\ valid c <> 0 /\ r = calculate_busypct c p).
Proof.
  induction idxs as [|i idxs IH]; intros acc; cbn [fold_left].
  - cbv zeta. split; [lia|]. split; [intros ? ? ? []|]. now left.
  - specialize (IH (busy_cpu_body cur prev acc i)). cbv zeta in IH |- *.
    destruct IH as (Hle & Hall & Hwit).
    set (r := fold_left (busy_cpu_body cur prev) idxs
                (busy_cpu_body cur prev acc i)) in *.
    assert (Hbody :
      acc <= busy_cpu_body cur prev acc i
      /\ (forall c p, cur !! i = Some c -> prev !! i = Some p ->
            valid c <> 0 ->
            calculate_busypct c p <= busy_cpu_body cur prev acc i)
      /\ (busy_cpu_body cur prev acc i = acc
          \/ exists c p, cur !! i = Some c /\ prev !! i = Some p
                         /\ valid c <> 0
                         /\ busy_cpu_body cur prev acc i
                            = calculate_busypct c p)).
    { unfold busy_cpu_body.
      destruct (cur !! i) as [c|]; [|split; [lia|]; split; [discriminate|];
                                      now left].
      destruct (prev !! i) as [p|];
        [|split; [lia|]; split; [discriminate|]; now left].
      destruct (Z.eqb_spec (valid c) 0) as [Hv|Hv].
      - split; [lia|]. split; [|now left].
        intros c' p' [= <-] [= <-] Hv'. contradiction.
      - destruct (Z.ltb_spec acc (calculate_busypct c p)).
        + split; [lia|]. split.
          * intros c' p' [= <-] [= <-] _. lia.
          * right. exists c, p. auto.
        + split; [lia|]. split; [|now left].
          intros c' p' [= <-] [= <-] _. lia. }
    destruct Hbody as (Hb1 & Hb2 & Hb3).
    split; [lia|]. split.
    + intros j c p [<-|Hin] Hc Hp Hv.
      * specialize (Hb2 c p Hc Hp Hv). lia.
      * exact (Hall j c p Hin Hc Hp Hv).
    + destruct Hwit as [Hr|(j & c & p & Hin & Hc & Hp & Hv & Hr)].
      * destruct Hb3 as [Hb|(c & p & Hc & Hp & Hv & Hb)].
        -- left. congruence.
        -- right. exists i, c, p. repeat split; auto. now left. congruence.
      * right. exists j, c, p. repeat split; auto. now right.
Qed.

End ProcStatFacts.

(** C3 at a concrete input: the two generations are equal. *)
Lemma calculate_busypct_modular_witness :
  ProcStat.calculate_busypct ProcStatRef.regressed_prev
    ProcStatRef.regressed_prev = 0.
Proof.
  apply (proj1 (calculate_busypct_modular ProcStatRef.regressed_prev
                  ProcStatRef.regressed_prev)).
  vm_compute. reflexivity.
Defined.

(** C3 fails for a counter that went backwards: with [user] down by 50
    and [idle] up by 100 the wrapped total is 50, not 0, and the value
    returned is not 0. *)
Lemma regression_not_zero :
  ProcStatRef.regressed ProcStatRef.regressed_cur ProcStatRef.regressed_prev
  /\ ProcStat.busypct_sums ProcStatRef.regressed_cur
       ProcStatRef.regressed_prev = (18446744073709551566, 50)
  /\ ProcStat.calculate_busypct ProcStatRef.regressed_cur
       ProcStatRef.regressed_prev = -343607384
  /\ ProcStat.calculate_busypct ProcStatRef.regressed_cur
       ProcStatRef.regressed_prev <> 0.
Proof.
  split.
  - exists 1%nat. split; [cbn; auto | vm_compute; reflexivity].
  - repeat split; try (vm_compute; reflexivity). vm_compute. discriminate.
Qed.

(** C1 at the two rounds of [ProcStatRef]: cpu0 is 100% busy in the second
    round, and its line is valid, yet [busy_cpu] is 5000: the loop runs
    over the slots 1 .. [get_max_online_cpu ()], which leaves out slot 0,
    where the line of cpu0 is stored, and takes in the slot of the
    aggregate line.  If [get_max_online_cpu ()] is the highest CPU number
    instead of the CPU count, the loop sees cpu1 alone and [busy_cpu] is
    0. *)
Theorem busy_cpu_skips_cpu0 :
  exists g1 g2 cur prev,
    ProcStat.parse_proc_stat ProcStatRef.round1 ProcStat.snapshots_init
    = Some (0, g1)
    /\ ProcStat.parse_proc_stat ProcStatRef.round2 g1 = Some (0, g2)
    /\ ProcStat.proc_stat_cur g2 = Some cur
    /\ ProcStat.proc_stat_prev g2 = Some prev
    /\ (exists c0 p0, cur !! 0%nat = Some c0 /\ prev !! 0%nat = Some p0
                      /\ ProcStat.valid c0 = 1
                      /\ ProcStat.calculate_busypct c0 p0 = 10000)
    /\ ProcStatRef.max_busy_of_cpu_lines ProcStatRef.round2_lines cur prev
       = 10000
    /\ ProcStat.busy_cpu g2 = 5000
    /\ (exists g1' g2',
          ProcStat.parse_proc_stat ProcStatRef.round1' ProcStat.snapshots_init
          = Some (0, g1')
          /\ ProcStat.parse_proc_stat ProcStatRef.round2' g1' = Some (0, g2')
          /\ ProcStat.busy_cpu g2' = 0).
Proof.
  do 4 eexists.
  split; [vm_compute; reflexivity|].
  split; [vm_compute; reflexivity|].
  split; [reflexivity|]. split; [reflexivity|].
  split.
  - do 2 eexists. split; [reflexivity|]. split; [reflexivity|].
    split; vm_compute; reflexivity.
  - split; [vm_compute; reflexivity|]. split; [vm_compute; reflexivity|].
    do 2 eexists.
    split; [vm_compute; reflexivity|].
    split; vm_compute; reflexivity.
Qed.

(** ** Hysteresis filter *)

Section HystFacts.
Import Hyst.

Lemma penalty_exact a :
  0 <= a -> a * 6 < 18446744073709551616 -> penalty a = a * 6 / 5.
Proof.
  intros Ha Hlt. unfold penalty, DECAY_PERIOD.
  rewrite to_ull_small by (unfold in_ull; lia). reflexivity.
Qed.

Lemma penalty_grows a :
  0 <= a -> a * 6 < 18446744073709551616 ->
  a <= penalty a /\ (5 <= a -> a < penalty a).
Proof.
  intros Ha Hlt. rewrite penalty_exact by assumption. split.
  - apply Z.div_le_lower_bound; lia.
  - intros H5. apply Z.lt_le_trans with (a + 1); [lia|].
    apply Z.div_le_lower_bound; lia.
Qed.

(** C4, as the code has it.  With hysteresis enabled, a candidate [SYS_IDLE]
    folds the elapsed time into [avg_out] whether it is accepted or not;
    accepted, it leaves [avg_in] as it was; rejected, it sets [avg_in] to
    [avg_in * (N + 1) / N] in integer arithmetic, N = 5, which is never
    smaller and is strictly larger from [avg_in = 5] on (as long as the
    product fits 64 bits).  [SYS_OVERLOAD] does the same with the roles of
    [avg_in] and [avg_out] exchanged. *)
Theorem hysteresis_penalty (tp_now : timespec) (h : hyst) :
  hysteresis_enabled h ->
  (let r := util_should_proceed SYS_IDLE tp_now h in
   avg_out (snd r)
   = decay_fold (avg_out h) (elapsed_ms tp_now (tp_last_out h))
   /\ (fst r = 1 -> avg_in (snd r) = avg_in h)
   /\ (fst r = 0 ->
       avg_in (snd r) = penalty (avg_in h)
       /\ (0 <= avg_in h -> avg_in h * 6 < 18446744073709551616 ->
           avg_in (snd r) = avg_in h * (DECAY_PERIOD + 1) / DECAY_PERIOD
           /\ avg_in h <= avg_in (snd r)
           /\ (5 <= avg_in h -> avg_in h < avg_in (snd r)))))
  /\ (let r := util_should_proceed SYS_OVERLOAD tp_now h in
      avg_in (snd r)
      = decay_fold (avg_in h) (elapsed_ms tp_now (tp_last_in h))
      /\ (fst r = 1 -> avg_out (snd r) = avg_out h)
      /\ (fst r = 0 ->
          avg_out (snd r) = penalty (avg_out h)
          /\ (0 <= avg_out h -> avg_out h * 6 < 18446744073709551616 ->
              avg_out (snd r) = avg_out h * (DECAY_PERIOD + 1) / DECAY_PERIOD
              /\ avg_out h <= avg_out (snd r)
              /\ (5 <= avg_out h -> avg_out h < avg_out (snd r))))).
Proof.
  intros Hen.
  assert (Hoff : (util_out_hyst h =? 0) && (util_in_hyst h =? 0) = false).
  { apply andb_false_iff. unfold hysteresis_enabled in Hen.
    destruct (Z.eqb_spec (util_out_hyst h) 0);
      destruct (Z.eqb_spec (util_in_hyst h) 0); auto; tauto. }
  split; cbv zeta; unfold util_should_proceed; rewrite Hoff.
  - destruct ((_ <=? _) && (_ <=? _));
      cbn [fst snd set_avg_in set_avg_out avg_in avg_out].
    + split; [reflexivity|]. split; [reflexivity | discriminate].
    + split; [reflexivity|]. split; [discriminate|]. intros _.
      split; [reflexivity|]. intros H0 Hlt.
      split; [now apply penalty_exact | now apply penalty_grows].
  - destruct ((_ <=? _) && (_ <=? _));
      cbn [fst snd set_avg_in set_avg_out avg_in avg_out].
    + split; [reflexivity|]. split; [reflexivity | discriminate].
    + split; [reflexivity|]. split; [discriminate|]. intros _.
      split; [reflexivity|]. intros H0 Hlt.
      split; [now apply penalty_exact | now apply penalty_grows].
Qed.

End HystFacts.

(** C4 at a concrete input: entry and exit hysteresis 1000 ms, first
    [SYS_IDLE] candidate 100 ms after start. *)
Lemma hysteresis_penalty_witness :
  Hyst.avg_out
    (snd (Hyst.util_should_proceed Hyst.SYS_IDLE
            (Hyst.mkTimespec 10 100000000)
            (Hyst.hyst_init 1000 1000 (Hyst.mkTimespec 10 0)
               (Hyst.mkTimespec 10 0))))
  = 820.
Proof.
  rewrite (proj1 (proj1 (hysteresis_penalty (Hyst.mkTimespec 10 100000000)
            (Hyst.hyst_init 1000 1000 (Hyst.mkTimespec 10 0)
               (Hyst.mkTimespec 10 0))
            ltac:(unfold Hyst.hysteresis_enabled; simpl; lia)))).
  vm_compute. reflexivity.
Defined.

(** C4 fails for a small average: with entry hysteresis 0 and exit
    hysteresis 2000 ms the filter is enabled and [avg_in] starts at 0; a
    [SYS_IDLE] candidate 500 ms after start is rejected, and [avg_in] is
    still 0 afterwards. *)
Lemma rejected_idle_keeps_small_avg_in :
  let h := Hyst.hyst_init 0 2000 (Hyst.mkTimespec 10 0)
             (Hyst.mkTimespec 10 0) in
  let r := Hyst.util_should_proceed Hyst.SYS_IDLE
             (Hyst.mkTimespec 10 500000000) h in
  Hyst.hysteresis_enabled h
  /\ fst r = 0
  /\ Hyst.avg_in (snd r) = Hyst.avg_in h
  /\ ~ (Hyst.avg_in h < Hyst.avg_in (snd r)).
Proof.
  cbv zeta. split.
  - unfold Hyst.hysteresis_enabled; simpl; lia.
  - split; [vm_compute; reflexivity|].
    split; [vm_compute; reflexivity|]. vm_compute. discriminate.
Qed.

(** ** Config-state matcher *)

Section MatcherFacts.
Import Matcher MatcherRef.

Lemma state_match_system_check active state bsys bcpu bgfx wlt_index :
  reaches_system_check state bcpu bgfx wlt_index ->
  entry_system_load_thres state <> 0 ->
  state_match active state bsys bcpu bgfx wlt_index
  = if entry_system_load_thres state <? bsys then
      if (exit_system_load_hyst state =? 0) || negb active then false
      else negb ((iadd (entry_load_sys state) (exit_system_load_hyst state)
                  <? bsys)
                 || (iadd (entry_system_load_thres state)
                       (exit_system_load_hyst state) <? bsys))
    else true.
Proof.
  intros (Hv & Hw & Hc & Hg) Ht. unfold state_match.
  apply Z.eqb_neq in Hv, Ht. rewrite Hv, Ht.
  rewrite andb_false_r. cbn [negb andb].
  assert (Hw1 : negb (wlt_type state =? -1)
                && negb (wlt_type state =? wlt_index) = false).
  { destruct Hw as [Hw|[Hw _]]; apply Z.eqb_eq in Hw; rewrite Hw;
      cbn; auto using andb_false_r. }
  assert (Hw2 : negb (wlt_type state =? -1)
                && (enter_gfx_load_thres state =? 0) = false).
  { destruct Hw as [Hw|[_ Hw]].
    - apply Z.eqb_eq in Hw. rewrite Hw. reflexivity.
    - apply Z.eqb_neq in Hw. rewrite Hw. apply andb_false_r. }
  assert (Hc1 : negb (enter_cpu_load_thres state =? 0)
                && (enter_cpu_load_thres state <? bcpu) = false).
  { destruct Hc as [Hc|Hc].
    - apply Z.eqb_eq in Hc. rewrite Hc. reflexivity.
    - apply Z.ltb_ge in Hc. rewrite Hc. apply andb_false_r. }
  assert (Hg1 : negb (enter_gfx_load_thres state =? 0) && negb (bgfx =? -1)
                && (enter_gfx_load_thres state <? bgfx) = false).
  { destruct Hg as [Hg|[Hg|Hg]].
    - apply Z.eqb_eq in Hg. rewrite Hg. reflexivity.
    - apply Z.eqb_eq in Hg. rewrite Hg. cbn. now rewrite andb_false_r.
    - apply Z.ltb_ge in Hg. rewrite Hg. apply andb_false_r. }
  rewrite Hw1, Hw2, Hc1, Hg1.
  destruct (entry_system_load_thres state <? bsys); [|reflexivity].
  destruct ((exit_system_load_hyst state =? 0) || negb active);
    [reflexivity|].
  destruct (_ || _); reflexivity.
Qed.

(** C2, as the code has it: for the active state with a positive
    [exit_system_load_hyst] that passes the checks before the system load
    threshold, a [busy_sys] above the entry threshold is accepted if and
    only if it exceeds neither [entry_load_sys + hyst] nor
    [entry_system_load_thres + hyst]; a state that is not the active one
    is rejected.  With 5000, 1000 and 4500 stored, the active state still
    matches at 5500 and matches neither at 5800 nor at 6100. *)
Theorem sticky_overshoot (state : lpmd_config_state_t)
    (bsys bcpu bgfx wlt_index : Z) :
  reaches_system_check state bcpu bgfx wlt_index ->
  0 < exit_system_load_hyst state ->
  entry_system_load_thres state <> 0 ->
  entry_system_load_thres state < bsys ->
  in_int (entry_load_sys state + exit_system_load_hyst state) ->
  in_int (entry_system_load_thres state + exit_system_load_hyst state) ->
  (state_match true state bsys bcpu bgfx wlt_index = true
   <-> bsys <= entry_load_sys state + exit_system_load_hyst state
       /\ bsys <= entry_system_load_thres state + exit_system_load_hyst state)
  /\ state_match false state bsys bcpu bgfx wlt_index = false
  /\ state_match true overshoot_state 5500 0 (-1) (-1) = true
  /\ state_match true overshoot_state 5800 0 (-1) (-1) = false
  /\ state_match true overshoot_state 6100 0 (-1) (-1) = false.
Proof.
  intros Hreach Hh Ht Hover Hi1 Hi2.
  rewrite !(state_match_system_check _ state) by assumption.
  apply Z.ltb_lt in Hover. rewrite Hover.
  assert (Hz : (exit_system_load_hyst state =? 0) = false)
    by (apply Z.eqb_neq; lia).
  rewrite Hz, !iadd_small by assumption. cbn [negb orb].
  split; [|repeat split; reflexivity].
  rewrite negb_true_iff, orb_false_iff, !Z.ltb_ge. reflexivity.
Qed.

End MatcherFacts.

(** C2 at a concrete input: the state of the example at 5300. *)
Lemma sticky_overshoot_witness :
  Matcher.state_match true MatcherRef.overshoot_state 5300 0 (-1) (-1) = true.
Proof.
  apply (proj1 (sticky_overshoot MatcherRef.overshoot_state 5300 0 (-1) (-1)
    ltac:(unfold MatcherRef.reaches_system_check; simpl;
          repeat split; auto; lia)
    ltac:(simpl; lia) ltac:(simpl; lia) ltac:(simpl; lia)
    ltac:(unfold in_int, INT_MIN, INT_MAX; simpl; lia)
    ltac:(unfold in_int, INT_MIN, INT_MAX; simpl; lia))).
  simpl. lia.
Defined.

(** C2 fails at its own example: with 5000, 1000 and 4500 stored the
    active state does not match at [busy_sys = 5800], which is above
    [entry_load_sys + hyst = 5500]. *)
Lemma overshoot_5800_rejected :
  Matcher.state_match true MatcherRef.overshoot_state 5800 0 (-1) (-1)
  = false
  /\ 5800 <= Matcher.entry_system_load_thres MatcherRef.overshoot_state
             + Matcher.exit_system_load_hyst MatcherRef.overshoot_state
  /\ Matcher.state_match true MatcherRef.overshoot_state 5800 0 (-1) (-1)
     <> true.
Proof.
  split; [vm_compute; reflexivity|].
  split; [simpl; lia | vm_compute; discriminate].
Qed.

Section MatcherTick.
Import Matcher MatcherRef.

Variable SETTING_IGNORE : Z.

Lemma scan_states_first (m : matcher) (bsys bcpu bgfx wlt_index : Z)
    (state : lpmd_config_state_t) (post : list lpmd_config_state_t) :
  forall (pre : list lpmd_config_state_t) (k : nat),
  (forall j s, pre !! j = Some s ->
     state_match (is_current (current_state m) (k + j)) s
       bsys bcpu bgfx wlt_index = false) ->
  state_match (is_current (current_state m) (k + length pre)) state
    bsys bcpu bgfx wlt_index = true ->
  scan_states SETTING_IGNORE m k (pre ++ state :: post)
    bsys bcpu bgfx wlt_index
  = enter_state SETTING_IGNORE m (k + length pre) state bsys bcpu.
Proof.
  induction pre as [|s pre IH]; intros k Hpre Hhit;
    cbn [app scan_states length] in *.
  - rewrite Nat.add_0_r in *. rewrite Hhit. reflexivity.
  - pose proof (Hpre 0%nat s eq_refl) as Hs. rewrite Nat.add_0_r in Hs.
    rewrite Hs.
    replace (k + S (length pre))%nat with (S k + length pre)%nat in * by lia.
    apply IH; [|assumption].
    intros j s' Hj.
    replace (S k + j)%nat with (k + S j)%nat by lia.
    apply Hpre. exact Hj.
Qed.

Lemma scan_states_none (m : matcher) (bsys bcpu bgfx wlt_index : Z) :
  forall (rest : list lpmd_config_state_t) (k : nat),
  (forall j s, rest !! j = Some s ->
     state_match (is_current (current_state m) (k + j)) s
       bsys bcpu bgfx wlt_index = false) ->
  scan_states SETTING_IGNORE m k rest bsys bcpu bgfx wlt_index = (-1, m, []).
Proof.
  induction rest as [|s rest IH]; intros k Hrest; cbn [scan_states].
  - reflexivity.
  - pose proof (Hrest 0%nat s eq_refl) as Hs. rewrite Nat.add_0_r in Hs.
    rewrite Hs. apply IH. intros j s' Hj.
    replace (S k + j)%nat with (k + S j)%nat by lia.
    apply Hrest. exact Hj.
Qed.

Lemma enter_state_selects (m : matcher) (i : nat)
    (state : lpmd_config_state_t) (bsys bcpu : Z) :
  selected (enter_state SETTING_IGNORE m i state bsys bcpu) = Some i
  /\ forall k, k <> i ->
       config_states (snd (fst (enter_state SETTING_IGNORE m i state
                                  bsys bcpu))) !! k
       = config_states m !! k.
Proof.
  unfold enter_state, selected.
  destruct (is_current (current_state m) i) eqn:Hcur;
    cbn [fst snd current_state config_states].
  - split.
    + unfold is_current in Hcur. destruct (current_state m) as [c|];
        [|discriminate].
      apply Nat.eqb_eq in Hcur. now subst.
    + intros k Hk. now apply list_lookup_insert_ne.
  - split; [reflexivity|].
    intros k Hk. now apply list_lookup_insert_ne.
Qed.

(** C5: for every state list and every input tuple, when the state at
    index [i] matches and no state before it does,
    [process_next_config_state] does exactly what [enter_state] does on
    state [i]: that state is the one selected, and no other entry of the
    list is changed; when no state matches it returns -1 and changes
    nothing.  In a list of three states of which the first does not match
    and the second does, the second is selected whatever the states
    hold. *)
Theorem first_match_selected (m : matcher) (bsys bcpu bgfx wlt_index : Z) :
  (forall (i : nat) (state : lpmd_config_state_t),
     config_states m !! i = Some state ->
     state_match (is_current (current_state m) i) state
       bsys bcpu bgfx wlt_index = true ->
     (forall j s, (j < i)%nat -> config_states m !! j = Some s ->
        state_match (is_current (current_state m) j) s
          bsys bcpu bgfx wlt_index = false) ->
     let r := process_next_config_state SETTING_IGNORE m
                bsys bcpu bgfx wlt_index in
     r = enter_state SETTING_IGNORE m i state bsys bcpu
     /\ selected r = Some i
     /\ (forall k, k <> i ->
           config_states (snd (fst r)) !! k = config_states m !! k))
  /\ ((forall j s, config_states m !! j = Some s ->
         state_match (is_current (current_state m) j) s
           bsys bcpu bgfx wlt_index = false) ->
      process_next_config_state SETTING_IGNORE m bsys bcpu bgfx wlt_index
      = (-1, m, []))
  /\ (forall s1 s2 s3 : lpmd_config_state_t,
        config_states m = [s1; s2; s3] ->
        state_match (is_current (current_state m) 0) s1
          bsys bcpu bgfx wlt_index = false ->
        state_match (is_current (current_state m) 1) s2
          bsys bcpu bgfx wlt_index = true ->
        selected (process_next_config_state SETTING_IGNORE m
                    bsys bcpu bgfx wlt_index) = Some 1%nat).
Proof.
  split; [|split].
  - intros i state Hi Hhit Hpre r.
    assert (Hr : r = enter_state SETTING_IGNORE m i state bsys bcpu).
    { subst r. unfold process_next_config_state.
      pose proof (take_drop_middle (config_states m) i state Hi) as Hsplit.
      assert (Hlen : length (take i (config_states m)) = i).
      { apply length_take_le. apply lookup_lt_Some in Hi. lia. }
      rewrite <- Hsplit at 1.
      rewrite (scan_states_first m bsys bcpu bgfx wlt_index state
                 (drop (S i) (config_states m))
                 (take i (config_states m)) 0).
      - cbn [Nat.add]. rewrite Hlen. reflexivity.
      - intros j s Hj. cbn [Nat.add].
        apply lookup_take_Some in Hj as [Hj Hlt].
        apply (Hpre j s Hlt Hj).
      - cbn [Nat.add]. rewrite Hlen. exact Hhit. }
    split; [exact Hr|]. rewrite Hr. apply enter_state_selects.
  - intros Hnone. unfold process_next_config_state.
    apply scan_states_none. intros j s Hj. cbn [Nat.add]. now apply Hnone.
  - intros s1 s2 s3 Hcfg H1 H2. unfold process_next_config_state.
    rewrite Hcfg. cbn [scan_states]. rewrite H1, H2.
    apply enter_state_selects.
Qed.

Lemma adjust_interval_range (state : lpmd_config_state_t) (iv0 bcpu : Z) :
  0 < min_poll_interval state <= max_poll_interval state ->
  min_poll_interval state <= adjust_interval state iv0 bcpu
                          <= max_poll_interval state.
Proof.
  intros Hb. unfold adjust_interval.
  set (i2 := if poll_interval_increment state =? -1 then _ else _).
  clearbody i2.
  destruct (Z.eqb_spec (min_poll_interval state) 0); [lia|].
  destruct (Z.eqb_spec (max_poll_interval state) 0); [lia|].
  cbn [negb andb].
  destruct (Z.ltb_spec i2 (min_poll_interval state));
    match goal with |- _ <= (if ?a <? ?b then _ else _) <= _ =>
      destruct (Z.ltb_spec a b) end; lia.
Qed.

Lemma quot_const_bounds (y b : Z) :
  0 < b ->
  (0 <= y -> 0 <= b * Z.quot y b <= y)
  /\ (y <= 0 -> y <= b * Z.quot y b <= 0).
Proof.
  intros Hb. pose proof (Z.quot_rem' y b) as Hqr. split; intros Hy.
  - pose proof (Z.rem_bound_pos y b Hy Hb).
    pose proof (Z.quot_pos y b Hy Hb). nia.
  - pose proof (Z.rem_nonpos y b ltac:(lia) Hy).
    assert (Z.quot y b <= 0) by (apply Z.quot_le_upper_bound; lia).
    nia.
Qed.

Lemma floor_100_exact (y : Z) :
  in_int y -> imul (idiv y 100) 100 = Z.quot y 100 * 100.
Proof.
  unfold in_int, INT_MIN, INT_MAX, idiv. intros Hy. apply imul_small.
  unfold in_int, INT_MIN, INT_MAX.
  destruct (quot_const_bounds y 100 ltac:(lia)) as [Hpos Hneg].
  destruct (Z.le_ge_cases 0 y); [specialize (Hpos ltac:(lia))
                                | specialize (Hneg ltac:(lia))]; lia.
Qed.

Lemma quot_in_int (x : Z) : in_int x -> in_int (idiv x 10000).
Proof.
  unfold in_int, INT_MIN, INT_MAX, idiv. intros Hx.
  destruct (quot_const_bounds x 10000 ltac:(lia)) as [Hpos Hneg].
  destruct (Z.le_ge_cases 0 x); [specialize (Hpos ltac:(lia))
                                | specialize (Hneg ltac:(lia))]; lia.
Qed.

Lemma adjust_interval_aligned (state : lpmd_config_state_t) (iv0 bcpu : Z) :
  poll_interval_increment state = -1 ->
  Z.divide 100 (min_poll_interval state) ->
  Z.divide 100 (max_poll_interval state) ->
  Z.divide 100 (adjust_interval state iv0 bcpu).
Proof.
  intros Hinc Hmin Hmax. unfold adjust_interval. rewrite Hinc.
  change (-1 =? -1) with true. cbv iota.
  rewrite floor_100_exact by (apply quot_in_int, to_int_range).
  set (q := Z.quot _ 100). clearbody q.
  assert (Hq : Z.divide 100 (q * 100)) by (exists q; reflexivity).
  destruct (negb (min_poll_interval state =? 0) && _);
    destruct (negb (max_poll_interval state =? 0) && _); assumption.
Qed.

Lemma adjust_interval_unset_min (state : lpmd_config_state_t)
    (iv0 bcpu : Z) :
  min_poll_interval state = 0 -> 0 < max_poll_interval state ->
  poll_interval_increment state = -1 ->
  bcpu <= 10000 -> in_int (10000 - bcpu) ->
  in_int (max_poll_interval state * (10000 - bcpu)) ->
  0 <= adjust_interval state iv0 bcpu <= max_poll_interval state.
Proof.
  intros Hmin Hmax Hinc Hb Hi1 Hi2. unfold adjust_interval.
  rewrite Hinc, Hmin. change (-1 =? -1) with true.
  change (0 =? 0) with true. cbn [negb andb]. cbv iota.
  rewrite (isub_small 10000 bcpu Hi1).
  rewrite (imul_small (max_poll_interval state) (10000 - bcpu) Hi2).
  rewrite floor_100_exact
    by (pattern (max_poll_interval state * (10000 - bcpu));
        rewrite <- (to_int_small _ Hi2); apply quot_in_int, to_int_range).
  unfold idiv.
  assert (Hq : 0 <= Z.quot (Z.quot (max_poll_interval state * (10000 - bcpu))
                         10000) 100 * 100).
  { apply Z.mul_nonneg_nonneg; [|lia].
    apply Z.quot_pos; [|lia]. apply Z.quot_pos; [nia | lia]. }
  destruct (Z.eqb_spec (max_poll_interval state) 0); [lia|]. cbn [negb andb].
  match goal with |- _ <= (if ?a <? ?b then _ else _) <= _ =>
    destruct (Z.ltb_spec a b) end; lia.
Qed.

(** C6, as the code has it: when the matcher stays in the active state,
    [enter_state] makes no actuator call and returns (and keeps) the
    recomputed interval.  It lies in [min_poll_interval, max_poll_interval]
    whenever [0 < min_poll_interval <= max_poll_interval]; with
    [min_poll_interval] unset (0) the adaptive interval lies in
    [0, max_poll_interval].  With the adaptive sentinel -1 the interval is a
    multiple of 100 ms provided both bounds are, the clamp being applied
    after the flooring. *)
Theorem poll_interval_clamped (m : matcher) (i : nat)
    (state : lpmd_config_state_t) (bsys bcpu : Z) :
  is_current (current_state m) i = true ->
  let r := enter_state SETTING_IGNORE m i state bsys bcpu in
  interval (snd (fst r)) = fst (fst r)
  /\ current_state (snd (fst r)) = current_state m
  /\ snd r = []
  /\ (0 < min_poll_interval state <= max_poll_interval state ->
      min_poll_interval state <= fst (fst r) <= max_poll_interval state)
  /\ (min_poll_interval state = 0 -> 0 < max_poll_interval state ->
      poll_interval_increment state = -1 ->
      bcpu <= 10000 -> in_int (10000 - bcpu) ->
      in_int (max_poll_interval state * (10000 - bcpu)) ->
      0 <= fst (fst r) <= max_poll_interval state)
  /\ (poll_interval_increment state = -1 ->
      Z.divide 100 (min_poll_interval state) ->
      Z.divide 100 (max_poll_interval state) ->
      Z.divide 100 (fst (fst r))).
Proof.
  intros Hcur r. subst r. unfold enter_state. rewrite Hcur.
  cbn [fst snd interval current_state].
  do 3 (split; [reflexivity|]).
  split; [|split].
  - apply (adjust_interval_range (set_entry_load bsys bcpu state)).
  - apply (adjust_interval_unset_min (set_entry_load bsys bcpu state)).
  - apply (adjust_interval_aligned (set_entry_load bsys bcpu state)).
Qed.

End MatcherTick.

(** C5 at a concrete input: an invalid state, a catch-all state, and a
    second catch-all state behind it. *)
Lemma first_match_selected_witness :
  Matcher.selected
    (Matcher.process_next_config_state (-1)
       (Matcher.matcher_init
          [MatcherRef.invalid_state; MatcherRef.default_state;
           MatcherRef.stepping_state])
       3000 2000 (-1) (-1)) = Some 1%nat.
Proof.
  apply (proj2 (proj2 (first_match_selected (-1)
           (Matcher.matcher_init
              [MatcherRef.invalid_state; MatcherRef.default_state;
               MatcherRef.stepping_state])
           3000 2000 (-1) (-1)))
         MatcherRef.invalid_state MatcherRef.default_state
         MatcherRef.stepping_state);
    reflexivity.
Defined.

(** C6 at a concrete input: the adaptive default state, active, at 37%
    CPU load. *)
Lemma poll_interval_clamped_witness :
  1000 <= fst (fst (Matcher.enter_state (-1)
                      (Matcher.mkMatcher (Some 0%nat) 1000
                         [MatcherRef.default_state])
                      0 MatcherRef.default_state 3000 3700)) <= 1000.
Proof.
  apply (proj1 (proj2 (proj2 (proj2 (poll_interval_clamped (-1)
           (Matcher.mkMatcher (Some 0%nat) 1000 [MatcherRef.default_state])
           0 MatcherRef.default_state 3000 3700 eq_refl))))).
  simpl. lia.
Defined.

(** C6 fails on the multiple of 100 ms.  With a fixed increment of 50 ms
    the second tick in the same state returns 550 ms; with the adaptive
    formula and a lower bound of 250 ms a tick at 90% CPU load returns
    250 ms. *)
Lemma interval_not_multiple_of_100 :
  let r1 := Matcher.process_next_config_state (-1)
              (Matcher.matcher_init [MatcherRef.stepping_state])
              3000 2000 (-1) (-1) in
  let r2 := Matcher.process_next_config_state (-1) (snd (fst r1))
              3000 2000 (-1) (-1) in
  let a1 := Matcher.process_next_config_state (-1)
              (Matcher.matcher_init [MatcherRef.adaptive_state])
              3000 9000 (-1) (-1) in
  let a2 := Matcher.process_next_config_state (-1) (snd (fst a1))
              3000 9000 (-1) (-1) in
  Matcher.selected r1 = Some 0%nat
  /\ snd r2 = [] /\ fst (fst r2) = 550 /\ ~ Z.divide 100 (fst (fst r2))
  /\ Matcher.selected a1 = Some 0%nat
  /\ snd a2 = [] /\ fst (fst a2) = 250 /\ ~ Z.divide 100 (fst (fst a2)).
Proof.
  cbv zeta.
  assert (H550 : ~ Z.divide 100 550) by (intros [k Hk]; lia).
  assert (H250 : ~ Z.divide 100 250) by (intros [k Hk]; lia).
  repeat split; try (vm_compute; reflexivity).
  - replace (fst (fst _)) with 550 by (vm_compute; reflexivity). exact H550.
  - replace (fst (fst _)) with 250 by (vm_compute; reflexivity). exact H250.
Qed.

(** * Further properties of the code *)

(** ** Counter snapshots *)

Section ProcStatMore.
Import ProcStat ProcStatRef ProcStatRun.

Lemma sums_advance cur prev :
  counters_advance cur prev ->
  0 <= busy_delta cur prev <= total_delta cur prev.
Proof.
  intros [Hadv _].
  assert (Hd : forall idx, In idx counter_fields -> 0 <= delta cur prev idx).
  { intros idx Hin. specialize (Hadv idx Hin). unfold delta. lia. }
  unfold busy_delta, total_delta, sum_delta.
  assert (Hgen : forall l, (forall idx, In idx l -> 0 <= delta cur prev idx) ->
            0 <= fold_right Z.add 0
                   (map (delta cur prev) (List.filter is_busy_field l))
              <= fold_right Z.add 0 (map (delta cur prev) l)).
  { induction l as [|i l IH]; intros Hl; cbn [List.filter map fold_right].
    - lia.
    - assert (0 <= delta cur prev i) by (apply Hl; now left).
      specialize (IH (fun idx Hin => Hl idx (or_intror Hin))).
      destruct (is_busy_field i); cbn [map fold_right]; lia. }
  apply Hgen, Hd.
Qed.

(** X1: when no counter went backwards (and the products fit 64 bits),
    [calculate_busypct] is the exact quotient
    [busy * 10000 / total] of the true sums, and lies in 0 .. 10000. *)
Theorem calculate_busypct_exact (cur prev : proc_stat_info) :
  counters_advance cur prev ->
  calculate_busypct cur prev
  = busy_delta cur prev * 10000 / total_delta cur prev
  /\ 0 <= calculate_busypct cur prev <= 10000.
Proof.
  intros Hadv. pose proof (sums_advance cur prev Hadv) as Hsum.
  destruct Hadv as [_ Hfit].
  assert (Heq : calculate_busypct cur prev
                = busy_delta cur prev * 10000 / total_delta cur prev).
  { unfold calculate_busypct. rewrite busypct_sums_eq. cbn [fst snd].
    rewrite (to_ull_small (busy_delta cur prev)) by (unfold in_ull; lia).
    rewrite (to_ull_small (total_delta cur prev)) by (unfold in_ull; lia).
    destruct (Z.eqb_spec (total_delta cur prev) 0) as [Hz|Hz].
    - rewrite Hz. now rewrite Z.div_0_r.
    - rewrite to_ull_small by (unfold in_ull; lia).
      apply to_int_small. unfold in_int, INT_MIN, INT_MAX.
      split.
      + apply Z.le_trans with 0; [lia|]. apply Z.div_pos; lia.
      + apply Z.le_trans with 10000; [|lia].
        apply Z.div_le_upper_bound; lia. }
  split; [exact Heq|]. rewrite Heq.
  destruct (Z.eq_dec (total_delta cur prev) 0) as [Hz|Hz].
  - rewrite Hz, Z.div_0_r. lia.
  - split; [apply Z.div_pos; lia|]. apply Z.div_le_upper_bound; lia.
Qed.

Lemma store_fields_length toks : forall idx st,
  length (store_fields toks idx st) = length st.
Proof.
  induction toks as [|t toks IH]; intros idx st; cbn [store_fields].
  - reflexivity.
  - destruct (STAT_MAX <=? idx)%nat; [reflexivity|].
    rewrite IH. destruct t; [apply length_insert | reflexivity].
Qed.

Lemma parse_line_sized count cur l :
  (0 < count)%nat -> length cur = count ->
  (forall n, tag l = TagCpu n -> 0 <= n < Z.of_nat count) ->
  exists cur', parse_line (count - 1) cur l = Some cur'
               /\ length cur' = count.
Proof.
  intros Hc Hlen Htag. unfold parse_line.
  assert (Hslot : forall z, 0 <= z < Z.of_nat count ->
            exists cur',
              (if z <? 0 then None
               else match cur !! Z.to_nat z with
                    | None => None
                    | Some info =>
                        Some (<[Z.to_nat z :=
                                 mkInfo (cpu info) 1
                                   (store_fields (tokens l) STAT_USER
                                      (stat info))]> cur)
                    end) = Some cur'
              /\ length cur' = count).
  { intros z Hz. destruct (Z.ltb_spec z 0); [lia|].
    destruct (lookup_lt_is_Some_2 cur (Z.to_nat z)) as [info Hinfo]; [lia|].
    rewrite Hinfo. eexists. split; [reflexivity|].
    now rewrite length_insert. }
  destruct (tag l) as [| |n|].
  - exists cur. auto.
  - apply Hslot. lia.
  - apply Hslot. now apply Htag.
  - exists cur. auto.
Qed.

Lemma parse_lines_sized count ls : forall cur,
  (0 < count)%nat -> length cur = count ->
  Forall (fun l => forall n, tag l = TagCpu n -> 0 <= n < Z.of_nat count) ls ->
  exists cur', parse_lines (count - 1) cur ls = Some cur'
               /\ length cur' = count.
Proof.
  induction ls as [|l ls IH]; intros cur Hc Hlen Hall; cbn [parse_lines].
  - exists cur. auto.
  - apply Forall_cons_iff in Hall as [Hl Hls].
    destruct (parse_line_sized count cur l Hc Hlen Hl) as (c1 & Hp & Hl1).
    rewrite Hp. now apply IH.
Qed.

Lemma parse_proc_stat_sized M inp g :
  0 <= M -> cpus_in_range M inp -> buffers_sized M g ->
  exists r g', parse_proc_stat inp g = Some (r, g') /\ buffers_sized M g'.
Proof.
  intros HM [Hmax Hls] [Hp Hc]. unfold parse_proc_stat. rewrite Hmax.
  destruct (stat_file inp) as [ls|]; [|exists 1, g; split; [reflexivity|]; split; assumption].
  destruct (Z.ltb_spec M 0); [lia|].
  set (count := Z.to_nat (M + 1)) in *.
  assert (Hcount : (0 < count)%nat) by (subst count; lia).
  assert (Hzero : length (replicate count zero_info) = count)
    by apply length_replicate.
  set (prev := match proc_stat_prev g with
               | Some p => Some p
               | None => if calloc_prev_ok inp
                         then Some (replicate count zero_info) else None
               end).
  assert (Hprev : forall p, prev = Some p -> length p = count).
  { subst prev. intros p. destruct (proc_stat_prev g) as [p0|] eqn:E.
    - intros [= <-]. now apply Hp.
    - destruct (calloc_prev_ok inp); [intros [= <-]; exact Hzero
                                     | discriminate]. }
  destruct prev as [p|].
  2:{ eexists _, _. split; [reflexivity|].
      split; cbn; [discriminate | exact Hc]. }
  set (cur := match proc_stat_cur g with
              | Some c => Some c
              | None => if calloc_cur_ok inp
                        then Some (replicate count zero_info) else None
              end).
  assert (Hcur : forall c, cur = Some c -> length c = count).
  { subst cur. intros c. destruct (proc_stat_cur g) as [c0|] eqn:E.
    - intros [= <-]. now apply Hc.
    - destruct (calloc_cur_ok inp); [intros [= <-]; exact Hzero
                                    | discriminate]. }
  destruct cur as [c|].
  2:{ eexists _, _. split; [reflexivity|]. split; cbn; discriminate. }
  rewrite (Hprev p eq_refl), (Hcur c eq_refl), Nat.eqb_refl. cbn [andb negb].
  destruct (parse_lines_sized count ls (replicate count zero_info)
              Hcount Hzero) as (cur' & Hparse & Hlen').
  { specialize (Hls ls eq_refl). eapply Forall_impl; [exact Hls|].
    intros l Hl n Hn. specialize (Hl n Hn). subst count. lia. }
  rewrite Hparse. eexists _, _. split; [reflexivity|].
  split; cbn; intros x [= <-]; [now apply Hcur | exact Hlen'].
Qed.

(** X2: on a machine whose counter file names no CPU beyond
    [get_max_online_cpu ()], every call of [parse_proc_stat], from the
    first on, stays inside its two buffers, and both keep
    [get_max_online_cpu () + 1] entries. *)
Theorem sampling_stays_in_bounds (M : Z) (inps : list sample_input) :
  0 <= M -> Forall (cpus_in_range M) inps ->
  exists g, sample_run inps snapshots_init = Some g /\ buffers_sized M g.
Proof.
  intros HM.
  assert (Hgen : forall inps g, buffers_sized M g ->
            Forall (cpus_in_range M) inps ->
            exists g', sample_run inps g = Some g' /\ buffers_sized M g').
  { clear inps. induction inps as [|inp inps IH]; intros g Hg Hall;
      cbn [sample_run].
    - exists g. auto.
    - apply Forall_cons_iff in Hall as [Hi His].
      destruct (parse_proc_stat_sized M inp g HM Hi Hg) as (r & g1 & Hp & Hg1).
      rewrite Hp. now apply IH. }
  apply Hgen. split; cbn; discriminate.
Qed.

Lemma parse_proc_stat_sampled inp g g' :
  parse_proc_stat inp g = Some (0, g') ->
  exists ls prev cur,
    stat_file inp = Some ls
    /\ proc_stat_prev g' = Some prev /\ proc_stat_cur g' = Some cur
    /\ (forall c, proc_stat_cur g = Some c -> prev = c)
    /\ (proc_stat_cur g = None ->
        prev = replicate (Z.to_nat (max_online_cpu inp + 1)) zero_info)
    /\ parse_lines (Z.to_nat (max_online_cpu inp + 1) - 1)
         (replicate (Z.to_nat (max_online_cpu inp + 1)) zero_info) ls
       = Some cur
    /\ busy_sys g'
       = calculate_busypct
           (default zero_info
              (cur !! (Z.to_nat (max_online_cpu inp + 1) - 1)%nat))
           (default zero_info
              (prev !! (Z.to_nat (max_online_cpu inp + 1) - 1)%nat))
    /\ busy_cpu g'
       = fold_left (busy_cpu_body cur prev)
           (seq 1 (Z.to_nat (max_online_cpu inp))) 0.
Proof.
  unfold parse_proc_stat.
  destruct (stat_file inp) as [ls|]; [|discriminate].
  destruct (max_online_cpu inp <? 0); [discriminate|].
  destruct (match proc_stat_prev g with
            | Some p => Some p
            | None => _
            end) as [p|]; [|discriminate].
  destruct (proc_stat_cur g) as [c0|] eqn:Ec.
  - destruct (negb _); [discriminate|].
    destruct (parse_lines _ _ ls) as [cur'|] eqn:Hparse; [|discriminate].
    intros [= <-]. exists ls, c0, cur'. cbn.
    repeat split; auto; try discriminate. now intros c [= <-].
  - destruct (calloc_cur_ok inp); [|discriminate].
    destruct (negb _); [discriminate|].
    destruct (parse_lines _ _ ls) as [cur'|] eqn:Hparse; [|discriminate].
    intros [= <-]. eexists ls, _, cur'. cbn.
    repeat split; auto; discriminate.
Qed.

(** X3: after a successful sample the previous generation is the current
    generation of the call before, and is all zero at the first call,
    when there is none; [busy_cpu] is never negative, is at least the busy percentage of every
    slot among 1 .. [get_max_online_cpu ()] that is marked valid, and is
    the percentage of one of them unless it is 0. *)
Theorem busy_cpu_is_max_of_visited (inp : sample_input) (g g' : snapshots) :
  parse_proc_stat inp g = Some (0, g') ->
  exists prev cur,
    proc_stat_prev g' = Some prev /\ proc_stat_cur g' = Some cur
    /\ (forall c, proc_stat_cur g = Some c -> prev = c)
    /\ (proc_stat_cur g = None ->
        prev = replicate (Z.to_nat (max_online_cpu inp + 1)) zero_info)
    /\ 0 <= busy_cpu g'
    /\ (forall i c p,
          (1 <= i <= Z.to_nat (max_online_cpu inp))%nat ->
          cur !! i = Some c -> prev !! i = Some p -> valid c <> 0 ->
          calculate_busypct c p <= busy_cpu g')
    /\ (busy_cpu g' = 0
        \/ exists i c p,
             (1 <= i <= Z.to_nat (max_online_cpu inp))%nat
             /\ cur !! i = Some c /\ prev !! i = Some p /\ valid c <> 0
             /\ busy_cpu g' = calculate_busypct c p).
Proof.
  intros Hp.
  destruct (parse_proc_stat_sampled inp g g' Hp)
    as (ls & prev & cur & _ & Hprev & Hcur & Hdb & Hfirst & _ & _ & Hbusy).
  exists prev, cur. do 4 (split; [assumption|]).
  destruct (busy_cpu_fold_max cur prev
              (seq 1 (Z.to_nat (max_online_cpu inp))) 0)
    as (Hle & Hall & Hwit).
  rewrite <- Hbusy in Hle, Hall, Hwit.
  split; [exact Hle|]. split.
  - intros i c p Hi. apply Hall. apply in_seq. lia.
  - destruct Hwit as [Hz|(i & c & p & Hin & Hrest)]; [now left|].
    right. exists i, c, p. split; [|exact Hrest].
    apply in_seq in Hin. lia.
Qed.

End ProcStatMore.

(** X1 at a concrete input: user up by 30, idle up by 70. *)
Lemma calculate_busypct_exact_witness :
  ProcStat.calculate_busypct
    (ProcStat.mkInfo 0 1 [0; 130; 0; 0; 170; 0; 0; 0; 0; 0; 0])
    (ProcStat.mkInfo 0 1 [0; 100; 0; 0; 100; 0; 0; 0; 0; 0; 0])
  = 3000.
Proof.
  rewrite (proj1 (calculate_busypct_exact
    (ProcStat.mkInfo 0 1 [0; 130; 0; 0; 170; 0; 0; 0; 0; 0; 0])
    (ProcStat.mkInfo 0 1 [0; 100; 0; 0; 100; 0; 0; 0; 0; 0; 0])
    ltac:(split; [intros idx Hin; repeat (destruct Hin as [<-|Hin];
                    [vm_compute; split; discriminate|]); destruct Hin
                 | vm_compute; reflexivity]))).
  vm_compute. reflexivity.
Defined.

(** X2 at a concrete input: the two rounds of [ProcStatRef]. *)
Lemma sampling_stays_in_bounds_witness :
  exists g,
    ProcStatRun.sample_run [ProcStatRef.round1; ProcStatRef.round2]
      ProcStat.snapshots_init = Some g
    /\ ProcStatRun.buffers_sized 2 g.
Proof.
  apply (sampling_stays_in_bounds 2); [lia|].
  repeat (apply Forall_cons_2;
          [split; [reflexivity|]; intros ls [= <-];
           repeat (apply Forall_cons_2;
                   [intros n Hn; cbn in Hn; try discriminate Hn;
                    injection Hn as <-; lia|]);
           apply Forall_nil_2|]).
  apply Forall_nil_2.
Defined.

(** X3 at a concrete input: the first round of [ProcStatRef], which is
    the first call. *)
Lemma busy_cpu_is_max_of_visited_witness :
  exists g',
    ProcStat.parse_proc_stat ProcStatRef.round1 ProcStat.snapshots_init
    = Some (0, g')
    /\ ProcStat.proc_stat_prev g' = Some (replicate 3 ProcStat.zero_info)
    /\ 0 <= ProcStat.busy_cpu g'.
Proof.
  destruct (ProcStat.parse_proc_stat ProcStatRef.round1
              ProcStat.snapshots_init) as [[c g']|] eqn:Hp;
    [|vm_compute in Hp; discriminate Hp].
  assert (Hc : c = 0) by (vm_compute in Hp; injection Hp as <- _; reflexivity).
  subst c. exists g'. split; [reflexivity|].
  destruct (busy_cpu_is_max_of_visited ProcStatRef.round1
              ProcStat.snapshots_init g' Hp)
    as (prev & cur & Hprev & _ & _ & Hfirst & Hge & _).
  split; [|exact Hge].
  rewrite Hprev, (Hfirst eq_refl). reflexivity.
Defined.

(** ** Config-state matcher *)

Section MatcherMore.
Import Matcher MatcherRef MatcherRun.

Ltac split_head :=
  match goal with
  | |- (if ?c then _ else _) = true <-> _ =>
      match c with
      | context [Z.eqb ?a ?b] => destruct (Z.eqb_spec a b)
      | context [Z.ltb ?a ?b] => destruct (Z.ltb_spec a b)
      end; cbn [negb andb orb]
  end.

(** [state_match] as a formula. *)
Lemma state_match_true_iff (active : bool) (state : lpmd_config_state_t)
    (bsys bcpu bgfx wlt_index : Z) :
  state_match active state bsys bcpu bgfx wlt_index = true
  <-> valid state <> 0
      /\ (wlt_type state = -1 \/ wlt_type state = wlt_index)
      /\ ((wlt_type state <> -1 /\ enter_gfx_load_thres state = 0)
          \/ (enter_cpu_load_thres state = 0
              /\ entry_system_load_thres state = 0
              /\ enter_gfx_load_thres state = 0)
          \/ ((enter_cpu_load_thres state = 0
               \/ bcpu <= enter_cpu_load_thres state)
              /\ (enter_gfx_load_thres state = 0 \/ bgfx = -1
                  \/ bgfx <= enter_gfx_load_thres state)
              /\ (entry_system_load_thres state = 0
                  \/ bsys <= entry_system_load_thres state
                  \/ (exit_system_load_hyst state <> 0 /\ active = true
                      /\ bsys <= iadd (entry_load_sys state)
                                   (exit_system_load_hyst state)
                      /\ bsys <= iadd (entry_system_load_thres state)
                                   (exit_system_load_hyst state))))).
Proof.
  unfold state_match.
  destruct active; repeat split_head;
    (split; [intros Hm; try discriminate Hm | intros Hm]);
    try solve [intuition (congruence || lia)].
Qed.

Lemma state_match_as_active (state : lpmd_config_state_t)
    (bsys bcpu bgfx wlt_index : Z) :
  state_match false state bsys bcpu bgfx wlt_index = true ->
  state_match true state bsys bcpu bgfx wlt_index = true.
Proof.
  rewrite !state_match_true_iff. intuition (congruence || lia).
Qed.

(** X4: a match is never lost by a lower load: if a state matches at
    [busy_sys] and [busy_cpu] it matches at every lower [busy_sys] and
    [busy_cpu]; and a state that matches as a challenger matches as the
    active state. *)
Theorem state_match_downward_closed (active : bool)
    (state : lpmd_config_state_t) (bsys bcpu bsys' bcpu' bgfx wlt_index : Z) :
  state_match active state bsys bcpu bgfx wlt_index = true ->
  bsys' <= bsys -> bcpu' <= bcpu ->
  state_match active state bsys' bcpu' bgfx wlt_index = true
  /\ state_match true state bsys' bcpu' bgfx wlt_index = true.
Proof.
  rewrite !state_match_true_iff. intros H Hs Hc.
  split; intuition (congruence || lia).
Qed.

(** X5: an unavailable graphics reading never disqualifies a state: with
    [busy_gfx = -1] the state matches exactly when it matches with a
    graphics load at or below its threshold (or with any graphics load, if
    it has no graphics threshold). *)
Theorem gfx_unavailable_never_disqualifies (active : bool)
    (state : lpmd_config_state_t) (bsys bcpu bgfx wlt_index : Z) :
  bgfx <= enter_gfx_load_thres state \/ enter_gfx_load_thres state = 0 ->
  state_match active state bsys bcpu (-1) wlt_index
  = state_match active state bsys bcpu bgfx wlt_index.
Proof.
  intros H. apply eq_true_iff_eq. rewrite !state_match_true_iff.
  intuition (congruence || lia).
Qed.

End MatcherMore.

Section MatcherTickMore.
Import Matcher MatcherRef MatcherRun.

Variable SETTING_IGNORE : Z.

Lemma state_match_after_entry (active : bool) (state : lpmd_config_state_t)
    (bsys bcpu bgfx wlt_index : Z) :
  state_match active state bsys bcpu bgfx wlt_index = true ->
  0 <= exit_system_load_hyst state ->
  in_int (bsys + exit_system_load_hyst state) ->
  state_match true (set_entry_load bsys bcpu state) bsys bcpu bgfx wlt_index
  = true.
Proof.
  rewrite !state_match_true_iff. cbn [set_entry_load valid wlt_type
    enter_gfx_load_thres enter_cpu_load_thres entry_system_load_thres
    exit_system_load_hyst entry_load_sys].
  intros H Hh Hi. rewrite (iadd_small bsys _ Hi).
  intuition (congruence || lia).
Qed.

Lemma enter_state_result (m : matcher) (i : nat)
    (state : lpmd_config_state_t) (bsys bcpu : Z) :
  let r := enter_state SETTING_IGNORE m i state bsys bcpu in
  current_state (snd (fst r)) = Some i
  /\ config_states (snd (fst r))
     = <[i := set_entry_load bsys bcpu state]> (config_states m)
  /\ interval (snd (fst r)) = fst (fst r).
Proof.
  cbv zeta. unfold enter_state.
  destruct (is_current (current_state m) i) eqn:Hcur;
    cbn [fst snd current_state config_states interval].
  - split; [|split; reflexivity].
    unfold is_current in Hcur. destruct (current_state m) as [c|];
      [|discriminate].
    apply Nat.eqb_eq in Hcur. now subst.
  - repeat split; reflexivity.
Qed.

Lemma is_current_refl (i : nat) : is_current (Some i) i = true.
Proof. unfold is_current. apply Nat.eqb_refl. Qed.

(** X6: the selection is stable.  If a tick selects state [i] (the first
    that matches), a second tick with the same loads and hint selects
    state [i] again, as the active state, and makes no actuator call
    (the hysteresis of the state being non-negative and its sum with
    [busy_sys] fitting an [int]). *)
Theorem reselection_is_silent (m : matcher) (bsys bcpu bgfx wlt_index : Z)
    (i : nat) (state : lpmd_config_state_t) :
  config_states m !! i = Some state ->
  state_match (is_current (current_state m) i) state
    bsys bcpu bgfx wlt_index = true ->
  (forall j s, (j < i)%nat -> config_states m !! j = Some s ->
     state_match (is_current (current_state m) j) s
       bsys bcpu bgfx wlt_index = false) ->
  0 <= exit_system_load_hyst state ->
  in_int (bsys + exit_system_load_hyst state) ->
  let m1 := snd (fst (process_next_config_state SETTING_IGNORE m
                        bsys bcpu bgfx wlt_index)) in
  let r2 := process_next_config_state SETTING_IGNORE m1
              bsys bcpu bgfx wlt_index in
  current_state m1 = Some i
  /\ selected r2 = Some i
  /\ snd r2 = []
  /\ config_states (snd (fst r2)) = config_states m1.
Proof.
  intros Hi Hhit Hpre Hh Hint m1 r2.
  assert (Hlt : (i < length (config_states m))%nat)
    by (apply lookup_lt_Some in Hi; exact Hi).
  (* the first tick *)
  assert (Hm1 : m1 = snd (fst (enter_state SETTING_IGNORE m i state
                                 bsys bcpu))).
  { subst m1. unfold process_next_config_state.
    pose proof (take_drop_middle (config_states m) i state Hi) as Hsplit.
    assert (Hlen : length (take i (config_states m)) = i)
      by (apply length_take_le; lia).
    rewrite <- Hsplit at 1.
    rewrite (scan_states_first SETTING_IGNORE m bsys bcpu bgfx wlt_index
               state (drop (S i) (config_states m))
               (take i (config_states m)) 0).
    - cbn [Nat.add]. now rewrite Hlen.
    - intros j s Hj. cbn [Nat.add].
      apply lookup_take_Some in Hj as [Hj Hjl]. exact (Hpre j s Hjl Hj).
    - cbn [Nat.add]. rewrite Hlen. exact Hhit. }
  destruct (enter_state_result m i state bsys bcpu) as (Hc1 & Hcfg1 & _).
  rewrite <- Hm1 in Hc1, Hcfg1. clearbody m1. clear Hm1.
  (* the second tick *)
  set (state' := set_entry_load bsys bcpu state) in *.
  assert (Hi1 : config_states m1 !! i = Some state')
    by (rewrite Hcfg1; now apply list_lookup_insert_eq).
  assert (Hr2 : r2 = enter_state SETTING_IGNORE m1 i state' bsys bcpu).
  { subst r2. unfold process_next_config_state.
    pose proof (take_drop_middle (config_states m1) i state' Hi1) as Hsplit.
    assert (Hlen : length (take i (config_states m1)) = i).
    { apply length_take_le. rewrite Hcfg1, length_insert. lia. }
    rewrite <- Hsplit at 1.
    rewrite (scan_states_first SETTING_IGNORE m1 bsys bcpu bgfx wlt_index
               state' (drop (S i) (config_states m1))
               (take i (config_states m1)) 0).
    - cbn [Nat.add]. now rewrite Hlen.
    - intros j s Hj. cbn [Nat.add].
      apply lookup_take_Some in Hj as [Hj Hjl].
      rewrite Hcfg1, list_lookup_insert_ne in Hj by lia.
      rewrite Hc1.
      assert (Hnc : is_current (Some i) j = false).
      { unfold is_current. apply Nat.eqb_neq. lia. }
      rewrite Hnc.
      destruct (state_match false s bsys bcpu bgfx wlt_index) eqn:Hm;
        [|reflexivity].
      pose proof (state_match_as_active s bsys bcpu bgfx wlt_index Hm)
        as Ht.
      specialize (Hpre j s Hjl Hj).
      destruct (is_current (current_state m) j); congruence.
    - cbn [Nat.add]. rewrite Hlen, Hc1, is_current_refl.
      exact (state_match_after_entry _ state bsys bcpu bgfx wlt_index
               Hhit Hh Hint). }
  split; [exact Hc1|].
  destruct (enter_state_result m1 i state' bsys bcpu) as (Hc2 & Hcfg2 & _).
  rewrite <- Hr2 in Hc2, Hcfg2.
  split; [exact Hc2|]. split.
  - rewrite Hr2. unfold enter_state. rewrite Hc1, is_current_refl.
    reflexivity.
  - rewrite Hcfg2, Hcfg1. subst state'.
    rewrite list_insert_insert_eq. reflexivity.
Qed.

(** X7: [enter_state] calls the actuators exactly when the state it
    enters is not the active one.  Then it sets EPP, EPB and ITMT first,
    makes one [set_lpm_irq] and one [set_lpm_cpus] call, ends with the one
    [process_lpm (UTIL_ENTER)], makes the state the active one and restarts
    the interval at [min_poll_interval], or at 1000 ms if that is 0. *)
Theorem actuation_iff_state_changes (m : matcher) (i : nat)
    (state : lpmd_config_state_t) (bsys bcpu : Z) :
  let r := enter_state SETTING_IGNORE m i state bsys bcpu in
  (snd r = [] <-> is_current (current_state m) i = true)
  /\ current_state (snd (fst r)) = Some i
  /\ (is_current (current_state m) i = false ->
      take 3 (snd r)
      = [set_lpm_epp (epp state); set_lpm_epb (epb state);
         set_lpm_itmt (itmt_state state)]
      /\ last (snd r) = Some process_lpm_UTIL_ENTER
      /\ length (List.filter is_process_lpm (snd r)) = 1%nat
      /\ length (List.filter is_set_lpm_irq (snd r)) = 1%nat
      /\ length (List.filter is_set_lpm_cpus (snd r)) = 1%nat
      /\ fst (fst r) = (if min_poll_interval state =? 0
                        then DEFAULT_POLL_RATE_MS
                        else min_poll_interval state)).
Proof.
  cbv zeta.
  split; [|split; [apply (enter_state_result m i state bsys bcpu)|]].
  - unfold enter_state.
    destruct (is_current (current_state m) i); cbn [snd].
    + split; reflexivity.
    + unfold actuate. cbn [app]. split; discriminate.
  - intros Hcur. unfold enter_state. rewrite Hcur. cbn [fst snd].
    unfold actuate.
    cbn [set_entry_load epp epb itmt_state active_cpus irq_migrate
         min_poll_interval].
    destruct (String.eqb (active_cpus state) EmptyString);
      destruct (irq_migrate state =? SETTING_IGNORE);
      destruct (min_poll_interval state =? 0);
      cbn; repeat split; reflexivity.
Qed.

Lemma adjust_interval_fixed (state : lpmd_config_state_t) (iv0 bcpu : Z) :
  0 < poll_interval_increment state ->
  0 < min_poll_interval state <= iv0 ->
  iv0 <= max_poll_interval state ->
  max_poll_interval state + poll_interval_increment state <= INT_MAX ->
  adjust_interval state iv0 bcpu
  = Z.min (max_poll_interval state) (iv0 + poll_interval_increment state).
Proof.
  intros Hinc Hmin Hmax Hfit. unfold adjust_interval.
  destruct (Z.ltb_spec 0 (poll_interval_increment state)); [|lia].
  destruct (Z.eqb_spec (poll_interval_increment state) (-1)); [lia|].
  rewrite iadd_small by (unfold in_int, INT_MIN, INT_MAX in *; lia).
  destruct (Z.eqb_spec (min_poll_interval state) 0); [lia|].
  destruct (Z.eqb_spec (max_poll_interval state) 0); [lia|].
  cbn [negb andb].
  destruct (Z.ltb_spec (iv0 + poll_interval_increment state)
              (min_poll_interval state)); [lia|].
  destruct (Z.ltb_spec (max_poll_interval state)
              (iv0 + poll_interval_increment state)); lia.
Qed.

(** X8: with a fixed positive increment an active state is polled more
    and more slowly: after [n] ticks in the state the interval is the
    interval it started from plus [n] increments, capped at
    [max_poll_interval]. *)
Theorem fixed_increment_saturates (n : nat) : forall (m : matcher) (i : nat)
    (state : lpmd_config_state_t) (bsys bcpu : Z),
  is_current (current_state m) i = true ->
  0 < poll_interval_increment state ->
  0 < min_poll_interval state <= interval m ->
  interval m <= max_poll_interval state ->
  max_poll_interval state + poll_interval_increment state <= INT_MAX ->
  fst (stay SETTING_IGNORE n m i state bsys bcpu)
  = Z.min (max_poll_interval state)
      (interval m + Z.of_nat n * poll_interval_increment state).
Proof.
  induction n as [|n IH]; intros m i state bsys bcpu Hcur Hinc Hmin Hmax Hfit;
    cbn [stay].
  - cbn [fst]. lia.
  - set (r := enter_state SETTING_IGNORE m i state bsys bcpu).
    assert (Hiv : interval (snd (fst r))
                  = Z.min (max_poll_interval state)
                      (interval m + poll_interval_increment state)).
    { subst r. unfold enter_state. rewrite Hcur. cbn [fst snd interval].
      now apply (adjust_interval_fixed (set_entry_load bsys bcpu state)). }
    assert (Hc : current_state (snd (fst r)) = current_state m).
    { subst r. unfold enter_state. rewrite Hcur. reflexivity. }
    rewrite (IH (snd (fst r)) i (set_entry_load bsys bcpu state) bsys bcpu);
      cbn [set_entry_load poll_interval_increment min_poll_interval
           max_poll_interval]; rewrite ?Hc, ?Hiv; try assumption; lia.
Qed.

(** X9: with the adaptive sentinel the interval of the active state never
    grows with the CPU load: a higher [busy_cpu] gives the same or a
    shorter interval (for products that fit an [int]). *)
Theorem adaptive_interval_antitone (m : matcher) (i : nat)
    (state : lpmd_config_state_t) (bsys bcpu bcpu' : Z) :
  is_current (current_state m) i = true ->
  poll_interval_increment state = -1 ->
  0 <= max_poll_interval state ->
  bcpu <= bcpu' ->
  in_int (10000 - bcpu) -> in_int (10000 - bcpu') ->
  in_int (max_poll_interval state * (10000 - bcpu)) ->
  in_int (max_poll_interval state * (10000 - bcpu')) ->
  fst (fst (enter_state SETTING_IGNORE m i state bsys bcpu'))
  <= fst (fst (enter_state SETTING_IGNORE m i state bsys bcpu)).
Proof.
  intros Hcur Hinc Hmax Hle Hi1 Hi1' Hi2 Hi2'.
  unfold enter_state. rewrite Hcur. cbn [fst].
  unfold adjust_interval.
  cbn [set_entry_load poll_interval_increment min_poll_interval
       max_poll_interval].
  rewrite Hinc. change (-1 =? -1) with true. cbv iota.
  rewrite (isub_small 10000 bcpu Hi1), (isub_small 10000 bcpu' Hi1').
  rewrite (imul_small _ _ Hi2), (imul_small _ _ Hi2').
  rewrite !floor_100_exact
    by (match goal with |- in_int (idiv ?x _) =>
          rewrite <- (to_int_small x) by assumption end;
        apply quot_in_int, to_int_range).
  unfold idiv.
  assert (Hq : Z.quot (Z.quot (max_poll_interval state * (10000 - bcpu'))
                         10000) 100 * 100
               <= Z.quot (Z.quot (max_poll_interval state * (10000 - bcpu))
                            10000) 100 * 100).
  { apply Z.mul_le_mono_nonneg_r; [lia|].
    apply Z.quot_le_mono; [lia|]. apply Z.quot_le_mono; [lia|]. nia. }
  set (a := Z.quot _ 100 * 100) in *. set (b := Z.quot _ 100 * 100) in *.
  clearbody a b.
  destruct (negb (min_poll_interval state =? 0));
    destruct (negb (max_poll_interval state =? 0)); cbn [andb];
    destruct (Z.ltb_spec a (min_poll_interval state));
    destruct (Z.ltb_spec b (min_poll_interval state));
    repeat match goal with
           | |- context [Z.ltb ?x ?y] => destruct (Z.ltb_spec x y)
           end; lia.
Qed.

End MatcherTickMore.

(** X4 at a concrete input: the state of the overshoot example, active,
    matches at 5300 and so at 5000. *)
Lemma state_match_downward_closed_witness :
  Matcher.state_match true MatcherRef.overshoot_state 5000 0 (-1) (-1) = true.
Proof.
  apply (proj1 (state_match_downward_closed true MatcherRef.overshoot_state
                  5300 0 5000 0 (-1) (-1) eq_refl ltac:(lia) ltac:(lia))).
Defined.

(** X5 at a concrete input: a graphics threshold of 30% and a reading of
    20%. *)
Lemma gfx_unavailable_never_disqualifies_witness :
  Matcher.state_match false
    (Matcher.mkState 1 (-1) 0 0 0 3000 1000 1000 (-1) 0 0 0 0 EmptyString 0 0)
    3000 2000 (-1) (-1)
  = Matcher.state_match false
      (Matcher.mkState 1 (-1) 0 0 0 3000 1000 1000 (-1) 0 0 0 0 EmptyString
         0 0)
      3000 2000 2000 (-1).
Proof.
  apply gfx_unavailable_never_disqualifies. left. simpl. lia.
Defined.

(** X6 at a concrete input: an invalid state, a catch-all state and a
    third state. *)
Lemma reselection_is_silent_witness :
  snd (Matcher.process_next_config_state (-1)
         (snd (fst (Matcher.process_next_config_state (-1)
                      (Matcher.matcher_init
                         [MatcherRef.invalid_state; MatcherRef.default_state;
                          MatcherRef.stepping_state])
                      3000 2000 (-1) (-1))))
         3000 2000 (-1) (-1)) = [].
Proof.
  apply (reselection_is_silent (-1)
           (Matcher.matcher_init
              [MatcherRef.invalid_state; MatcherRef.default_state;
               MatcherRef.stepping_state])
           3000 2000 (-1) (-1) 1 MatcherRef.default_state).
  - reflexivity.
  - reflexivity.
  - intros j s Hj Hs. destruct j as [|j]; [|lia].
    injection Hs as <-. reflexivity.
  - simpl. lia.
  - unfold in_int, INT_MIN, INT_MAX. simpl. lia.
Defined.

(** X7 at a concrete input: entering the catch-all state from no state. *)
Lemma actuation_iff_state_changes_witness :
  last (snd (Matcher.enter_state (-1)
               (Matcher.matcher_init [MatcherRef.default_state]) 0
               MatcherRef.default_state 3000 2000))
  = Some Matcher.process_lpm_UTIL_ENTER.
Proof.
  apply (proj2 (proj2 (actuation_iff_state_changes (-1)
           (Matcher.matcher_init [MatcherRef.default_state]) 0
           MatcherRef.default_state 3000 2000))).
  reflexivity.
Defined.

(** X8 at a concrete input: three ticks in the stepping state, from
    500 ms. *)
Lemma fixed_increment_saturates_witness :
  fst (MatcherRun.stay (-1) 3
         (Matcher.mkMatcher (Some 0%nat) 500 [MatcherRef.stepping_state])
         0 MatcherRef.stepping_state 3000 2000) = 650.
Proof.
  rewrite (fixed_increment_saturates (-1) 3
             (Matcher.mkMatcher (Some 0%nat) 500 [MatcherRef.stepping_state])
             0 MatcherRef.stepping_state 3000 2000);
    try reflexivity; unfold INT_MAX; simpl; lia.
Defined.

(** X9 at a concrete input: the adaptive default state at 10% and at 50%
    CPU load. *)
Lemma adaptive_interval_antitone_witness :
  fst (fst (Matcher.enter_state (-1)
              (Matcher.mkMatcher (Some 0%nat) 1000 [MatcherRef.default_state])
              0 MatcherRef.default_state 3000 5000))
  <= fst (fst (Matcher.enter_state (-1)
                 (Matcher.mkMatcher (Some 0%nat) 1000
                    [MatcherRef.default_state])
                 0 MatcherRef.default_state 3000 1000)).
Proof.
  apply adaptive_interval_antitone;
    try reflexivity; unfold in_int, INT_MIN, INT_MAX; simpl; lia.
Defined.

(** ** Initialisation of the config states *)

Section InitFacts.
Import Matcher Init.

Variable parse_cpu_str_ret : string -> Z.

Lemma init_loop_spec (ss : list init_state) : forall nr,
  0 <= nr -> nr + Z.of_nat (length ss) <= INT_MAX ->
  fst (fst (init_loop parse_cpu_str_ret ss nr))
  = map (init_one parse_cpu_str_ret) ss
  /\ snd (fst (init_loop parse_cpu_str_ret ss nr))
     = nr + Z.of_nat
              (length (List.filter (cpus_accepted parse_cpu_str_ret) ss)).
Proof.
  induction ss as [|s ss IH]; intros nr H0 Hfit; cbn [init_loop length] in *.
  - cbn. split; [reflexivity | lia].
  - set (nr1 := if cpus_accepted parse_cpu_str_ret s then iadd nr 1 else nr).
    assert (Hnr1 : nr1 = nr + (if cpus_accepted parse_cpu_str_ret s
                               then 1 else 0)).
    { subst nr1. destruct (cpus_accepted parse_cpu_str_ret s); [|lia].
      apply iadd_small. unfold in_int, INT_MIN, INT_MAX in *. lia. }
    specialize (IH nr1).
    destruct (init_loop parse_cpu_str_ret ss nr1) as [[ss1 nr2] tr].
    cbn [fst snd] in *. cbn [map List.filter].
    destruct IH as [IH1 IH2];
      [destruct (cpus_accepted parse_cpu_str_ret s); lia
      |destruct (cpus_accepted parse_cpu_str_ret s); lia|].
    split; [now rewrite IH1|].
    rewrite IH2, Hnr1.
    destruct (cpus_accepted parse_cpu_str_ret s); cbn [length]; lia.
Qed.

Lemma util_init_states (ss : list init_state) (use_config_state : Z) :
  Z.of_nat (length ss) <= INT_MAX ->
  snd (fst (fst (util_init parse_cpu_str_ret ss use_config_state)))
  = map (init_one parse_cpu_str_ret) ss.
Proof.
  intros Hlen. unfold util_init.
  destruct (init_loop_spec ss 0 ltac:(lia) ltac:(lia)) as [H1 _].
  destruct (init_loop parse_cpu_str_ret ss 0) as [[ss1 nr] tr].
  cbn [fst snd] in *. subst ss1. destruct (nr <? 2); reflexivity.
Qed.

(** X10: [util_init] returns 0 and leaves [use_config_state] alone when
    at least two states have an empty or accepted CPU list, and otherwise
    returns 1 and clears [use_config_state]; a state counts whatever its
    [valid] flag says.  Each state is normalised if its CPU list is
    accepted and has its [valid] flag cleared if not. *)
Theorem util_init_counts_accepted (ss : list init_state)
    (use_config_state : Z) :
  Z.of_nat (length ss) <= INT_MAX ->
  let r := util_init parse_cpu_str_ret ss use_config_state in
  let accepted :=
    length (List.filter (cpus_accepted parse_cpu_str_ret) ss) in
  snd (fst (fst r)) = map (init_one parse_cpu_str_ret) ss
  /\ ((2 <= accepted)%nat ->
      fst (fst (fst r)) = 0 /\ snd (fst r) = use_config_state)
  /\ ((accepted < 2)%nat -> fst (fst (fst r)) = 1 /\ snd (fst r) = 0).
Proof.
  intros Hlen. cbv zeta. unfold util_init.
  destruct (init_loop_spec ss 0 ltac:(lia) ltac:(lia)) as [H1 H2].
  destruct (init_loop parse_cpu_str_ret ss 0) as [[ss1 nr] tr].
  cbn [fst snd] in *. subst ss1.
  destruct (Z.ltb_spec nr 2); cbn [fst snd];
    (split; [reflexivity|]); split; intros Ha; try lia; auto.
Qed.

(** X11: what [util_init] makes of a state whose CPU list is accepted.
    The entry thresholds are multiplied by 100, [exit_system_load_hyst] is
    not; [max_poll_interval] and [poll_interval_increment] are never 0
    afterwards; and if at most one of the two poll bounds was configured
    (the other one 0, none negative) the bounds end up ordered, with 0 and
    1000 ms if neither was. *)
Theorem util_init_normalizes (s : init_state) :
  cpus_accepted parse_cpu_str_ret s = true ->
  let s' := base (init_one parse_cpu_str_ret s) in
  entry_system_load_thres s' = imul (entry_system_load_thres (base s)) 100
  /\ enter_cpu_load_thres s' = imul (enter_cpu_load_thres (base s)) 100
  /\ enter_gfx_load_thres s' = imul (enter_gfx_load_thres (base s)) 100
  /\ exit_system_load_hyst s' = exit_system_load_hyst (base s)
  /\ valid s' = valid (base s)
  /\ max_poll_interval s' <> 0
  /\ poll_interval_increment s' <> 0
  /\ (min_poll_interval (base s) = 0 \/ max_poll_interval (base s) = 0 ->
      0 <= min_poll_interval (base s) -> 0 <= max_poll_interval (base s) ->
      0 <= min_poll_interval s' <= max_poll_interval s')
  /\ (min_poll_interval (base s) = 0 -> max_poll_interval (base s) = 0 ->
      min_poll_interval s' = 0
      /\ max_poll_interval s' = DEFAULT_POLL_RATE_MS).
Proof.
  intros Hacc. cbv zeta. unfold init_one. rewrite Hacc. cbn [base].
  unfold normalize, DEFAULT_POLL_RATE_MS.
  cbn [entry_system_load_thres enter_cpu_load_thres enter_gfx_load_thres
       exit_system_load_hyst valid max_poll_interval min_poll_interval
       poll_interval_increment].
  do 5 (split; [reflexivity|]).
  destruct (Z.eqb_spec (min_poll_interval (base s)) 0);
    destruct (Z.eqb_spec (max_poll_interval (base s)) 0);
    destruct (Z.eqb_spec (poll_interval_increment (base s)) 0);
    repeat match goal with
           | |- context [Z.ltb ?x ?y] => destruct (Z.ltb_spec x y)
           end;
    repeat split; intros; try lia.
Qed.

(** X12: a state whose CPU list [parse_cpu_str] rejects never matches
    after [util_init], whatever the loads, the hint and the active
    state. *)
Theorem rejected_state_never_matches (ss : list init_state)
    (use_config_state : Z) (i : nat) (s : init_state)
    (active : bool) (bsys bcpu bgfx wlt_index : Z) :
  ss !! i = Some s ->
  cpus_accepted parse_cpu_str_ret s = false ->
  Z.of_nat (length ss) <= INT_MAX ->
  exists s',
    snd (fst (fst (util_init parse_cpu_str_ret ss use_config_state))) !! i
    = Some s'
    /\ state_match active (base s') bsys bcpu bgfx wlt_index = false.
Proof.
  intros Hi Hrej Hlen. rewrite (util_init_states ss use_config_state Hlen).
  exists (init_one parse_cpu_str_ret s). split.
  - rewrite list_lookup_fmap, Hi. reflexivity.
  - unfold init_one. rewrite Hrej. reflexivity.
Qed.

(** X13: the overshoot an initialised state tolerates is its hysteresis
    taken in hundredths of a percent: a state configured with entry
    threshold [T] percent and hysteresis [H >= 0] that has no workload
    hint matches a [busy_sys] only up to [100 * T + H]. *)
Theorem overshoot_after_init_bounded (s : init_state) (active : bool)
    (bsys bcpu bgfx wlt_index : Z) :
  cpus_accepted parse_cpu_str_ret s = true ->
  wlt_type (base s) = -1 ->
  0 < entry_system_load_thres (base s) ->
  0 <= exit_system_load_hyst (base s) ->
  in_int (entry_system_load_thres (base s) * 100
          + exit_system_load_hyst (base s)) ->
  state_match active (base (init_one parse_cpu_str_ret s))
    bsys bcpu bgfx wlt_index = true ->
  bsys <= 100 * entry_system_load_thres (base s)
          + exit_system_load_hyst (base s).
Proof.
  intros Hacc Hw Ht Hh Hfit Hm.
  apply state_match_true_iff in Hm.
  unfold init_one in Hm. rewrite Hacc in Hm. cbn [base] in Hm.
  unfold normalize in Hm.
  cbn [entry_system_load_thres enter_cpu_load_thres enter_gfx_load_thres
       exit_system_load_hyst valid wlt_type entry_load_sys] in Hm.
  assert (Hthr : imul (entry_system_load_thres (base s)) 100
                 = entry_system_load_thres (base s) * 100).
  { apply imul_small. unfold in_int, INT_MIN, INT_MAX in *. lia. }
  rewrite Hthr in Hm.
  rewrite (iadd_small (entry_system_load_thres (base s) * 100) _ Hfit) in Hm.
  intuition lia.
Qed.

End InitFacts.

(** X10 at a concrete input: of three states one has a rejected CPU
    list; two are left, so the config states stay in use. *)
Lemma util_init_counts_accepted_witness :
  fst (fst (fst (Init.util_init InitRef.parse_cpu_str_ret
                   InitRef.three_states 1))) = 0
  /\ snd (fst (Init.util_init InitRef.parse_cpu_str_ret
                 InitRef.three_states 1)) = 1.
Proof.
  apply (proj1 (proj2 (util_init_counts_accepted InitRef.parse_cpu_str_ret
                         InitRef.three_states 1
                         ltac:(unfold INT_MAX; simpl; lia)))).
  vm_compute. lia.
Defined.

(** X11 at a concrete input: a state with an accepted CPU list and no
    poll interval configured. *)
Lemma util_init_normalizes_witness :
  Matcher.min_poll_interval
    (Init.base (Init.init_one InitRef.parse_cpu_str_ret
                  (InitRef.configured "0-3" 50 1000))) = 0
  /\ Matcher.max_poll_interval
       (Init.base (Init.init_one InitRef.parse_cpu_str_ret
                     (InitRef.configured "0-3" 50 1000)))
     = Matcher.DEFAULT_POLL_RATE_MS.
Proof.
  apply (util_init_normalizes InitRef.parse_cpu_str_ret
           (InitRef.configured "0-3" 50 1000) eq_refl); reflexivity.
Defined.

(** X12 at a concrete input: the second of the three states. *)
Lemma rejected_state_never_matches_witness :
  exists s',
    snd (fst (fst (Init.util_init InitRef.parse_cpu_str_ret
                     InitRef.three_states 1))) !! 1%nat = Some s'
    /\ Matcher.state_match false (Init.base s') 0 0 (-1) (-1) = false.
Proof.
  apply (rejected_state_never_matches InitRef.parse_cpu_str_ret
           InitRef.three_states 1 1 (InitRef.configured "x" 10 0)).
  - reflexivity.
  - reflexivity.
  - unfold INT_MAX. simpl. lia.
Defined.

(** X13 at a concrete input: entry threshold 50%, hysteresis 1000, a
    system load of 40%. *)
Lemma overshoot_after_init_bounded_witness :
  4000 <= 100 * 50 + 1000.
Proof.
  apply (overshoot_after_init_bounded InitRef.parse_cpu_str_ret
           (InitRef.configured "0-3" 50 1000) false 4000 0 (-1) (-1)).
  - reflexivity.
  - reflexivity.
  - simpl. lia.
  - simpl. lia.
  - unfold in_int, INT_MIN, INT_MAX. simpl. lia.
  - vm_compute. reflexivity.
Defined.

(** ** Simple classifier and control loop *)

Section DriverFacts.
Import Hyst Driver.

Lemma round_interval_spec (x : Z) :
  0 <= x <= 1000 ->
  100 <= round_interval x <= 1000
  /\ Z.divide 100 (round_interval x)
  /\ round_interval x = Z.max 100 (Z.quot x 100 * 100).
Proof.
  intros Hx. unfold round_interval.
  rewrite floor_100_exact by (unfold in_int, INT_MIN, INT_MAX; lia).
  destruct (quot_const_bounds x 100 ltac:(lia)) as [Hpos _].
  specialize (Hpos ltac:(lia)).
  pose proof (Z.quot_pos x 100 ltac:(lia) ltac:(lia)) as Hq.
  destruct (Z.eqb_spec (Z.quot x 100 * 100) 0) as [Hz|Hz].
  - repeat split; try lia. exists 1. reflexivity.
  - repeat split; try lia. exists (Z.quot x 100). reflexivity.
Qed.

(** X14: the interval of the simple mode.  In low power mode with no exit
    interval configured, after the first run and with a known CPU load of
    0 .. 10000, [get_util_interval] returns a multiple of 100 ms between
    100 and 1000 ms, never longer for a higher load; out of low power mode
    with no entry interval configured it returns 1000 ms. *)
Theorem util_interval_adaptive (p : platform) (busy_cpu busy_cpu' : Z) :
  0 <= busy_cpu <= busy_cpu' -> busy_cpu' <= 10000 ->
  (in_lpm p = true -> util_exit_interval p = 0 ->
   100 <= get_util_interval 0 p busy_cpu <= 1000
   /\ Z.divide 100 (get_util_interval 0 p busy_cpu)
   /\ get_util_interval 0 p busy_cpu' <= get_util_interval 0 p busy_cpu)
  /\ (in_lpm p = false -> util_entry_interval p = 0 ->
      get_util_interval 0 p busy_cpu = 1000).
Proof.
  intros Hb Hb'. unfold get_util_interval. split.
  - intros -> ->. change (0 =? 0) with true. cbn [negb orb].
    destruct (Z.ltb_spec busy_cpu 0); [lia|].
    destruct (Z.ltb_spec busy_cpu' 0); [lia|].
    rewrite !isub_small, !imul_small
      by (unfold in_int, INT_MIN, INT_MAX; rewrite ?isub_small;
          unfold in_int, INT_MIN, INT_MAX; lia).
    unfold idiv.
    assert (Hq : forall b, 0 <= b <= 10000 ->
              0 <= Z.quot (1000 * (10000 - b)) 10000 <= 1000).
    { intros b Hb0. split; [apply Z.quot_pos; lia|].
      apply Z.quot_le_upper_bound; lia. }
    destruct (round_interval_spec _ (Hq busy_cpu ltac:(lia)))
      as (Hr & Hd & He).
    destruct (round_interval_spec _ (Hq busy_cpu' ltac:(lia)))
      as (_ & _ & He').
    split; [exact Hr|]. split; [exact Hd|].
    rewrite He, He'.
    apply Z.max_le_compat_l, Z.mul_le_mono_nonneg_r; [lia|].
    apply Z.quot_le_mono; [lia|]. apply Z.quot_le_mono; lia.
  - intros -> ->. reflexivity.
Qed.

End DriverFacts.

(** X14 at a concrete input: in low power mode, CPU loads of 20% and
    80%. *)
Lemma util_interval_adaptive_witness :
  100 <= Driver.get_util_interval 0 DriverRef.asleep 2000 <= 1000
  /\ Z.divide 100 (Driver.get_util_interval 0 DriverRef.asleep 2000)
  /\ Driver.get_util_interval 0 DriverRef.asleep 8000
     <= Driver.get_util_interval 0 DriverRef.asleep 2000.
Proof.
  apply (proj1 (util_interval_adaptive DriverRef.asleep 2000 8000
                  ltac:(lia) ltac:(lia))); reflexivity.
Defined.

Section DriverTickFacts.
Import Hyst Driver.

Variable SETTING_IGNORE : Z.

Lemma simple_tick_facts (inp : tick_input) (s : daemon) :
  let r := simple_tick inp s in
  let s' := snd (fst r) in
  mt s' = mt s /\ use_config_state s' = use_config_state s
  /\ snap s' = snap s
  /\ (first_run s <> 0 -> snd r = [])
  /\ (snd r <> [] -> first_run s' = 1)
  /\ (snd r = []
      \/ (snd r = [Act Matcher.process_lpm_UTIL_ENTER]
          /\ in_lpm (plat inp) = false
          /\ ProcStat.busy_sys (snap s)
             <= imul (util_entry_threshold (plat inp)) 100
          /\ fst (fst r) = 1000)
      \/ (snd r = [process_lpm_UTIL_EXIT]
          /\ in_lpm (plat inp) = true
          /\ imul (util_exit_threshold (plat inp)) 100
             < ProcStat.busy_cpu (snap s))).
Proof.
  cbv zeta. unfold simple_tick, get_sys_stat.
  destruct (Z.eqb_spec (first_run s) 0) as [Hfr|Hfr]; cbn [negb].
  - destruct (in_lpm (plat inp)); cbn [negb andb].
    + destruct (Z.ltb_spec (imul (util_exit_threshold (plat inp)) 100)
                  (ProcStat.busy_cpu (snap s)));
        destruct (util_should_proceed _ (now_proceed inp) (hy s)) as [ok h1];
        destruct (ok =? 0); cbn [fst snd mt use_config_state snap first_run];
        repeat split; try congruence; auto 8.
    + destruct (Z.leb_spec (ProcStat.busy_sys (snap s))
                  (imul (util_entry_threshold (plat inp)) 100));
        destruct (util_should_proceed _ (now_proceed inp) (hy s)) as [ok h1];
        destruct (ok =? 0); cbn [fst snd mt use_config_state snap first_run];
        repeat split; try congruence; auto 8.
  - destruct (util_should_proceed SYS_NORMAL (now_proceed inp) (hy s))
      as [ok h1].
    destruct (ok =? 0); cbn [fst snd mt use_config_state snap first_run];
      repeat split; try congruence; auto.
Qed.

Lemma simple_mode_tick (wlt_index : Z) (inp : tick_input) (s : daemon)
    (r : Z * daemon * list call_out) :
  wlt_index < 0 -> simple_mode s ->
  periodic_util_update SETTING_IGNORE wlt_index inp s = Some r ->
  r = (-1, s, [])
  \/ exists s3, r = simple_tick inp s3
                /\ first_run s3 = first_run s /\ mt s3 = mt s
                /\ use_config_state s3 = use_config_state s.
Proof.
  intros Hw Hmode. unfold periodic_util_update.
  destruct (Z.leb_spec 0 wlt_index); [lia|].
  destruct (has_util_monitor (plat inp)); cbn [negb];
    [|intros [= <-]; now left].
  set (s1 := if initialized s =? 0 then _ else s).
  assert (H1 : first_run s1 = first_run s /\ mt s1 = mt s
               /\ use_config_state s1 = use_config_state s)
    by (subst s1; destruct (initialized s =? 0); auto).
  clearbody s1. destruct H1 as (Hf1 & Hm1 & Hu1).
  destruct (ProcStat.parse_proc_stat _ _) as [[c sn]|]; [|discriminate].
  destruct (Gfx.parse_gfx_util _ _) as [[c' g]|]; [|discriminate].
  cbn [with_gfx with_snap mt use_config_state].
  assert (Hsimple : (length (Matcher.config_states (mt s1)) =? 0)%nat
                    || (use_config_state s1 =? 0) = true).
  { rewrite Hm1, Hu1. destruct Hmode as [-> | ->]; [reflexivity|].
    apply orb_true_r. }
  rewrite Hsimple. intros [= <-]. right.
  eexists. split; [reflexivity|]. cbn. auto.
Qed.

(** X15: in the simple mode a tick that finds [first_run] set, as it is
    at start and after every transition, calls no actuator.  So the first
    tick never changes the power mode, and no two consecutive ticks do. *)
Theorem no_consecutive_transitions (w1 w2 : Z) (inp1 inp2 : tick_input)
    (s : daemon) (r1 r2 : Z * daemon * list call_out) :
  w1 < 0 -> w2 < 0 -> simple_mode s ->
  periodic_util_update SETTING_IGNORE w1 inp1 s = Some r1 ->
  periodic_util_update SETTING_IGNORE w2 inp2 (snd (fst r1)) = Some r2 ->
  (first_run s <> 0 -> snd r1 = [])
  /\ (snd r1 <> [] -> snd r2 = []).
Proof.
  intros Hw1 Hw2 Hmode H1 H2.
  destruct (simple_mode_tick w1 inp1 s r1 Hw1 Hmode H1)
    as [->|(s3 & -> & Hf3 & Hm3 & Hu3)].
  - split; [reflexivity | intros Hx; now contradiction Hx].
  - destruct (simple_tick_facts inp1 s3)
      as (Hmt & Huc & _ & Hcold & Hrearm & _).
    cbv zeta in *. split; [rewrite <- Hf3; exact Hcold|].
    intros Hcalls. specialize (Hrearm Hcalls).
    assert (Hmode' : simple_mode (snd (fst (simple_tick inp1 s3)))).
    { unfold simple_mode. rewrite Hmt, Huc, Hm3, Hu3. exact Hmode. }
    destruct (simple_mode_tick w2 inp2 _ r2 Hw2 Hmode' H2)
      as [->|(s4 & -> & Hf4 & _)]; [reflexivity|].
    apply (simple_tick_facts inp2 s4). rewrite Hf4, Hrearm. discriminate.
Qed.

(** X16: what a tick of the simple mode can do.  It makes no call, or the
    one call [process_lpm (UTIL_ENTER)], or the one call
    [process_lpm (UTIL_EXIT)].  It enters only when the platform is not in
    low power mode and the sampled [busy_sys] is at most 100 times the
    entry threshold, and then returns 1000 ms; it exits only when the
    platform is in low power mode and the sampled [busy_cpu] is above 100
    times the exit threshold. *)
Theorem simple_mode_transitions (w : Z) (inp : tick_input) (s : daemon)
    (r : Z * daemon * list call_out) :
  w < 0 -> simple_mode s ->
  periodic_util_update SETTING_IGNORE w inp s = Some r ->
  snd r = []
  \/ (snd r = [Act Matcher.process_lpm_UTIL_ENTER]
      /\ in_lpm (plat inp) = false
      /\ ProcStat.busy_sys (snap (snd (fst r)))
         <= imul (util_entry_threshold (plat inp)) 100
      /\ fst (fst r) = 1000)
  \/ (snd r = [process_lpm_UTIL_EXIT]
      /\ in_lpm (plat inp) = true
      /\ imul (util_exit_threshold (plat inp)) 100
         < ProcStat.busy_cpu (snap (snd (fst r)))).
Proof.
  intros Hw Hmode H.
  destruct (simple_mode_tick w inp s r Hw Hmode H)
    as [->|(s3 & -> & _)]; [now left|].
  destruct (simple_tick_facts inp s3) as (_ & _ & Hsnap & _ & _ & Hcases).
  cbv zeta in *. rewrite Hsnap. exact Hcases.
Qed.

End DriverTickFacts.

(** X15 at a concrete input: a tick that enters low power mode, and the
    tick after it. *)
Lemma no_consecutive_transitions_witness :
  exists r1 r2,
    Driver.periodic_util_update (-1) (-1) DriverRef.tick1 DriverRef.warm
    = Some r1
    /\ Driver.periodic_util_update (-1) (-1) DriverRef.tick2 (snd (fst r1))
       = Some r2
    /\ snd r1 = [Driver.Act Matcher.process_lpm_UTIL_ENTER]
    /\ snd r2 = [].
Proof.
  destruct (Driver.periodic_util_update (-1) (-1) DriverRef.tick1
              DriverRef.warm) as [r1|] eqn:H1;
    [|vm_compute in H1; discriminate H1].
  assert (Hcalls : snd r1 = [Driver.Act Matcher.process_lpm_UTIL_ENTER])
    by (vm_compute in H1; injection H1 as <-; reflexivity).
  destruct (Driver.periodic_util_update (-1) (-1) DriverRef.tick2
              (snd (fst r1))) as [r2|] eqn:H2;
    [|vm_compute in H1; injection H1 as <-; vm_compute in H2;
      discriminate H2].
  exists r1, r2. split; [reflexivity|]. split; [exact H2|].
  split; [exact Hcalls|].
  apply (proj2 (no_consecutive_transitions (-1) (-1) (-1) DriverRef.tick1
                  DriverRef.tick2 DriverRef.warm r1 r2 ltac:(lia) ltac:(lia)
                  (or_introl eq_refl) H1 H2)).
  rewrite Hcalls. discriminate.
Defined.

(** X16 at a concrete input: the tick that enters low power mode. *)
Lemma simple_mode_transitions_witness :
  exists r,
    Driver.periodic_util_update (-1) (-1) DriverRef.tick1 DriverRef.warm
    = Some r
    /\ (snd r = []
        \/ (snd r = [Driver.Act Matcher.process_lpm_UTIL_ENTER]
            /\ Driver.in_lpm (Driver.plat DriverRef.tick1) = false
            /\ ProcStat.busy_sys (Driver.snap (snd (fst r)))
               <= imul (Driver.util_entry_threshold
                          (Driver.plat DriverRef.tick1)) 100
            /\ fst (fst r) = 1000)
        \/ (snd r = [Driver.process_lpm_UTIL_EXIT]
            /\ Driver.in_lpm (Driver.plat DriverRef.tick1) = true
            /\ imul (Driver.util_exit_threshold
                       (Driver.plat DriverRef.tick1)) 100
               < ProcStat.busy_cpu (Driver.snap (snd (fst r))))).
Proof.
  destruct (Driver.periodic_util_update (-1) (-1) DriverRef.tick1
              DriverRef.warm) as [r|] eqn:H;
    [|vm_compute in H; discriminate H].
  exists r. split; [reflexivity|].
  apply (simple_mode_transitions (-1) (-1) DriverRef.tick1 DriverRef.warm r
           ltac:(lia) (or_introl eq_refl) H).
Defined.

(** ** Graphics utilization *)

Section GfxFacts.
Import Hyst Gfx.

Lemma residency_util_exact (cur prev t : Z) :
  0 <= prev <= cur -> cur - prev <= t -> 0 < t ->
  t * 10000 < 18446744073709551616 ->
  residency_util cur prev t = Some (10000 - (cur - prev) * 10000 / t)
  /\ 0 <= 10000 - (cur - prev) * 10000 / t <= 10000.
Proof.
  intros Hp Hd Ht Hfit. unfold residency_util.
  destruct (Z.eqb_spec t 0); [lia|].
  assert (Hq : 0 <= (cur - prev) * 10000 / t <= 10000).
  { split; [apply Z.div_pos; lia|]. apply Z.div_le_upper_bound; lia. }
  rewrite (to_ull_small (cur - prev)) by (unfold in_ull; lia).
  rewrite (to_ull_small ((cur - prev) * 10000)) by (unfold in_ull; lia).
  rewrite to_ull_small by (unfold in_ull; lia).
  rewrite to_int_small by (unfold in_int, INT_MIN, INT_MAX; lia).
  split; [reflexivity | lia].
Qed.

(** X17: the utilization from the residency files.  When both files are
    read, both counters have a previous reading, neither went backwards
    nor advanced by more than the elapsed time [time_ms > 0], the value
    returned is the larger of the two engines'
    [10000 - delta * 10000 / time_ms], each in 0 .. 10000, and both
    readings are kept for the next call. *)
Theorem gfx_util_sysfs_exact (time_ms : Z) (e : gfx_env) (st : gfx_state)
    (g1 g2 : gt) (v1 v2 : Z) :
  path_gfx_rc6 st = Some g1 -> path_sam_mc6 st = Some g2 ->
  residency e g1 = Scanned v1 -> residency e g2 = Scanned v2 ->
  0 <= gfx_rc6_prev st <= v1 -> 0 <= sam_mc6_prev st <= v2 ->
  v1 < ULLONG_MAX -> v2 < ULLONG_MAX ->
  v1 - gfx_rc6_prev st <= time_ms -> v2 - sam_mc6_prev st <= time_ms ->
  0 < time_ms -> time_ms * 10000 < 18446744073709551616 ->
  let u1 := 10000 - (v1 - gfx_rc6_prev st) * 10000 / time_ms in
  let u2 := 10000 - (v2 - sam_mc6_prev st) * 10000 / time_ms in
  get_gfx_util_sysfs time_ms e st
  = Some (Z.max u1 u2, set_residency_prev v1 v2 st)
  /\ 0 <= Z.max u1 u2 <= 10000.
Proof.
  intros Hp1 Hp2 Hr1 Hr2 Hv1 Hv2 Hm1 Hm2 Hd1 Hd2 Ht Hfit u1 u2.
  unfold ULLONG_MAX in Hm1, Hm2.
  destruct (residency_util_exact v1 (gfx_rc6_prev st) time_ms Hv1 Hd1 Ht Hfit)
    as [He1 Hu1].
  destruct (residency_util_exact v2 (sam_mc6_prev st) time_ms Hv2 Hd2 Ht Hfit)
    as [He2 Hu2].
  fold u1 in He1, Hu1. fold u2 in He2, Hu2.
  split; [|lia].
  unfold get_gfx_util_sysfs, read_residency. rewrite Hp1, Hp2, Hr1, Hr2.
  rewrite !to_ull_small by (unfold in_ull; lia).
  unfold sample_residency, ULLONG_MAX.
  destruct (Z.eqb_spec v1 18446744073709551615); [lia|].
  destruct (Z.eqb_spec v2 18446744073709551615); [lia|].
  cbn [andb].
  destruct (Z.eqb_spec (gfx_rc6_prev st) 18446744073709551615); [lia|].
  destruct (Z.eqb_spec (sam_mc6_prev st) 18446744073709551615); [lia|].
  rewrite He1, He2.
  destruct (Z.ltb_spec u2 u1); f_equal; f_equal; lia.
Qed.

(** X18: the elapsed time handed to [get_gfx_util_sysfs].  For two
    readings of the monotonic clock, the later not before the earlier,
    [time_ms] is not negative and is less than one millisecond away from
    the time that passed. *)
Theorem elapsed_time_ms_accurate (now last : timespec) :
  0 <= tv_nsec now < 1000000000 -> 0 <= tv_nsec last < 1000000000 ->
  0 <= (tv_sec now - tv_sec last) * 1000000000
       + (tv_nsec now - tv_nsec last) ->
  tv_sec now - tv_sec last < 18446744073709551 ->
  let elapsed_ns := (tv_sec now - tv_sec last) * 1000000000
                    + (tv_nsec now - tv_nsec last) in
  0 <= elapsed_time_ms now last
  /\ elapsed_ns - 1000000 < elapsed_time_ms now last * 1000000
     < elapsed_ns + 1000000.
Proof.
  intros Hn Hl Hpos Hfit elapsed_ns. unfold elapsed_time_ms.
  set (ds := tv_sec now - tv_sec last) in *.
  set (dn := tv_nsec now - tv_nsec last) in *.
  pose proof (Z.quot_rem' dn 1000000) as Hqr.
  assert (Hq : 0 <= ds * 1000 + Z.quot dn 1000000
               /\ elapsed_ns - 1000000
                  < (ds * 1000 + Z.quot dn 1000000) * 1000000
                  < elapsed_ns + 1000000).
  { subst elapsed_ns.
    destruct (Z.le_ge_cases 0 dn) as [Hdn|Hdn].
    - pose proof (Z.rem_bound_pos dn 1000000 Hdn ltac:(lia)).
      pose proof (Z.quot_pos dn 1000000 Hdn ltac:(lia)). lia.
    - pose proof (Z.rem_nonpos dn 1000000 ltac:(lia) ltac:(lia)).
      pose proof (Z.rem_bound_abs dn 1000000 ltac:(lia)). lia. }
  rewrite to_ull_small by (unfold in_ull; lia). exact Hq.
Qed.

Lemma msr_first_sample (e : gfx_env) (st : gfx_state) :
  tsc_prev st = 0 \/ val_prev st = 0 ->
  exists r st', parse_gfx_util_msr e st = Some (r, st')
                /\ busy_gfx st' = -1
                /\ gfx_sysfs_available st' = gfx_sysfs_available st.
Proof.
  intros H. unfold parse_gfx_util_msr.
  destruct (msr_tsc e =? ULLONG_MAX);
    [eexists _, _; split; [reflexivity|]; split; reflexivity|].
  destruct (msr_gfx_c0 e =? ULLONG_MAX);
    [eexists _, _; split; [reflexivity|]; split; reflexivity|].
  assert (Hw : (tsc_prev st =? 0) || (val_prev st =? 0) = true).
  { destruct H as [-> | ->]; [reflexivity | apply orb_true_r]. }
  rewrite Hw. eexists _, _. split; [reflexivity|]. split; reflexivity.
Qed.

(** X19: the first graphics sample of the process never traps and always
    reports the graphics load as unavailable ([busy_gfx = -1]), whatever
    the sources deliver. *)
Theorem first_gfx_sample_unavailable (e : gfx_env) :
  exists r st', parse_gfx_util e gfx_init = Some (r, st')
                /\ busy_gfx st' = -1.
Proof.
  unfold parse_gfx_util, parse_gfx_util_sysfs.
  cbn [gfx_init set_busy_gfx gfx_sysfs_available ts_prev tv_sec tv_nsec
       path_gfx_rc6 path_sam_mc6 gfx_rc6_prev sam_mc6_prev val_prev tsc_prev
       busy_gfx].
  change (1 =? 0) with false. change (0 =? 0) with true. cbn [andb].
  cbv iota.
  destruct (probe_gfx_util_sysfs e _) as [ret st1] eqn:Hprobe.
  destruct (Z.eqb_spec ret 0) as [->|Hret]; cbn [negb].
  - change (0 =? 0) with true. cbv iota.
    eexists _, _. split; [reflexivity|].
    cbn [set_ts_prev busy_gfx].
    unfold probe_gfx_util_sysfs in Hprobe.
    destruct (negb (gt0_readable e)); [now inversion Hprobe|].
    destruct (name_buf e) as [buf|]; [|now inversion Hprobe].
    destruct (String.prefix "gt0-rc" buf); [now inversion Hprobe|].
    destruct (String.prefix "gt0-mc" buf); now inversion Hprobe.
  - destruct (Z.eqb_spec 1 0) as [H10|_]; [discriminate H10|].
    destruct (msr_first_sample e (set_gfx_sysfs_available 0 st1))
      as (r & st' & Hm & Hb & _).
    { left. unfold probe_gfx_util_sysfs in Hprobe.
      destruct (negb (gt0_readable e)); [now inversion Hprobe|].
      destruct (name_buf e) as [buf|]; [|now inversion Hprobe].
      destruct (String.prefix "gt0-rc" buf); [now inversion Hprobe|].
      destruct (String.prefix "gt0-mc" buf); now inversion Hprobe. }
    exists r, st'. split; assumption.
Qed.

Lemma parse_gfx_util_disabled (e : gfx_env) (st : gfx_state) (r : Z)
    (st' : gfx_state) :
  gfx_sysfs_available st = 0 ->
  parse_gfx_util e st = Some (r, st') ->
  gfx_sysfs_available st' = 0
  /\ gfx_rc6_prev st' = gfx_rc6_prev st
  /\ sam_mc6_prev st' = sam_mc6_prev st
  /\ ts_prev st' = ts_prev st
  /\ parse_gfx_util_msr e (set_busy_gfx (-1) st) = Some (r, st').
Proof.
  intros Hoff. unfold parse_gfx_util, parse_gfx_util_sysfs.
  cbn [set_busy_gfx gfx_sysfs_available]. rewrite Hoff.
  change (0 =? 0) with true. cbv iota. change (1 =? 0) with false. cbv iota.
  intros Hm. split; [|split; [|split; [|split; [|exact Hm]]]];
    revert Hm; unfold parse_gfx_util_msr;
    repeat match goal with
           | |- context [if ?c then _ else _] => destruct c
           end; intros [= <- <-] || discriminate; cbn; auto.
Qed.

(** X20: once probing the residency files has failed,
    [gfx_sysfs_available] stays 0 over every later sample, and the
    residency readings and the time stamp of the residency path keep
    their values: the files are not sampled again. *)
Theorem sysfs_stays_disabled (es : list gfx_env) : forall st st',
  gfx_sysfs_available st = 0 ->
  gfx_run es st = Some st' ->
  gfx_sysfs_available st' = 0
  /\ gfx_rc6_prev st' = gfx_rc6_prev st
  /\ sam_mc6_prev st' = sam_mc6_prev st
  /\ ts_prev st' = ts_prev st.
Proof.
  induction es as [|e es IH]; intros st st' Hoff Hrun; cbn [gfx_run] in Hrun.
  - injection Hrun as <-. auto.
  - destruct (parse_gfx_util e st) as [[r st1]|] eqn:Hp; [|discriminate].
    destruct (parse_gfx_util_disabled e st r st1 Hoff Hp)
      as (Hoff1 & Hg & Hs & Ht & _).
    destruct (IH st1 st' Hoff1 Hrun) as (Ho & Hg' & Hs' & Ht').
    repeat split; congruence.
Qed.

(** X21: the utilization from the registers.  With a previous reading of
    both registers (neither 0), both reads succeeding, the time stamp
    counter advanced and the residency counter advanced by no more,
    [busy_gfx] is [delta_residency * 10000 / delta_tsc], in 0 .. 10000;
    while the previous residency reading is 0 the sample is a warm-up and
    [busy_gfx] is -1. *)
Theorem gfx_util_msr_exact (e : gfx_env) (st : gfx_state) :
  0 <= msr_tsc e < ULLONG_MAX -> 0 <= msr_gfx_c0 e < ULLONG_MAX ->
  (0 < tsc_prev st < msr_tsc e -> 0 < val_prev st <= msr_gfx_c0 e ->
   msr_gfx_c0 e - val_prev st <= msr_tsc e - tsc_prev st ->
   (msr_tsc e - tsc_prev st) * 10000 < 18446744073709551616 ->
   exists st',
     parse_gfx_util_msr e st = Some (0, st')
     /\ busy_gfx st'
        = (msr_gfx_c0 e - val_prev st) * 10000 / (msr_tsc e - tsc_prev st)
     /\ 0 <= busy_gfx st' <= 10000
     /\ tsc_prev st' = msr_tsc e /\ val_prev st' = msr_gfx_c0 e)
  /\ (val_prev st = 0 ->
      exists st', parse_gfx_util_msr e st = Some (0, st')
                  /\ busy_gfx st' = -1
                  /\ val_prev st' = msr_gfx_c0 e).
Proof.
  unfold ULLONG_MAX. intros Ht Hv. unfold parse_gfx_util_msr, ULLONG_MAX.
  destruct (Z.eqb_spec (msr_tsc e) 18446744073709551615); [lia|].
  destruct (Z.eqb_spec (msr_gfx_c0 e) 18446744073709551615); [lia|].
  split.
  - intros Htp Hvp Hd Hfit.
    destruct (Z.eqb_spec (tsc_prev st) 0); [lia|].
    destruct (Z.eqb_spec (val_prev st) 0); [lia|]. cbn [orb].
    rewrite (to_ull_small (msr_tsc e - tsc_prev st)) by (unfold in_ull; lia).
    rewrite (to_ull_small (msr_gfx_c0 e - val_prev st))
      by (unfold in_ull; lia).
    rewrite to_ull_small by (unfold in_ull; lia).
    destruct (Z.eqb_spec (msr_tsc e - tsc_prev st) 0); [lia|].
    assert (Hq : 0 <= (msr_gfx_c0 e - val_prev st) * 10000
                      / (msr_tsc e - tsc_prev st) <= 10000).
    { split; [apply Z.div_pos; lia|]. apply Z.div_le_upper_bound; lia. }
    rewrite to_int_small by (unfold in_int, INT_MIN, INT_MAX; lia).
    eexists. split; [reflexivity|]. cbn. auto.
  - intros ->. change (0 =? 0) with true. rewrite orb_true_r.
    eexists. split; [reflexivity|]. cbn. auto.
Qed.

End GfxFacts.

(** X17 at a concrete input: 500 ms and 100 ms of idle residency in one
    second. *)
Lemma gfx_util_sysfs_exact_witness :
  Gfx.get_gfx_util_sysfs 1000 GfxRef.both_files GfxRef.sampled
  = Some (9000, Gfx.set_residency_prev 1500 2100 GfxRef.sampled).
Proof.
  apply (proj1 (gfx_util_sysfs_exact 1000 GfxRef.both_files GfxRef.sampled
                  Gfx.GT0 Gfx.GT1 1500 2100 eq_refl eq_refl eq_refl eq_refl
                  ltac:(simpl; lia) ltac:(simpl; lia)
                  ltac:(unfold Gfx.ULLONG_MAX; lia)
                  ltac:(unfold Gfx.ULLONG_MAX; lia)
                  ltac:(simpl; lia) ltac:(simpl; lia)
                  ltac:(lia) ltac:(lia))).
Defined.

(** X18 at a concrete input: from 8.9 s to 10.2 s. *)
Lemma elapsed_time_ms_accurate_witness :
  0 <= Gfx.elapsed_time_ms (Hyst.mkTimespec 10 200000000)
         (Hyst.mkTimespec 8 900000000)
  /\ 1300000000 - 1000000
     < Gfx.elapsed_time_ms (Hyst.mkTimespec 10 200000000)
         (Hyst.mkTimespec 8 900000000) * 1000000
     < 1300000000 + 1000000.
Proof.
  apply (elapsed_time_ms_accurate (Hyst.mkTimespec 10 200000000)
           (Hyst.mkTimespec 8 900000000)); simpl; lia.
Defined.

(** X20 at a concrete input: two samples after probing has failed. *)
Lemma sysfs_stays_disabled_witness :
  exists st',
    Gfx.gfx_run [GfxRef.both_files; GfxRef.msr_later]
      (Gfx.set_gfx_sysfs_available 0 Gfx.gfx_init) = Some st'
    /\ Gfx.gfx_sysfs_available st' = 0
    /\ Gfx.gfx_rc6_prev st' = Gfx.ULLONG_MAX.
Proof.
  destruct (Gfx.gfx_run [GfxRef.both_files; GfxRef.msr_later]
              (Gfx.set_gfx_sysfs_available 0 Gfx.gfx_init))
    as [st'|] eqn:Hrun; [|vm_compute in Hrun; discriminate Hrun].
  exists st'. split; [reflexivity|].
  destruct (sysfs_stays_disabled [GfxRef.both_files; GfxRef.msr_later]
              (Gfx.set_gfx_sysfs_available 0 Gfx.gfx_init) st' eq_refl Hrun)
    as (H0 & Hg & _).
  split; [exact H0 | exact Hg].
Defined.

(** X21 at a concrete input: the residency register advanced by 500 while
    the time stamp counter advanced by 2000. *)
Lemma gfx_util_msr_exact_witness :
  exists st',
    Gfx.parse_gfx_util_msr GfxRef.msr_only GfxRef.sampled = Some (0, st')
    /\ Gfx.busy_gfx st' = 2500.
Proof.
  destruct (proj1 (gfx_util_msr_exact GfxRef.msr_only GfxRef.sampled
                     ltac:(unfold Gfx.ULLONG_MAX; simpl; lia)
                     ltac:(unfold Gfx.ULLONG_MAX; simpl; lia))
                  ltac:(simpl; lia) ltac:(simpl; lia) ltac:(simpl; lia)
                  ltac:(simpl; lia))
    as (st' & Hp & Hb & _).
  exists st'. split; [exact Hp | exact Hb].
Defined.

(** ** Hysteresis filter: the moving averages *)

Section HystMore.
Import Hyst.

Lemma elapsed_ms_range (now last : timespec) :
  0 <= elapsed_ms now last < 18446744073709551616.
Proof.
  unfold elapsed_ms.
  pose proof (to_ull_range ((tv_sec now - tv_sec last) * 1000000000
                            + tv_nsec now - tv_nsec last)) as Hr.
  unfold in_ull in Hr. split.
  - apply Z.div_pos; lia.
  - apply Z.div_lt_upper_bound; lia.
Qed.

Lemma decay_fold_bounds (avg cur : Z) :
  0 <= avg -> avg * 4 < 18446744073709551616 ->
  0 <= cur < 18446744073709551616 ->
  Z.min avg cur - 1 <= decay_fold avg cur <= Z.max avg cur.
Proof.
  intros Ha Hfit Hc. unfold decay_fold, DECAY_PERIOD.
  change (5 - 1) with 4.
  rewrite (to_ull_small (avg * 4)) by (unfold in_ull; lia).
  rewrite to_ull_small
    by (unfold in_ull; Z.to_euclidean_division_equations; lia).
  Z.to_euclidean_division_equations. lia.
Qed.

Lemma hysteresis_on (h : hyst) :
  hysteresis_enabled h ->
  (util_out_hyst h =? 0) && (util_in_hyst h =? 0) = false.
Proof.
  unfold hysteresis_enabled. intros Hen. apply andb_false_iff.
  destruct (Z.eqb_spec (util_out_hyst h) 0);
    destruct (Z.eqb_spec (util_in_hyst h) 0); auto; tauto.
Qed.

(** X22: the averages are moving averages.  With hysteresis enabled, the
    [avg_in] a [SYS_OVERLOAD] candidate leaves lies between the old
    [avg_in] and the time spent in low power mode, up to one
    millisecond of rounding below; a [SYS_IDLE] candidate does the same
    to [avg_out] with the time spent out of it (for averages whose
    product with 4 fits 64 bits). *)
Theorem moving_average_between (tp_now : timespec) (h : hyst) :
  hysteresis_enabled h ->
  (0 <= avg_in h -> avg_in h * 4 < 18446744073709551616 ->
   let cur_in := elapsed_ms tp_now (tp_last_in h) in
   let h' := snd (util_should_proceed SYS_OVERLOAD tp_now h) in
   Z.min (avg_in h) cur_in - 1 <= avg_in h' <= Z.max (avg_in h) cur_in)
  /\ (0 <= avg_out h -> avg_out h * 4 < 18446744073709551616 ->
      let cur_out := elapsed_ms tp_now (tp_last_out h) in
      let h' := snd (util_should_proceed SYS_IDLE tp_now h) in
      Z.min (avg_out h) cur_out - 1 <= avg_out h'
      <= Z.max (avg_out h) cur_out).
Proof.
  intros Hen. pose proof (hysteresis_on h Hen) as Hoff.
  split; intros Ha Hfit; cbv zeta; unfold util_should_proceed;
    rewrite Hoff.
  - destruct ((_ <=? _) && (_ <=? _));
      cbn [fst snd set_avg_in set_avg_out avg_in avg_out];
      apply decay_fold_bounds; auto using elapsed_ms_range.
  - destruct ((_ <=? _) && (_ <=? _));
      cbn [fst snd set_avg_in set_avg_out avg_in avg_out];
      apply decay_fold_bounds; auto using elapsed_ms_range.
Qed.

(** X23: while [avg_in] is at [util_in_hyst] or above, as the lazy
    initialisation leaves it, a [SYS_IDLE] candidate is decided by the
    minimum stay alone: it proceeds exactly when the time spent out of
    low power mode has reached [util_out_min].  Accepted or rejected, it
    leaves [avg_in] at [util_in_hyst] or above, so a run of idle
    candidates never ends this regime (as long as [avg_in * 6] fits 64
    bits). *)
Theorem idle_decided_by_min_stay (tp_now : timespec) (h : hyst) :
  hysteresis_enabled h ->
  util_in_hyst h <= avg_in h -> 0 <= avg_in h ->
  avg_in h * 6 < 18446744073709551616 ->
  let r := util_should_proceed SYS_IDLE tp_now h in
  (fst r = 1 <-> util_out_min h <= elapsed_ms tp_now (tp_last_out h))
  /\ (fst r = 1 \/ fst r = 0)
  /\ util_in_hyst (snd r) = util_in_hyst h
  /\ util_out_min (snd r) = util_out_min h
  /\ util_in_hyst (snd r) <= avg_in (snd r).
Proof.
  intros Hen Hge H0 Hfit. cbv zeta. unfold util_should_proceed.
  rewrite (hysteresis_on h Hen).
  cbn [set_avg_out util_in_hyst avg_in util_out_min].
  destruct (Z.leb_spec (util_in_hyst h) (avg_in h)); [|lia]. cbn [andb].
  destruct (Z.leb_spec (util_out_min h) (elapsed_ms tp_now (tp_last_out h)));
    cbn [fst snd set_avg_in set_avg_out util_in_hyst avg_in util_out_min].
  - repeat split; auto.
  - pose proof (penalty_grows (avg_in h) H0 Hfit) as [Hp _].
    repeat split; auto; try lia; intros; lia.
Qed.

End HystMore.

(** X22 at a concrete input: entry and exit hysteresis 1000 ms, first
    [SYS_OVERLOAD] candidate 100 ms after start. *)
Lemma moving_average_between_witness :
  99 <= Hyst.avg_in
          (snd (Hyst.util_should_proceed Hyst.SYS_OVERLOAD
                  (Hyst.mkTimespec 10 100000000)
                  (Hyst.hyst_init 1000 1000 (Hyst.mkTimespec 10 0)
                     (Hyst.mkTimespec 10 0))))
  <= 1000.
Proof.
  apply (proj1 (moving_average_between (Hyst.mkTimespec 10 100000000)
                  (Hyst.hyst_init 1000 1000 (Hyst.mkTimespec 10 0)
                     (Hyst.mkTimespec 10 0))
                  ltac:(unfold Hyst.hysteresis_enabled; simpl; lia)));
    simpl; lia.
Defined.

(** X23 at a concrete input: a minimum stay of 500 ms and a candidate
    100 ms after start, which is rejected. *)
Lemma idle_decided_by_min_stay_witness :
  fst (Hyst.util_should_proceed Hyst.SYS_IDLE
         (Hyst.mkTimespec 10 100000000)
         (Hyst.hyst_init 1000 1000 (Hyst.mkTimespec 10 0)
            (Hyst.mkTimespec 10 0))) = 0.
Proof.
  destruct (idle_decided_by_min_stay (Hyst.mkTimespec 10 100000000)
              (Hyst.hyst_init 1000 1000 (Hyst.mkTimespec 10 0)
                 (Hyst.mkTimespec 10 0))
              ltac:(unfold Hyst.hysteresis_enabled; simpl; lia)
              ltac:(simpl; lia) ltac:(simpl; lia) ltac:(simpl; lia))
    as (Hiff & [H1|H0] & _).
  - apply Hiff in H1. vm_compute in H1. contradiction H1. reflexivity.
  - exact H0.
Defined.

(** ** Control loop without hysteresis *)

Section DriverLive.
Import Hyst Driver.

Variable SETTING_IGNORE : Z.

Lemma simple_mode_tick_warm (wlt_index : Z) (inp : tick_input) (s : daemon)
    (r : Z * daemon * list call_out) :
  wlt_index < 0 -> simple_mode s ->
  has_util_monitor (plat inp) = true -> initialized s <> 0 ->
  periodic_util_update SETTING_IGNORE wlt_index inp s = Some r ->
  exists s3, r = simple_tick inp s3
             /\ first_run s3 = first_run s /\ hy s3 = hy s.
Proof.
  intros Hw Hmode Hmon Hinit. unfold periodic_util_update.
  destruct (Z.leb_spec 0 wlt_index); [lia|].
  rewrite Hmon. cbn [negb].
  destruct (Z.eqb_spec (initialized s) 0); [contradiction|].
  destruct (ProcStat.parse_proc_stat _ _) as [[c sn]|]; [|discriminate].
  destruct (Gfx.parse_gfx_util _ _) as [[c' g]|]; [|discriminate].
  cbn [with_gfx with_snap mt use_config_state].
  assert (Hsimple : (length (Matcher.config_states (mt s)) =? 0)%nat
                    || (use_config_state s =? 0) = true).
  { destruct Hmode as [-> | ->]; [reflexivity|]. apply orb_true_r. }
  rewrite Hsimple. intros [= <-].
  eexists. split; [reflexivity|]. cbn. auto.
Qed.

(** X24: with hysteresis off (both [util_in_hyst] and [util_out_hyst] 0)
    and [first_run] clear, a tick of the simple mode that finds the
    platform out of low power mode and samples a [busy_sys] at or below
    100 times the entry threshold makes the call
    [process_lpm (UTIL_ENTER)]; one that finds it in low power mode and
    samples a [busy_cpu] above 100 times the exit threshold makes the
    call [process_lpm (UTIL_EXIT)].  Either sets [first_run] again. *)
Theorem simple_mode_acts_without_hysteresis (w : Z) (inp : tick_input)
    (s : daemon) (r : Z * daemon * list call_out) :
  w < 0 -> simple_mode s ->
  has_util_monitor (plat inp) = true -> initialized s <> 0 ->
  first_run s = 0 ->
  util_out_hyst (hy s) = 0 -> util_in_hyst (hy s) = 0 ->
  periodic_util_update SETTING_IGNORE w inp s = Some r ->
  (in_lpm (plat inp) = false ->
   ProcStat.busy_sys (snap (snd (fst r)))
   <= imul (util_entry_threshold (plat inp)) 100 ->
   snd r = [Act Matcher.process_lpm_UTIL_ENTER]
   /\ first_run (snd (fst r)) = 1)
  /\ (in_lpm (plat inp) = true ->
      imul (util_exit_threshold (plat inp)) 100
      < ProcStat.busy_cpu (snap (snd (fst r))) ->
      snd r = [process_lpm_UTIL_EXIT] /\ first_run (snd (fst r)) = 1).
Proof.
  intros Hw Hmode Hmon Hinit Hfr Ho Hi H.
  destruct (simple_mode_tick_warm w inp s r Hw Hmode Hmon Hinit H)
    as (s3 & -> & Hf3 & Hh3).
  assert (Hp : forall st,
            util_should_proceed st (now_proceed inp) (hy s3)
            = (1, hy s3)).
  { intros st. unfold util_should_proceed. rewrite Hh3, Ho, Hi.
    reflexivity. }
  unfold simple_tick, get_sys_stat. rewrite Hp, Hf3, Hfr.
  change (negb (0 =? 0)) with false. change (1 =? 0) with false. cbv iota.
  split.
  - intros Hlpm. rewrite Hlpm. cbn [negb andb].
    destruct (Z.leb_spec (ProcStat.busy_sys (snap s3))
                (imul (util_entry_threshold (plat inp)) 100));
      cbn [fst snd snap first_run]; [auto | lia].
  - intros Hlpm. rewrite Hlpm. cbn [negb andb].
    destruct (Z.ltb_spec (imul (util_exit_threshold (plat inp)) 100)
                (ProcStat.busy_cpu (snap s3)));
      cbn [fst snd snap first_run]; [auto | lia].
Qed.

End DriverLive.

(** X24 at a concrete input: a system load of 50% under an entry
    threshold of 60%. *)
Lemma simple_mode_acts_without_hysteresis_witness :
  exists r,
    Driver.periodic_util_update (-1) (-1) DriverRef.tick1 DriverRef.warm
    = Some r
    /\ snd r = [Driver.Act Matcher.process_lpm_UTIL_ENTER]
    /\ Driver.first_run (snd (fst r)) = 1.
Proof.
  destruct (Driver.periodic_util_update (-1) (-1) DriverRef.tick1
              DriverRef.warm) as [r|] eqn:H;
    [|vm_compute in H; discriminate H].
  exists r. split; [reflexivity|].
  apply (proj1 (simple_mode_acts_without_hysteresis (-1) (-1)
                  DriverRef.tick1 DriverRef.warm r ltac:(lia)
                  (or_introl eq_refl) eq_refl ltac:(discriminate) eq_refl
                  eq_refl eq_refl H)).
  - reflexivity.
  - vm_compute in H. injection H as <-. vm_compute. discriminate.
Defined.

(** ** Spike-burst detector: bursts, rates and the strike countdown *)

Section SpikeMore.
Import SpikeMgmt SpikeInv.

Lemma spike_time_inv_init D : 0 <= D -> spike_time_inv D detector_init.
Proof.
  unfold spike_time_inv, MAX_TRACKED_SPIKE_TIME. cbn. lia.
Qed.

Lemma rate_of_in_int (T : Z) : in_int (rate_of T).
Proof.
  unfold rate_of, idiv, imul, MAX_TRACKED_SPIKE_TIME.
  pose proof (to_int_range (T * 100)) as Hr.
  unfold in_int, INT_MIN, INT_MAX in *.
  destruct (quot_const_bounds (to_int (T * 100)) 1000 ltac:(lia))
    as [Hpos Hneg].
  destruct (Z.ltb_spec 100 (Z.quot (to_int (T * 100)) 1000)); [lia|].
  destruct (Z.le_ge_cases 0 (to_int (T * 100)));
    [specialize (Hpos ltac:(lia)) | specialize (Hneg ltac:(lia))]; lia.
Qed.

Lemma rate_of_zero_iff (T : Z) :
  0 <= T -> T * 100 <= INT_MAX -> (rate_of T = 0 <-> T < 10).
Proof.
  intros H0 Hmax. unfold rate_of, idiv, MAX_TRACKED_SPIKE_TIME.
  rewrite imul_small by (unfold in_int, INT_MIN, INT_MAX in *; lia).
  rewrite Z.quot_div_nonneg by lia.
  destruct (Z.ltb_spec 100 (T * 100 / 1000));
    Z.to_euclidean_division_equations; lia.
Qed.

Lemma reachable_invs (D : Z) (cs : list call) (d : detector) :
  0 <= D <= INT_MAX - (MAX_TRACKED_SPIKE_TIME - 1) ->
  Z.of_nat (length cs) <= INT_MAX ->
  Forall (fun c => 0 <= call_duration c <= D) cs ->
  run cs detector_init = Some d ->
  spike_time_inv D d /\ samples_inv (Z.of_nat (length cs)) d.
Proof.
  intros HD Hlen Hall Hrun. split.
  - apply (run_spike_time D cs detector_init d HD Hall
             (spike_time_inv_init D ltac:(lia)) Hrun).
  - destruct (run_samples cs 0 detector_init samples_inv_init ltac:(lia))
      as (d' & Hrun' & Hinv).
    rewrite Hrun in Hrun'. injection Hrun' as <-. exact Hinv.
Qed.

Lemma rising_edge_fields (t : Z) (e : env) (d : detector) :
  quiescent d ->
  let d' := add_spike_time t e d in
  spike_burst_flag d' = true
  /\ spike_rate_samples d' = 1
  /\ spike_rate_total d' = get_spike_rate d'
  /\ burst_count d' = burst_count d
  /\ spike_sec_prev d' = spike_sec_prev d
  /\ once_flag d' = 0.
Proof.
  intros (Hf & Ho & Ht & Hs). cbv zeta.
  rewrite get_spike_rate_of, (proj1 (add_spike_time_fields t e d)).
  rewrite add_spike_time_eq. cbv zeta. rewrite Hf. cbn [negb].
  cbn [update_spike_rate_avg set_spike_burst_flag set_total_spike_time
       spike_burst_flag spike_rate_samples spike_rate_total burst_count
       spike_sec_prev once_flag].
  rewrite Hs, Ht, Ho. unfold iadd. rewrite !Z.add_0_l.
  rewrite (to_int_small _ (rate_of_in_int _)).
  repeat split; reflexivity.
Qed.

(** X25: the rate is a percentage.  From the initial state, after any
    sequence of calls with durations in 0 .. [D], [get_spike_rate] is
    in 0 .. 100, the sum of the rates of the current burst is at most 100
    per sample, and [bc_reset_min] holds a whole number in 15 .. 90. *)
Theorem spike_rate_is_percentage (D : Z) (cs : list call) :
  0 <= D -> (MAX_TRACKED_SPIKE_TIME - 1 + D) * 100 <= INT_MAX ->
  Z.of_nat (length cs) <= 21474836 ->
  Forall (fun c => 0 <= call_duration c <= D) cs ->
  exists d, run cs detector_init = Some d
            /\ 0 <= get_spike_rate d <= 100
            /\ 0 <= spike_rate_total d <= 100 * spike_rate_samples d
            /\ exists k, bc_reset_min_is k d /\ 15 <= k <= 90.
Proof.
  intros HD Hfit Hlen Hall.
  destruct (bc_reset_min_window D cs HD Hfit Hlen Hall)
    as (d & Hrun & Ht & Hb).
  exists d. split; [exact Hrun|]. split; [|split; assumption].
  assert (HD' : 0 <= D <= INT_MAX - (MAX_TRACKED_SPIKE_TIME - 1))
    by (unfold MAX_TRACKED_SPIKE_TIME, INT_MAX in *; lia).
  destruct (reachable_invs D cs d HD' ltac:(unfold INT_MAX; lia) Hall Hrun)
    as [Hst _].
  rewrite get_spike_rate_of. unfold spike_time_inv in Hst.
  apply rate_of_range; [lia|].
  unfold MAX_TRACKED_SPIKE_TIME in *. lia.
Qed.

(** X26: a rising edge starts a fresh average and counts nothing.  In
    every state reached from the initial state with the burst flag clear,
    the per-burst guard and the accumulators of the average are 0, and an
    [add_spike_time] call sets the flag, makes its own rate the one sample
    of the average and leaves [burst_count] and its time stamp alone. *)
Theorem rising_edge_starts_fresh_average (cs : list call) (d : detector)
    (t : Z) (e : env) :
  Z.of_nat (length cs) <= INT_MAX ->
  run cs detector_init = Some d ->
  spike_burst_flag d = false ->
  (once_flag d = 0 /\ spike_rate_total d = 0 /\ spike_rate_samples d = 0)
  /\ (let d' := add_spike_time t e d in
      spike_burst_flag d' = true
      /\ spike_rate_samples d' = 1
      /\ spike_rate_total d' = get_spike_rate d'
      /\ burst_count d' = burst_count d
      /\ spike_sec_prev d' = spike_sec_prev d
      /\ once_flag d' = 0).
Proof.
  intros Hlen Hrun Hf.
  pose proof (quiescent_reachable cs d Hlen Hrun Hf) as Hq.
  split; [apply Hq | apply rising_edge_fields; exact Hq].
Qed.

(** X27: a burst ends at the call that brings [total_spike_time] below
    10.  In a state reached from the initial state with durations in
    0 .. [D] and the burst flag set, [add_non_spike_time (t)] returns,
    leaves [total_spike_time - t] floored at 0, and clears the flag (and
    with it the accumulators of the average) exactly when that is below
    10; otherwise the burst goes on with its samples kept. *)
Theorem burst_ends_below_ten (D : Z) (cs : list call) (d : detector)
    (t : Z) (e : env) :
  0 <= D -> (MAX_TRACKED_SPIKE_TIME - 1 + D) * 100 <= INT_MAX ->
  Z.of_nat (length cs) <= INT_MAX ->
  Forall (fun c => 0 <= call_duration c <= D) cs ->
  run cs detector_init = Some d ->
  spike_burst_flag d = true -> 0 <= t <= D ->
  exists d',
    add_non_spike_time t e d = Some d'
    /\ total_spike_time d' = Z.max 0 (total_spike_time d - t)
    /\ (total_spike_time d - t < 10 ->
        spike_burst_flag d' = false /\ spike_rate_samples d' = 0
        /\ spike_rate_total d' = 0 /\ once_flag d' = 0)
    /\ (10 <= total_spike_time d - t ->
        spike_burst_flag d' = true
        /\ spike_rate_samples d' = spike_rate_samples d
        /\ spike_rate_total d' = spike_rate_total d).
Proof.
  intros HD Hfit Hlen Hall Hrun Hf Ht.
  assert (HD' : 0 <= D <= INT_MAX - (MAX_TRACKED_SPIKE_TIME - 1))
    by (unfold MAX_TRACKED_SPIKE_TIME, INT_MAX in *; lia).
  destruct (reachable_invs D cs d HD' Hlen Hall Hrun) as [Hst Hsm].
  unfold spike_time_inv, MAX_TRACKED_SPIKE_TIME in Hst, Hfit.
  assert (HT : spike_time_after_non_spike t d
               = Z.max 0 (total_spike_time d - t)).
  { unfold spike_time_after_non_spike.
    destruct (Z.ltb_spec 0 (total_spike_time d)); [|lia].
    rewrite isub_small by (unfold in_int, INT_MIN, INT_MAX in *; lia).
    reflexivity. }
  assert (Hz : rate_of (spike_time_after_non_spike t d) = 0
               <-> total_spike_time d - t < 10).
  { rewrite HT. rewrite rate_of_zero_iff by lia. lia. }
  destruct (add_non_spike_time_samples _ t e d Hsm) as (d' & Hstep & _).
  exists d'. split; [exact Hstep|].
  split; [rewrite (add_non_spike_time_total t e d d' Hstep); exact HT|].
  destruct Hsm as [_ Hpos]. specialize (Hpos Hf). split.
  - intros Hlow. apply Hz in Hlow.
    rewrite (add_non_spike_time_falling t e d Hlow Hf ltac:(lia)) in Hstep.
    cbv zeta in Hstep. injection Hstep as <-.
    cbn [set_once_flag clear_spike_rate_avg set_bc_reset_min
         spike_burst_flag spike_rate_samples spike_rate_total once_flag].
    rewrite (proj1 (proj2 (proj2 (proj2
               (maybe_update_fields (once_flag d =? 0) 1 e
                  (set_spike_burst_flag false
                     (set_total_spike_time
                        (spike_time_after_non_spike t d) d))))))).
    repeat split; reflexivity.
  - intros Hhigh.
    assert (Hnz : (rate_of (spike_time_after_non_spike t d) =? 0)
                  && spike_burst_flag d = false).
    { apply andb_false_iff. left. apply Z.eqb_neq. intros Hr.
      apply Hz in Hr. lia. }
    rewrite (add_non_spike_time_not_falling t e d Hnz) in Hstep.
    injection Hstep as <-.
    destruct (update_burst_count_fields 0 e
                (set_total_spike_time (spike_time_after_non_spike t d) d))
      as (_ & Hr' & Hs' & Hf' & _).
    cbn [set_once_flag spike_burst_flag spike_rate_samples spike_rate_total].
    rewrite Hr', Hs', Hf'. cbn. auto.
Qed.

(** X28: a lone spike is counted as a burst.  In a state reached from
    the initial state with the burst flag clear (and the time stamp of the
    burst count seeded), one [add_spike_time] call followed by an
    [add_non_spike_time] call that brings [get_spike_rate] back to 0
    increments [burst_count], when the clock is readable and
    [get_cur_state () <= MDRT4E_MODE] holds at the second call. *)
Theorem lone_spike_counts_as_burst (cs : list call) (d : detector)
    (t1 t2 : Z) (e1 e2 : env) (s : Z) :
  Z.of_nat (length cs) < INT_MAX ->
  run cs detector_init = Some d ->
  spike_burst_flag d = false ->
  spike_sec_prev d <> 0 ->
  in_int (burst_count d + 1) ->
  clock e2 = Some s -> cur_state_le_MDRT4E e2 = true ->
  exists d2,
    add_non_spike_time t2 e2 (add_spike_time t1 e1 d) = Some d2
    /\ (get_spike_rate d2 = 0 ->
        burst_count d2 = burst_count d + 1 /\ spike_burst_flag d2 = false).
Proof.
  intros Hlen Hrun Hf Hseed Hfit Hclock Hcur.
  pose proof (quiescent_reachable cs d ltac:(lia) Hrun Hf) as Hq.
  destruct (rising_edge_fields t1 e1 d Hq)
    as (Hf1 & Hs1 & _ & Hb1 & Hp1 & Ho1).
  cbv zeta in *. set (d1 := add_spike_time t1 e1 d) in *.
  assert (Hsm : samples_inv 1 d1) by (unfold samples_inv; lia).
  destruct (add_non_spike_time_samples 1 t2 e2 d1 Hsm) as (d2 & Hstep & _).
  exists d2. split; [exact Hstep|]. intros Hrate.
  rewrite get_spike_rate_of, (add_non_spike_time_total t2 e2 d1 d2 Hstep)
    in Hrate.
  destruct (falling_edge_fields t2 e2 d1 s Hrate Hf1 ltac:(lia))
    as (d3 & Hstep' & Hb3 & Hf3 & _).
  { right. rewrite Hp1. auto. }
  rewrite Hstep in Hstep'. injection Hstep' as <-.
  rewrite Hb3, Ho1, Hb1. change (0 =? 0) with true. cbv iota.
  split; [apply iadd_small; exact Hfit | exact Hf3].
Qed.

Lemma strikeout_run_countdown (n : Z) (k : nat) : forall d,
  Z.of_nat k <= strike_count d <= INT_MAX ->
  fst (strikeout_run (replicate k n) d)
  = map (fun i => strike_count d - 1 - Z.of_nat i) (seq 0 k)
  /\ strike_count (snd (strikeout_run (replicate k n) d))
     = strike_count d - Z.of_nat k.
Proof.
  induction k as [|k IH]; intros d Hc.
  - cbn. split; [reflexivity | lia].
  - cbn [replicate strikeout_run].
    assert (Hstep : strikeout_once n d
                    = (strike_count d - 1,
                       set_strike_count (strike_count d - 1) d)).
    { unfold strikeout_once.
      destruct (Z.eqb_spec (strike_count d) 0); [lia|].
      rewrite isub_small by (unfold in_int, INT_MIN, INT_MAX in *; lia).
      destruct (Z.ltb_spec (strike_count d - 1) 0); [lia | reflexivity]. }
    rewrite Hstep.
    specialize (IH (set_strike_count (strike_count d - 1) d)).
    cbn [set_strike_count strike_count] in IH.
    destruct (strikeout_run (replicate k n) _) as [rs d2].
    cbn [fst snd] in *. destruct IH as [IH1 IH2]; [lia|].
    split; [|lia].
    cbn [seq map]. rewrite Z.sub_0_r. f_equal.
    rewrite IH1, <- seq_shift, map_map.
    apply map_ext. intros i. lia.
Qed.

(** X29: the countdown is a cycle.  Called with the same [n >= 0] from a
    count of 0, [strikeout_once] returns [n], [n - 1], ..., 1, 0 over
    its first [n + 1] calls and is then back at a count of 0, so that
    the next call seeds again. *)
Theorem strikeout_countdown_cycle (n : Z) (d : detector) :
  strike_count d = 0 -> 0 <= n <= INT_MAX ->
  let r := strikeout_run (replicate (S (Z.to_nat n)) n) d in
  fst r = map (fun i => n - Z.of_nat i) (seq 0 (S (Z.to_nat n)))
  /\ strike_count (snd r) = 0.
Proof.
  intros Hz Hn. cbv zeta. cbn [replicate strikeout_run].
  assert (Hstep : strikeout_once n d = (n, set_strike_count n d)).
  { unfold strikeout_once. rewrite Hz. change (0 =? 0) with true. cbv iota.
    destruct (Z.ltb_spec n 0); [lia | reflexivity]. }
  rewrite Hstep.
  destruct (strikeout_run_countdown n (Z.to_nat n) (set_strike_count n d))
    as [H1 H2]; [cbn; lia|].
  cbn [set_strike_count strike_count] in H1, H2.
  destruct (strikeout_run (replicate (Z.to_nat n) n) _) as [rs d2].
  cbn [fst snd] in *. split; [|lia].
  cbn [seq map]. rewrite Z.sub_0_r. f_equal.
  rewrite H1, <- seq_shift, map_map.
  apply map_ext. intros i. lia.
Qed.


End SpikeMore.

(** X25 at a concrete input: every duration is 7. *)
Lemma spike_rate_is_percentage_witness :
  exists d,
    SpikeMgmt.run
      [SpikeMgmt.Spike 7 (SpikeRef.at_second 10);
       SpikeMgmt.NonSpike 7 (SpikeRef.at_second 11)]
      SpikeMgmt.detector_init = Some d
    /\ 0 <= SpikeMgmt.get_spike_rate d <= 100
    /\ 0 <= SpikeMgmt.spike_rate_total d
         <= 100 * SpikeMgmt.spike_rate_samples d
    /\ exists k, SpikeInv.bc_reset_min_is k d /\ 15 <= k <= 90.
Proof.
  apply (spike_rate_is_percentage 7).
  - lia.
  - unfold INT_MAX, SpikeMgmt.MAX_TRACKED_SPIKE_TIME. lia.
  - simpl. lia.
  - repeat constructor; simpl; lia.
Defined.

(** X26 at a concrete input: a spike of 100 after one quiet sample. *)
Lemma rising_edge_starts_fresh_average_witness :
  SpikeMgmt.spike_rate_samples
    (SpikeMgmt.add_spike_time 100 (SpikeRef.at_second 110) SpikeRef.seeded)
  = 1
  /\ SpikeMgmt.burst_count
       (SpikeMgmt.add_spike_time 100 (SpikeRef.at_second 110)
          SpikeRef.seeded)
     = SpikeMgmt.burst_count SpikeRef.seeded.
Proof.
  destruct (rising_edge_starts_fresh_average SpikeRef.seeding_run
              SpikeRef.seeded 100 (SpikeRef.at_second 110)
              ltac:(unfold INT_MAX; simpl; lia)
              ltac:(vm_compute; reflexivity) eq_refl)
    as (_ & _ & Hs & _ & Hb & _).
  split; [exact Hs | exact Hb].
Defined.

(** X27 at a concrete input: a burst of two spikes of 100, drained by
    one quiet sample of 200. *)
Lemma burst_ends_below_ten_witness :
  exists d',
    SpikeMgmt.add_non_spike_time 200 (SpikeRef.at_second 130)
      SpikeRef.in_burst = Some d'
    /\ SpikeMgmt.total_spike_time d' = 0
    /\ SpikeMgmt.spike_burst_flag d' = false.
Proof.
  destruct (burst_ends_below_ten 200 SpikeRef.burst_run SpikeRef.in_burst
              200 (SpikeRef.at_second 130) ltac:(lia)
              ltac:(unfold INT_MAX, SpikeMgmt.MAX_TRACKED_SPIKE_TIME; lia)
              ltac:(unfold INT_MAX; simpl; lia)
              ltac:(repeat constructor; simpl; lia)
              ltac:(vm_compute; reflexivity) eq_refl ltac:(lia))
    as (d' & Hstep & Ht & Hlow & _).
  exists d'. split; [exact Hstep|]. split; [exact Ht|].
  apply Hlow. simpl. lia.
Defined.

(** X28 at a concrete input: one spike of 100 at second 110, drained at
    second 130. *)
Lemma lone_spike_counts_as_burst_witness :
  exists d2,
    SpikeMgmt.add_non_spike_time 200 (SpikeRef.at_second 130)
      (SpikeMgmt.add_spike_time 100 (SpikeRef.at_second 110)
         SpikeRef.seeded) = Some d2
    /\ SpikeMgmt.burst_count d2 = 1.
Proof.
  destruct (lone_spike_counts_as_burst SpikeRef.seeding_run SpikeRef.seeded
              100 200 (SpikeRef.at_second 110) (SpikeRef.at_second 130) 130
              ltac:(unfold INT_MAX; simpl; lia)
              ltac:(vm_compute; reflexivity) eq_refl
              ltac:(simpl; lia)
              ltac:(unfold in_int, INT_MIN, INT_MAX; simpl; lia)
              eq_refl eq_refl)
    as (d2 & Hstep & Hedge).
  exists d2. split; [exact Hstep|].
  apply Hedge. vm_compute in Hstep. injection Hstep as <-. reflexivity.
Defined.

(** X29 at a concrete input: six calls [strikeout_once (5)]. *)
Lemma strikeout_countdown_cycle_witness :
  fst (SpikeMgmt.strikeout_run [5; 5; 5; 5; 5; 5] SpikeMgmt.detector_init)
  = [5; 4; 3; 2; 1; 0].
Proof.
  apply (proj1 (strikeout_countdown_cycle 5 SpikeMgmt.detector_init eq_refl
                  ltac:(unfold INT_MAX; lia))).
Defined.

